(** * thriftgo: the Go backend driver and the trimmer's pre-processing pass

    A shallow embedding of [generator/golang/backend.go] and of
    [Trimmer.preProcess] (package [trim]).

    Conventions of the embedding.
    - A pointer to a parsed file ([parser.Thrift] pointer) is an address [ptr]; the
      files live in a [heap], a finite map from addresses, so that two
      include paths reaching the same file reach the same address, and
      in-place mutation of a file is an update of the heap.
    - A Go [error] is represented by the text its [Error()] method returns;
      [nil] is [None].
    - Go strings are byte strings: [string].
    - Functions and constants of other packages ([trim.TrimAST],
      [streaming.ParseStreaming], [BuildRefScope], the template engine, ...)
      are fields of the class [golang.Collaborators]; nothing is assumed of
      them beyond their types, except where a theorem says so. *)

From Stdlib Require Import String Ascii List Bool Arith Lia.
From stdpp Require Import base option list gmap sets strings.

Import ListNotations.
Local Open Scope string_scope.
Local Open Scope list_scope.

(** ** Go standard library: [strings] and [path/filepath] *)

Module strings.

(** [len(s) >= len(suffix) && s[len(s)-len(suffix):] == suffix] *)
Definition HasSuffix (s suffix : string) : bool :=
  Nat.leb (String.length suffix) (String.length s)
  && String.eqb
       (substring (String.length s - String.length suffix)
                  (String.length suffix) s)
       suffix.

(** [if HasSuffix(s, suffix) { return s[:len(s)-len(suffix)] }; return s] *)
Definition TrimSuffix (s suffix : string) : string :=
  if HasSuffix s suffix
  then substring 0 (String.length s - String.length suffix) s
  else s.

End strings.

Module filepath.

(** [os.IsPathSeparator] on Unix. *)
Definition IsPathSeparator (c : ascii) : bool := Ascii.eqb c "/"%char.

(** The loop of [filepath.Ext]:
    [for i := len(path)-1; i >= 0 && !os.IsPathSeparator(path[i]); i--];
    the argument [n] is [i+1]. *)
Fixpoint Ext_loop (path : string) (n : nat) : string :=
  match n with
  | O => ""
  | S i =>
      match String.get i path with
      | None => ""
      | Some c =>
          if IsPathSeparator c then ""
          else if Ascii.eqb c "."%char
               then substring i (String.length path - i) path
               else Ext_loop path i
      end
  end.

Definition Ext (path : string) : string :=
  Ext_loop path (String.length path).

End filepath.

(** ** Package [parser]: the declaration graph *)

Module parser.

(** Addresses of heap objects. *)
Definition ptr := nat.

(** A declaration other than a service, identified by its address. *)
Record Decl := mkDecl { decl_addr : ptr; decl_Name : string }.

Record Function := mkFunction {
  fn_Name : string;
  fn_Oneway : bool;
  fn_Void : bool;
  fn_Annotations : list (string * list string)
}.

Record Service := mkService {
  svc_Name : string;
  svc_Extends : string;
  svc_Functions : list Function
}.

(** An include edge, itself a heap object ([parser.Include] pointer) whose
    [Reference] points to the included file. *)
Record Include := mkInclude {
  inc_addr : ptr;
  inc_Path : string;
  inc_Reference : ptr
}.

Record Thrift := mkThrift {
  Filename : string;
  Includes : list Include;
  Typedefs : list Decl;
  Constants : list Decl;
  Enums : list Decl;
  Structs : list Decl;
  Unions : list Decl;
  Exceptions : list Decl;
  Services : list Service
}.

Definition with_Services (t : Thrift) (svcs : list Service) : Thrift :=
  {| Filename := Filename t; Includes := Includes t;
     Typedefs := Typedefs t; Constants := Constants t; Enums := Enums t;
     Structs := Structs t; Unions := Unions t; Exceptions := Exceptions t;
     Services := svcs |}.

Definition with_Functions (s : Service) (fs : list Function) : Service :=
  {| svc_Name := svc_Name s; svc_Extends := svc_Extends s;
     svc_Functions := fs |}.

(** The file read through a pointer that points to no file. *)
Definition no_file : Thrift :=
  {| Filename := ""; Includes := []; Typedefs := []; Constants := [];
     Enums := []; Structs := []; Unions := []; Exceptions := [];
     Services := [] |}.

(** The store of parsed files, by address.  Dereferencing a nil or dangling
    pointer is not represented as a panic: it reads [no_file]. *)
Abbreviation heap := (gmap ptr Thrift).

Definition deref (h : heap) (p : ptr) : Thrift := default no_file (h !! p).

Definition store (h : heap) (p : ptr) (t : Thrift) : heap := <[p := t]> h.

(** [q] is reachable from [p] along include edges (in zero or more steps). *)
Inductive reachable (h : heap) (p : ptr) : ptr -> Prop :=
| reach_root : reachable h p p
| reach_step q inc :
    reachable h p q -> In inc (Includes (deref h q)) ->
    reachable h p (inc_Reference inc).

End parser.

(** ** Package [plugin]: requests and responses *)

Module plugin.
Import parser.

Record Request := mkRequest {
  Version : string;
  GeneratorParameters : list string;
  OutputPath : string;
  Recursive : bool;
  AST : ptr
}.

(** A full file carries [Name]; a fragment carries [InsertionPoint]. *)
Record Generated := mkGenerated {
  Content : string;
  Name : option string;
  InsertionPoint : option string
}.

Record Response := mkResponse {
  Error : option string;
  Contents : list Generated;
  Warnings : list string
}.

(** Modelled from the spec: [plugin.NewResponse] is not among the sources;
    a fresh Generation Response is an empty ordered list of Artifacts. *)
Definition NewResponse : Response :=
  {| Error := None; Contents := []; Warnings := [] |}.

(** Modelled from the spec: [plugin.BuildErrorResponse] is not among the
    sources; an Error Response carries one human-readable error string
    (and no Artifact). *)
Definition BuildErrorResponse (errMsg : string) : Response :=
  {| Error := Some errMsg; Contents := []; Warnings := [] |}.

Definition append_Content (r : Response) (a : Generated) : Response :=
  {| Error := Error r; Contents := Contents r ++ [a];
     Warnings := Warnings r |}.

End plugin.

(** ** Package [golang]: the backend *)

Module golang.
Import parser plugin.

(** A Go [error], by its message. *)
Definition error := string.

(** The feature flags read by [backend.go]. *)
Record Features := mkFeatures {
  TrimIDL : bool;
  ThriftStreaming : bool;
  SkipGoGen : bool;
  NoDefaultSerdes : bool;
  KeepCodeRefName : bool;
  WithReflection : bool;
  SkipEmpty : bool;
  NoFmt : bool
}.

(** The declarations driving one generated unit, by kind. *)
Record Scope := mkScope {
  constants : list Decl;
  typedefs : list Decl;
  enums : list Decl;
  structs : list Decl;
  unions : list Decl;
  exceptions : list Decl;
  services : list Service;
  synthesized : list Decl
}.

(** [Scope.IsEmpty] *)
Definition IsEmpty (s : Scope) : bool :=
  if Nat.eqb (length (constants s)) 0 &&
     Nat.eqb (length (typedefs s)) 0 &&
     Nat.eqb (length (enums s)) 0 &&
     Nat.eqb (length (structs s)) 0 &&
     Nat.eqb (length (unions s)) 0 &&
     Nat.eqb (length (exceptions s)) 0 &&
     Nat.eqb (length (services s)) 0 &&
     Nat.eqb (length (synthesized s)) 0
  then true
  else false.

(** [ToRefFilename] *)
Definition ToRefFilename (keepName : bool) (filename : string) : string :=
  if keepName then filename
  else strings.TrimSuffix filename ".go" +:+ "-ref.go".

(** [ToReflectionFilename] *)
Definition ToReflectionFilename (filename : string) : string :=
  strings.TrimSuffix filename ".go" +:+ "-reflection.go".

(** [ToReflectionRefFilename] *)
Definition ToReflectionRefFilename (keepName : bool) (filename : string)
  : string :=
  if keepName then ToReflectionFilename filename
  else strings.TrimSuffix filename ".go" +:+ "-reflection-ref.go".

(** The [CodeUtils] object: the flags ([Features()]), the selected template
    name ([Template()]), the table [alternative] and the scope being
    rendered (set by [SetRootScope]). *)
Record CodeUtils := mkCodeUtils {
  features : Features;
  template_name : string;
  alternative : gmap string (list string);
  rootScope : option Scope
}.

(** [CodeUtils.SetRootScope]: records the scope being rendered. *)
Definition SetRootScope (cu : CodeUtils) (s : Scope) : CodeUtils :=
  {| features := features cu; template_name := template_name cu;
     alternative := alternative cu; rootScope := Some s |}.

(** An entry of a [template.FuncMap]: a helper bound to the utilities, or the
    closure [func() string { return g.req.Version }]. *)
Inductive Func :=
| UtilFunc (name : string)
| VersionFunc (version : string).

(** A [template.Template]: its name, its function map, and the texts parsed
    into it, in order. *)
Record Template := mkTemplate {
  tpl_Name : string;
  tpl_funcs : gmap string Func;
  tpl_texts : list string
}.

Definition template_New (name : string) : Template :=
  {| tpl_Name := name; tpl_funcs := ∅; tpl_texts := [] |}.

Definition Funcs (t : Template) (fm : gmap string Func) : Template :=
  {| tpl_Name := tpl_Name t; tpl_funcs := fm ∪ tpl_funcs t;
     tpl_texts := tpl_texts t |}.

(** [template.Must(t.Parse(text))]; a text that does not parse, on which
    [template.Must] panics, is not represented. *)
Definition Parse (t : Template) (text : string) : Template :=
  {| tpl_Name := tpl_Name t; tpl_funcs := tpl_funcs t;
     tpl_texts := tpl_texts t ++ [text] |}.

(** What a template is executed on: a scope, or a resolved import list of
    (module path, alias) pairs. *)
Inductive TemplateData :=
| ScopeData (s : Scope)
| ImportsData (imports : list (string * string)).

(** [streaming.Streaming] *)
Record Streaming := mkStreaming {
  IsStreaming : bool;
  ClientStreaming : bool;
  ServerStreaming : bool
}.

(** [trim.TrimResultInfo]: the counters of the Trim Report. *)
Record TrimResultInfo := mkTrimResultInfo {
  StructsTrimmed : nat;
  FieldsTrimmed : nat;
  StructsTotal : nat;
  FieldsTotal : nat
}.

(** Diagnostics received by the [backend.LogFunc] sink, oldest first. *)
Inductive LogEntry :=
| Info (args : list string)
| Warn (args : list string).

(** The parts of other packages that [backend.go] calls. *)
Class Collaborators := {
  (** [NewCodeUtils(log)] *)
  NewCodeUtils : CodeUtils;
  (** [CodeUtils.HandleOptions]: updates the utilities, may fail. *)
  HandleOptions : CodeUtils -> list string -> CodeUtils * option error;
  (** [CodeUtils.BuildFuncMap] *)
  BuildFuncMap : CodeUtils -> gmap string Func;
  (** [trim.TrimAST]: prunes the graph in place. *)
  TrimAST : heap -> ptr -> heap * (TrimResultInfo + error);
  (** The two [fmt.Sprintf] texts reporting the trim counters. *)
  fmt_trim_removed : TrimResultInfo -> string;
  fmt_trim_stats : TrimResultInfo -> string;
  (** [streaming.ParseStreaming] *)
  ParseStreaming : Function -> Streaming + error;
  (** [parser.Thrift.DepthFirstSearch]: the files sent on the channel. *)
  DepthFirstSearch : heap -> ptr -> list ptr;
  (** [CodeUtils.CombineOutputPath], [CodeUtils.GetFilename] and
      [filepath.Join] *)
  CombineOutputPath : CodeUtils -> string -> heap -> ptr -> string;
  GetFilename : CodeUtils -> heap -> ptr -> string;
  Join : string -> string -> string;
  (** [BuildRefScope]: the local and the reference scope of a file; either
      may be [nil]. *)
  BuildRefScope :
    CodeUtils -> heap -> ptr -> (option Scope * option Scope) + error;
  (** [Scope.ResolveImports] *)
  ResolveImports : Scope -> list (string * string) + error;
  (** [template.Template.ExecuteTemplate], given the state of the
      utilities its helpers read: the text written to the buffer and the
      error. *)
  ExecuteTemplate :
    CodeUtils -> Template -> string -> TemplateData -> string * option error;
  (** Template texts and names of the [templates] packages. *)
  Templates : list string;
  NoDefaultCodecExtension : list string;
  defaultTemplate : string;
  ref_tpl_File : string;
  reflection_tpl_File : string;
  reflection_tpl_FileRef : string;
  (** [format.Source] *)
  format_Source : string -> string + error
}.

(** The backend object.  Pointer fields hold their pointee: [Generate]
    assigns [req], [res] and [log] on entry, [utils] is assigned by
    [prepareUtilities] and the templates by [prepareTemplates] before
    anything reads them.  [poolBuffer] is the package-level [sync.Pool]: the
    buffers at rest, each with the bytes left in it. *)
Record GoBackend := mkGoBackend {
  err : option error;
  tpl : Template;
  refTpl : Template;
  reflectionTpl : Template;
  reflectionRefTpl : Template;
  req : Request;
  res : Response;
  log : list LogEntry;
  utils : CodeUtils;
  funcs : gmap string Func;
  poolBuffer : list string
}.

Definition with_err (g : GoBackend) (e : option error) : GoBackend :=
  {| err := e; tpl := tpl g; refTpl := refTpl g;
     reflectionTpl := reflectionTpl g;
     reflectionRefTpl := reflectionRefTpl g; req := req g; res := res g;
     log := log g; utils := utils g; funcs := funcs g;
     poolBuffer := poolBuffer g |}.

Definition with_templates (g : GoBackend) (t rt flt flrt : Template)
  : GoBackend :=
  {| err := err g; tpl := t; refTpl := rt; reflectionTpl := flt;
     reflectionRefTpl := flrt; req := req g; res := res g; log := log g;
     utils := utils g; funcs := funcs g; poolBuffer := poolBuffer g |}.

Definition with_entry (g : GoBackend) (r : Request) (rs : Response)
  (l : list LogEntry) : GoBackend :=
  {| err := err g; tpl := tpl g; refTpl := refTpl g;
     reflectionTpl := reflectionTpl g;
     reflectionRefTpl := reflectionRefTpl g; req := r; res := rs; log := l;
     utils := utils g; funcs := funcs g; poolBuffer := poolBuffer g |}.

Definition with_res (g : GoBackend) (rs : Response) : GoBackend :=
  {| err := err g; tpl := tpl g; refTpl := refTpl g;
     reflectionTpl := reflectionTpl g;
     reflectionRefTpl := reflectionRefTpl g; req := req g; res := rs;
     log := log g; utils := utils g; funcs := funcs g;
     poolBuffer := poolBuffer g |}.

Definition with_utils (g : GoBackend) (cu : CodeUtils) : GoBackend :=
  {| err := err g; tpl := tpl g; refTpl := refTpl g;
     reflectionTpl := reflectionTpl g;
     reflectionRefTpl := reflectionRefTpl g; req := req g; res := res g;
     log := log g; utils := cu; funcs := funcs g;
     poolBuffer := poolBuffer g |}.

Definition with_funcs (g : GoBackend) (fm : gmap string Func) : GoBackend :=
  {| err := err g; tpl := tpl g; refTpl := refTpl g;
     reflectionTpl := reflectionTpl g;
     reflectionRefTpl := reflectionRefTpl g; req := req g; res := res g;
     log := log g; utils := utils g; funcs := fm;
     poolBuffer := poolBuffer g |}.

Definition with_pool (g : GoBackend) (p : list string) : GoBackend :=
  {| err := err g; tpl := tpl g; refTpl := refTpl g;
     reflectionTpl := reflectionTpl g;
     reflectionRefTpl := reflectionRefTpl g; req := req g; res := res g;
     log := log g; utils := utils g; funcs := funcs g; poolBuffer := p |}.

(** [g.log.Warn(args...)] and [g.log.Info(args...)] *)
Definition log_Warn (g : GoBackend) (args : list string) : GoBackend :=
  {| err := err g; tpl := tpl g; refTpl := refTpl g;
     reflectionTpl := reflectionTpl g;
     reflectionRefTpl := reflectionRefTpl g; req := req g; res := res g;
     log := log g ++ [Warn args]; utils := utils g; funcs := funcs g;
     poolBuffer := poolBuffer g |}.

Definition log_Info (g : GoBackend) (args : list string) : GoBackend :=
  {| err := err g; tpl := tpl g; refTpl := refTpl g;
     reflectionTpl := reflectionTpl g;
     reflectionRefTpl := reflectionRefTpl g; req := req g; res := res g;
     log := log g ++ [Info args]; utils := utils g; funcs := funcs g;
     poolBuffer := poolBuffer g |}.

(** [poolBuffer.Get()]: a buffer at rest, or a new empty one. *)
Definition pool_Get (pool : list string) : string * list string :=
  match pool with
  | w :: rest => (w, rest)
  | [] => ("", [])
  end.

(** [poolBuffer.Put(w)] *)
Definition pool_Put (pool : list string) (w : string) : list string :=
  w :: pool.

Section Backend.
Context `{Collaborators}.

(** [GoBackend.prepareUtilities] *)
Definition prepareUtilities (g : GoBackend) : GoBackend :=
  match err g with
  | Some _ => g
  | None =>
      let g := with_utils g NewCodeUtils in
      let '(cu, e) := HandleOptions (utils g) (GeneratorParameters (req g)) in
      let g := with_err (with_utils g cu) e in
      match err g with
      | Some _ => g
      | None =>
          let g := with_funcs g (BuildFuncMap (utils g)) in
          with_funcs g
            (<["Version" := VersionFunc (Version (req g))]> (funcs g))
      end
  end.

(** [GoBackend.prepareTemplates] *)
Definition prepareTemplates (g : GoBackend) : GoBackend :=
  match err g with
  | Some _ => g
  | None =>
      let all := Funcs (template_New "thrift") (funcs g) in
      let tpls := Templates in
      let tpls :=
        if NoDefaultSerdes (features (utils g))
        then Templates ++ NoDefaultCodecExtension
        else tpls in
      let name := template_name (utils g) in
      let tpls :=
        if negb (String.eqb name defaultTemplate)
        then default [] (alternative (utils g) !! name)
        else tpls in
      let all := fold_left Parse tpls all in
      with_templates g all
        (Parse (Funcs (template_New "thrift-ref") (funcs g)) ref_tpl_File)
        (Parse (Funcs (template_New "thrift-reflection") (funcs g))
               reflection_tpl_File)
        (Parse (Funcs (template_New "thrift-reflection-util") (funcs g))
               reflection_tpl_FileRef)
  end.

(** [GoBackend.fillRequisitions] *)
Definition fillRequisitions (g : GoBackend) : GoBackend :=
  match err g with
  | Some _ => g
  | None => g
  end.

(** [GoBackend.renderByTemplate].  The buffer [w] taken from the pool is
    put back on every return that follows its acquisition ([defer]). *)
Definition renderByTemplate (g : GoBackend) (scope : option Scope)
  (executeTpl : Template) (filename : string) : GoBackend * option error :=
  match scope with
  | None => (g, None)
  | Some s =>
      if SkipEmpty (features (utils g)) && IsEmpty s then (g, None)
      else
        let '(w, pool) := pool_Get (poolBuffer g) in
        let w := "" in
        let g := with_utils g (SetRootScope (utils g) s) in
        let '(out, e) :=
          ExecuteTemplate (utils g) executeTpl (tpl_Name executeTpl)
                          (ScopeData s) in
        let w := w +:+ out in
        match e with
        | Some e => (with_pool g (pool_Put pool w), Some (filename +:+ ": " +:+ e))
        | None =>
            let g :=
              with_res g
                (append_Content (res g)
                   {| Content := w; Name := Some filename;
                      InsertionPoint := None |}) in
            match ResolveImports s with
            | inr e => (with_pool g (pool_Put pool w), Some e)
            | inl imports =>
                let w := "" in
                let '(out, e) :=
                  ExecuteTemplate (utils g) executeTpl "Imports"
                                  (ImportsData imports) in
                let w := w +:+ out in
                match e with
                | Some e =>
                    (with_pool g (pool_Put pool w),
                     Some (filename +:+ ": " +:+ e))
                | None =>
                    let point := "imports" in
                    let g :=
                      with_res g
                        (append_Content (res g)
                           {| Content := w; Name := None;
                              InsertionPoint := Some point |}) in
                    (with_pool g (pool_Put pool w), None)
                end
            end
        end
  end.

(** [GoBackend.renderOneFile] *)
Definition renderOneFile (g : GoBackend) (h : heap) (ast : ptr)
  : GoBackend * option error :=
  let keepName := KeepCodeRefName (features (utils g)) in
  let path := CombineOutputPath (utils g) (OutputPath (req g)) h ast in
  let filename := Join path (GetFilename (utils g) h ast) in
  match BuildRefScope (utils g) h ast with
  | inr e => (g, Some e)
  | inl (localScope, refScope) =>
      let '(g, e) := renderByTemplate g localScope (tpl g) filename in
      match e with
      | Some _ => (g, e)
      | None =>
          let '(g, e) :=
            renderByTemplate g refScope (refTpl g)
                             (ToRefFilename keepName filename) in
          match e with
          | Some _ => (g, e)
          | None =>
              if WithReflection (features (utils g)) then
                let '(g, e) :=
                  renderByTemplate g refScope (reflectionRefTpl g)
                    (ToReflectionRefFilename keepName filename) in
                match e with
                | Some _ => (g, e)
                | None =>
                    renderByTemplate g localScope (reflectionTpl g)
                                     (ToReflectionFilename filename)
                end
              else (g, None)
          end
      end
  end.

(** The loop of [GoBackend.executeTemplates] over the files received from
    the channel; [processed] is the map [map[*parser.Thrift]bool], keyed by
    address. *)
Fixpoint executeTemplates_loop (g : GoBackend) (h : heap)
  (processed : gset ptr) (trees : list ptr) : GoBackend :=
  match trees with
  | [] => g
  | ast :: trees =>
      if decide (ast ∈ processed) then
        executeTemplates_loop g h processed trees
      else
        let processed := {[ast]} ∪ processed in
        let g := log_Info g ["Processing"; Filename (deref h ast)] in
        let '(g, e) := renderOneFile g h ast in
        let g := with_err g e in
        match err g with
        | Some _ => g
        | None => executeTemplates_loop g h processed trees
        end
  end.

(** [GoBackend.executeTemplates] *)
Definition executeTemplates (g : GoBackend) (h : heap) : GoBackend :=
  match err g with
  | Some _ => g
  | None =>
      let processed : gset ptr := ∅ in
      let trees :=
        if Recursive (req g) then DepthFirstSearch h (AST (req g))
        else [AST (req g)] in
      executeTemplates_loop g h processed trees
  end.

(** [GoBackend.buildResponse] *)
Definition buildResponse (g : GoBackend) : Response :=
  match err g with
  | Some e => BuildErrorResponse e
  | None => res g
  end.

(** [GoBackend.PostProcess] *)
Definition PostProcess (g : GoBackend) (path : string) (content : string)
  : GoBackend * (string * option error) :=
  if NoFmt (features (utils g)) then (g, (content, None))
  else if String.eqb (filepath.Ext path) ".go" then
    match format_Source content with
    | inr e =>
        (log_Warn g ["Failed to format " +:+ path +:+ ": " +:+ e],
         (content, None))
    | inl formated => (g, (formated, None))
    end
  else (g, (content, None)).

(** The inner loop of [GoBackend.removeStreamingFunctions] over the
    functions of the service named [svcName]; [functions] is the slice being
    built. *)
Fixpoint removeStreamingFunctions_funcs (g : GoBackend) (svcName : string)
  (fs : list Function) (functions : list Function)
  : GoBackend * list Function :=
  match fs with
  | [] => (g, functions)
  | f :: fs =>
      match ParseStreaming f with
      | inr e =>
          let g :=
            log_Warn g
              [svcName +:+ "." +:+ fn_Name f
                 +:+ ": failed to parse streaming, err = " +:+ e] in
          removeStreamingFunctions_funcs g svcName fs functions
      | inl st =>
          if IsStreaming st then
            let g :=
              log_Warn g
                ["skip streaming function " +:+ svcName +:+ "." +:+ fn_Name f
                   +:+ ": not supported by your kitex, "
                   +:+ "please update your kitex tool to the latest version"] in
            removeStreamingFunctions_funcs g svcName fs functions
          else
            removeStreamingFunctions_funcs g svcName fs (functions ++ [f])
      end
  end.

(** The outer loop of [GoBackend.removeStreamingFunctions] over the
    services: each service keeps its place and gets the filtered slice. *)
Fixpoint removeStreamingFunctions_svcs (g : GoBackend) (svcs : list Service)
  : GoBackend * list Service :=
  match svcs with
  | [] => (g, [])
  | svc :: svcs =>
      let '(g, functions) :=
        removeStreamingFunctions_funcs g (svc_Name svc) (svc_Functions svc)
                                       [] in
      let svc := with_Functions svc functions in
      let '(g, svcs) := removeStreamingFunctions_svcs g svcs in
      (g, svc :: svcs)
  end.

(** [GoBackend.removeStreamingFunctions]: the file at [ast] is updated in
    place. *)
Definition removeStreamingFunctions (g : GoBackend) (h : heap) (ast : ptr)
  : GoBackend * heap :=
  let '(g, svcs) := removeStreamingFunctions_svcs g (Services (deref h ast)) in
  (g, store h ast (with_Services (deref h ast) svcs)).

(** What a run of [Generate] leaves: the backend, the graph and the
    response returned. *)
Record Run := mkRun {
  backend : GoBackend;
  graph : heap;
  response : Response
}.

(** [GoBackend.Generate], lines 88-91: the fields assigned on entry, then
    [prepareUtilities]; [l] is what the log sink has received so far. *)
Definition Generate_entry (g : GoBackend) (r : Request) (l : list LogEntry)
  : GoBackend :=
  let g := with_entry g r NewResponse l in
  prepareUtilities g.

(** [GoBackend.Generate], lines 92-104: the trimming block, which either
    returns the response of a failed trim or falls through. *)
Definition Generate_trim (g : GoBackend) (h : heap)
  : (GoBackend * heap) + Run :=
  if TrimIDL (features (utils g)) then
    let g := log_Warn g ["You Are Using IDL Trimmer"] in
    match TrimAST h (AST (req g)) with
    | (h, inr e) =>
        let g := log_Warn g ["trim error:"; e] in
        let g := with_err g (Some e) in
        inr {| backend := g; graph := h; response := buildResponse g |}
    | (h, inl tr) =>
        let g := log_Warn g [fmt_trim_removed tr] in
        let g := log_Warn g [fmt_trim_stats tr] in
        inl (g, h)
    end
  else inl (g, h).

(** [GoBackend.Generate], lines 105-107: the capability filter, applied to
    [req.GetAST()]. *)
Definition Generate_filter (g : GoBackend) (h : heap) : GoBackend * heap :=
  if negb (ThriftStreaming (features (utils g)))
  then removeStreamingFunctions g h (AST (req g))
  else (g, h).

(** [GoBackend.Generate], lines 109-115: rendering, unless skipped. *)
Definition Generate_render (g : GoBackend) (h : heap) : GoBackend :=
  if SkipGoGen (features (utils g))
  then log_Warn g ["You are skipping Thriftgo Go Code Generating"]
  else
    let g := prepareTemplates g in
    let g := fillRequisitions g in
    executeTemplates g h.

(** [GoBackend.Generate] *)
Definition Generate (g : GoBackend) (h : heap) (r : Request)
  (l : list LogEntry) : Run :=
  let g := Generate_entry g r l in
  match Generate_trim g h with
  | inr early => early
  | inl (g, h) =>
      let '(g, h) := Generate_filter g h in
      let g := Generate_render g h in
      {| backend := g; graph := h; response := buildResponse g |}
  end.

End Backend.

End golang.

(** ** Package [trim]: the pre-processing pass of the trimmer *)

Module trim.
Import parser.

(** The trimmer: [marks] maps a file name to the Mark Set of that file, a
    set of kept objects (declarations and include edges) keyed by address. *)
Record Trimmer := mkTrimmer {
  marks : gmap string (gset ptr);
  structsTrimmed : nat;
  fieldsTrimmed : nat
}.

Definition with_marks (t : Trimmer) (m : gmap string (gset ptr)) : Trimmer :=
  {| marks := m; structsTrimmed := structsTrimmed t;
     fieldsTrimmed := fieldsTrimmed t |}.

(** [t.marks[filename][k] = struct{}{}]; writing into the inner map of a
    file name that has none panics ([None]). *)
Definition mark (t : Trimmer) (filename : string) (k : ptr)
  : option Trimmer :=
  match marks t !! filename with
  | None => None
  | Some s => Some (with_marks t (<[filename := {[k]} ∪ s]> (marks t)))
  end.

(** [k] is in the Mark Set of [filename]. *)
Definition kept (t : Trimmer) (filename : string) (k : ptr) : Prop :=
  exists s, marks t !! filename = Some s /\ k ∈ s.

(** [rec] returns on the files included through [includes] when the Mark
    Set of [filename] is initialised, and only adds to it. *)
Definition returns_on (filename : string)
  (rec : Trimmer -> ptr -> string -> option (Trimmer * bool))
  (includes : list Include) : Prop :=
  forall (t : Trimmer) (s : gset ptr) (inc : Include),
    In inc includes ->
    marks t !! filename = Some s ->
    exists t' b s',
      rec t (inc_Reference inc) filename = Some (t', b)
      /\ marks t' !! filename = Some s' /\ s ⊆ s'.

Section PreProcess.

(** [Trimmer.markKeptPart] is not among the sources: it marks declarations
    of the file at [ast] in the Mark Set of [filename] and reports whether
    it marked any. *)
Variable markKeptPart : Trimmer -> heap -> ptr -> string -> Trimmer * bool.

(** The graph; marking does not change it. *)
Variable h : heap.

(** The loop of [Trimmer.preProcess] over [ast.Includes]; [rec] is the
    recursive call. *)
Fixpoint preProcess_loop
  (rec : Trimmer -> ptr -> string -> option (Trimmer * bool))
  (t : Trimmer) (ret : bool) (includes : list Include) (filename : string)
  : option (Trimmer * bool) :=
  match includes with
  | [] => Some (t, ret)
  | include :: includes =>
      match rec t (inc_Reference include) filename with
      | None => None
      | Some (t, marked) =>
          if marked then
            match mark t filename (inc_addr include) with
            | None => None
            | Some t => preProcess_loop rec t true includes filename
            end
          else preProcess_loop rec t ret includes filename
      end
  end.

(** [Trimmer.preProcess].  The recursion follows include edges, so it is
    bounded by [fuel]; [None] is no result (fuel exhausted, or a panic of
    [mark]). *)
Fixpoint preProcess (fuel : nat) (t : Trimmer) (ast : ptr)
  (filename : string) : option (Trimmer * bool) :=
  match fuel with
  | O => None
  | S fuel =>
      let '(t, ret) := markKeptPart t h ast filename in
      preProcess_loop (preProcess fuel) t ret (Includes (deref h ast))
                      filename
  end.

(** Include chains from [p] have fewer than [n] edges: the include relation
    below [p] is acyclic and [n] bounds its depth. *)
Inductive depth_le : nat -> ptr -> Prop :=
| depth_le_S n p :
    (forall inc, In inc (Includes (deref h p)) ->
                 depth_le n (inc_Reference inc)) ->
    depth_le (S n) p.

(** A call [preProcess fuel t ast filename], by its arguments. *)
Definition call : Type := nat * Trimmer * ptr.

(** [makes_call filename c inc c']: the call [c] reaches the include edge
    [inc] of its file, in the state left by the edges before it, and there
    makes the recursive call [c']. *)
Inductive makes_call (filename : string) : call -> Include -> call -> Prop :=
| makes_call_intro fuel t ast t1 ret before inc after t2 ret2 :
    markKeptPart t h ast filename = (t1, ret) ->
    Includes (deref h ast) = before ++ inc :: after ->
    preProcess_loop (preProcess fuel) t1 ret before filename
      = Some (t2, ret2) ->
    makes_call filename (S fuel, t, ast) inc (fuel, t2, inc_Reference inc).

(** [c'] is a recursive call made directly by [c]. *)
Definition calls (filename : string) (c c' : call) : Prop :=
  exists inc, makes_call filename c inc c'.

End PreProcess.

End trim.

(** ** Notions used to state the properties *)

Module notions.
Import parser plugin golang.

Section Notions.
Context `{Collaborators}.

(** *** Capability filter *)

(** The function is classified, and classified as streaming. *)
Definition streaming (f : Function) : bool :=
  match ParseStreaming f with
  | inl st => IsStreaming st
  | inr _ => false
  end.

(** The function is classified. *)
Definition classifies (f : Function) : bool :=
  match ParseStreaming f with
  | inl _ => true
  | inr _ => false
  end.

(** The function is classified and is not streaming. *)
Definition supported (f : Function) : bool :=
  match ParseStreaming f with
  | inl st => negb (IsStreaming st)
  | inr _ => false
  end.

(** The warning that names a dropped streaming function. *)
Definition skip_warning (svcName : string) (f : Function) : LogEntry :=
  Warn ["skip streaming function " +:+ svcName +:+ "." +:+ fn_Name f
          +:+ ": not supported by your kitex, "
          +:+ "please update your kitex tool to the latest version"].

(** The diagnostics the filter emits for one function of a service. *)
Definition function_warnings (svcName : string) (f : Function)
  : list LogEntry :=
  match ParseStreaming f with
  | inr e =>
      [Warn [svcName +:+ "." +:+ fn_Name f
               +:+ ": failed to parse streaming, err = " +:+ e]]
  | inl st => if IsStreaming st then [skip_warning svcName f] else []
  end.

(** The diagnostics the filter emits for one service. *)
Definition service_warnings (svc : Service) : list LogEntry :=
  flat_map (function_warnings (svc_Name svc)) (svc_Functions svc).

(** The service as the filter leaves it: same service, supported functions
    only, in their order. *)
Definition filtered_service (svc : Service) : Service :=
  with_Functions svc (List.filter supported (svc_Functions svc)).

(** The filter has been exact on the file at [p]: every service that the
    file had in [h] and whose functions all classify is present in the graph
    the run leaves, with as many functions as it had that are not
    streaming. *)
Definition filter_exact_on (h : heap) (run : Run) (p : ptr) : Prop :=
  forall svc : Service,
    In svc (Services (deref h p)) ->
    forallb classifies (svc_Functions svc) = true ->
    exists svc',
      In svc' (Services (deref (graph run) p))
      /\ svc_Name svc' = svc_Name svc
      /\ length (svc_Functions svc')
         = length (svc_Functions svc)
           - length (List.filter streaming (svc_Functions svc)).

(** The backend after the sink has received the further diagnostics [ws]. *)
Definition add_log (g : GoBackend) (ws : list LogEntry) : GoBackend :=
  {| err := err g; tpl := tpl g; refTpl := refTpl g;
     reflectionTpl := reflectionTpl g;
     reflectionRefTpl := reflectionRefTpl g; req := req g; res := res g;
     log := log g ++ ws; utils := utils g; funcs := funcs g;
     poolBuffer := poolBuffer g |}.

(** *** Walker and render loop *)

(** The files of [l] that are not in [seen], each at its first occurrence. *)
Fixpoint first_occurrences (seen : gset ptr) (l : list ptr) : list ptr :=
  match l with
  | [] => []
  | p :: l =>
      if decide (p ∈ seen) then first_occurrences seen l
      else p :: first_occurrences ({[p]} ∪ seen) l
  end.

(** Rendering the files of [l] one after the other, each once, up to the
    first failure. *)
Fixpoint render_each (g : GoBackend) (h : heap) (l : list ptr) : GoBackend :=
  match l with
  | [] => g
  | ast :: l =>
      let g := log_Info g ["Processing"; Filename (deref h ast)] in
      let '(g, e) := renderOneFile g h ast in
      match e with
      | Some _ => with_err g e
      | None => render_each (with_err g None) h l
      end
  end.

(** [loop_reaches h g processed trees g' ast]: the loop of
    [executeTemplates], started in [g] on [trees], comes to render [ast] in
    the state [g'], every file rendered before it having succeeded. *)
Inductive loop_reaches (h : heap)
  : GoBackend -> gset ptr -> list ptr -> GoBackend -> ptr -> Prop :=
| reaches_here g processed ast trees :
    ast ∉ processed ->
    loop_reaches h g processed (ast :: trees) g ast
| reaches_skip g processed ast trees g' ast' :
    ast ∈ processed ->
    loop_reaches h g processed trees g' ast' ->
    loop_reaches h g processed (ast :: trees) g' ast'
| reaches_next g processed ast trees g1 g' ast' :
    ast ∉ processed ->
    renderOneFile (log_Info g ["Processing"; Filename (deref h ast)]) h ast
      = (g1, None) ->
    loop_reaches h (with_err g1 None) ({[ast]} ∪ processed) trees g' ast' ->
    loop_reaches h g processed (ast :: trees) g' ast'.

(** The files [executeTemplates] receives from the walker. *)
Definition trees_of (g : GoBackend) (h : heap) : list ptr :=
  if Recursive (req g) then DepthFirstSearch h (AST (req g))
  else [AST (req g)].

(** A fatal error occurs in the run [Generate g h r l]: option handling
    fails, or trimming is enabled and fails, or rendering is reached and
    fails for some file (scope building, import resolution and template
    execution are the failures of [renderOneFile]). *)
Inductive fatal_error (g : GoBackend) (h : heap) (r : Request)
  (l : list LogEntry) : Prop :=
| fatal_options cu e :
    HandleOptions NewCodeUtils (GeneratorParameters r) = (cu, Some e) ->
    fatal_error g h r l
| fatal_trim h' e :
    TrimIDL (features (utils (Generate_entry g r l))) = true ->
    TrimAST h (AST r) = (h', inr e) ->
    fatal_error g h r l
| fatal_render g1 h1 g2 h2 g3 ast g4 e :
    Generate_trim (Generate_entry g r l) h = inl (g1, h1) ->
    Generate_filter g1 h1 = (g2, h2) ->
    SkipGoGen (features (utils g2)) = false ->
    err g2 = None ->
    loop_reaches h2 (fillRequisitions (prepareTemplates g2)) ∅
                 (trees_of g2 h2) g3 ast ->
    renderOneFile (log_Info g3 ["Processing"; Filename (deref h2 ast)]) h2 ast
      = (g4, Some e) ->
    fatal_error g h r l.

(** *** Artifacts of one scope *)

(** [emits cu scope t filename out]: what a successful
    [renderByTemplate] of [scope] through [t] appends to the response, the
    utilities being [cu]: nothing for a nil scope or a suppressed empty one,
    otherwise the file followed by its imports fragment. *)
Inductive emits (cu : CodeUtils) (scope : option Scope) (t : Template)
  (filename : string) : list Generated -> Prop :=
| emits_nil : scope = None -> emits cu scope t filename []
| emits_suppressed s :
    scope = Some s -> SkipEmpty (features cu) = true -> IsEmpty s = true ->
    emits cu scope t filename []
| emits_file s content imports fragment :
    scope = Some s ->
    SkipEmpty (features cu) && IsEmpty s = false ->
    ExecuteTemplate (SetRootScope cu s) t (tpl_Name t) (ScopeData s)
      = (content, None) ->
    ResolveImports s = inl imports ->
    ExecuteTemplate (SetRootScope cu s) t "Imports" (ImportsData imports)
      = (fragment, None) ->
    emits cu scope t filename
      [ {| Content := content; Name := Some filename;
           InsertionPoint := None |};
        {| Content := fragment; Name := None;
           InsertionPoint := Some "imports" |} ].

(** *** Frames *)

(** [g'] differs from [g] at most in the response, the scope being
    rendered, the log and the buffer pool. *)
Definition same_setup (g g' : GoBackend) : Prop :=
  err g' = err g /\ tpl g' = tpl g /\ refTpl g' = refTpl g
  /\ reflectionTpl g' = reflectionTpl g
  /\ reflectionRefTpl g' = reflectionRefTpl g
  /\ req g' = req g /\ funcs g' = funcs g
  /\ features (utils g') = features (utils g)
  /\ template_name (utils g') = template_name (utils g)
  /\ alternative (utils g') = alternative (utils g).

(** [g] and [g'] agree on everything but the log and the buffer pool. *)
Definition agree (g g' : GoBackend) : Prop :=
  err g' = err g /\ tpl g' = tpl g /\ refTpl g' = refTpl g
  /\ reflectionTpl g' = reflectionTpl g
  /\ reflectionRefTpl g' = reflectionRefTpl g
  /\ req g' = req g /\ res g' = res g /\ funcs g' = funcs g
  /\ utils g' = utils g.

(** [g] and [g'] agree on everything but the log, the buffer pool, the
    templates and, once an error is set, the function map. *)
Definition agree_but_templates (g g' : GoBackend) : Prop :=
  err g' = err g /\ req g' = req g /\ res g' = res g
  /\ (err g = None -> funcs g' = funcs g)
  /\ utils g' = utils g.

End Notions.

End notions.

(** ** A concrete setting: collaborators, graphs and requests *)

Module demo.
Import parser plugin golang trim.

Definition no_features : Features :=
  mkFeatures false false false false false false false false.

Definition with_features (cu : CodeUtils) (f : Features) : CodeUtils :=
  {| features := f; template_name := template_name cu;
     alternative := alternative cu; rootScope := rootScope cu |}.

(** One generator parameter switches one flag on; any other is refused. *)
Definition set_option (cu : CodeUtils) (p : string)
  : CodeUtils * option error :=
  let f := features cu in
  let upd g := (with_features cu g, None) in
  if String.eqb p "trim_idl" then
    upd (mkFeatures true (ThriftStreaming f) (SkipGoGen f) (NoDefaultSerdes f)
           (KeepCodeRefName f) (WithReflection f) (SkipEmpty f) (NoFmt f))
  else if String.eqb p "thrift_streaming" then
    upd (mkFeatures (TrimIDL f) true (SkipGoGen f) (NoDefaultSerdes f)
           (KeepCodeRefName f) (WithReflection f) (SkipEmpty f) (NoFmt f))
  else if String.eqb p "skip_go_gen" then
    upd (mkFeatures (TrimIDL f) (ThriftStreaming f) true (NoDefaultSerdes f)
           (KeepCodeRefName f) (WithReflection f) (SkipEmpty f) (NoFmt f))
  else if String.eqb p "keep_code_ref_name" then
    upd (mkFeatures (TrimIDL f) (ThriftStreaming f) (SkipGoGen f)
           (NoDefaultSerdes f) true (WithReflection f) (SkipEmpty f)
           (NoFmt f))
  else if String.eqb p "with_reflection" then
    upd (mkFeatures (TrimIDL f) (ThriftStreaming f) (SkipGoGen f)
           (NoDefaultSerdes f) (KeepCodeRefName f) true (SkipEmpty f)
           (NoFmt f))
  else if String.eqb p "skip_empty" then
    upd (mkFeatures (TrimIDL f) (ThriftStreaming f) (SkipGoGen f)
           (NoDefaultSerdes f) (KeepCodeRefName f) (WithReflection f) true
           (NoFmt f))
  else if String.eqb p "no_fmt" then
    upd (mkFeatures (TrimIDL f) (ThriftStreaming f) (SkipGoGen f)
           (NoDefaultSerdes f) (KeepCodeRefName f) (WithReflection f)
           (SkipEmpty f) true)
  else (cu, Some ("unknown option: " +:+ p)).

Fixpoint handle_options (cu : CodeUtils) (params : list string)
  : CodeUtils * option error :=
  match params with
  | [] => (cu, None)
  | p :: params =>
      match set_option cu p with
      | (cu, Some e) => (cu, Some e)
      | (cu, None) => handle_options cu params
      end
  end.

(** Trimming needs an entry point: it fails on a root without services. *)
Definition trim_ast (h : heap) (root : ptr)
  : heap * (TrimResultInfo + error) :=
  match Services (deref h root) with
  | [] => (h, inr "no service to start trimming from")
  | _ =>
      (h, inl {| StructsTrimmed := 0; FieldsTrimmed := 0;
                 StructsTotal := length (Structs (deref h root));
                 FieldsTotal := 0 |})
  end.

(** The call shape is read off the first annotation of the function. *)
Definition parse_streaming (f : Function) : Streaming + error :=
  match fn_Annotations f with
  | (key, [mode]) :: _ =>
      if negb (String.eqb key "streaming.mode") then
        inl (mkStreaming false false false)
      else if String.eqb mode "bidirectional" then
        inl (mkStreaming true true true)
      else if String.eqb mode "client" then inl (mkStreaming true true false)
      else if String.eqb mode "server" then inl (mkStreaming true false true)
      else inr ("invalid streaming.mode: " +:+ mode)
  | _ => inl (mkStreaming false false false)
  end.

(** A pre-order walk of the include graph that does not remember what it
    has visited: a file reached along two paths is sent twice. *)
Fixpoint walk (fuel : nat) (h : heap) (p : ptr) : list ptr :=
  match fuel with
  | O => []
  | S fuel =>
      p :: flat_map (fun inc => walk fuel h (inc_Reference inc))
                    (Includes (deref h p))
  end.

Definition empty_scope : Scope := mkScope [] [] [] [] [] [] [] [].

(** The local scope holds the declarations of the file, the reference scope
    the structs of the files it includes; a file named [broken.thrift] does
    not resolve. *)
Definition build_ref_scope (cu : CodeUtils) (h : heap) (p : ptr)
  : (option Scope * option Scope) + error :=
  if String.eqb (Filename (deref h p)) "broken.thrift" then
    inr "broken.thrift: unresolved reference Money"
  else
    inl (Some {| constants := Constants (deref h p); typedefs := Typedefs (deref h p);
                 enums := Enums (deref h p); structs := Structs (deref h p);
                 unions := Unions (deref h p); exceptions := Exceptions (deref h p);
                 services := Services (deref h p); synthesized := [] |},
         Some {| constants := []; typedefs := []; enums := [];
                 structs :=
                   flat_map (fun inc => Structs (deref h (inc_Reference inc)))
                            (Includes (deref h p));
                 unions := []; exceptions := []; services := [];
                 synthesized := [] |}).

Definition resolve_imports (s : Scope) : list (string * string) + error :=
  inl (("context", "context")
         :: map (fun d => ("gen/" +:+ decl_Name d, decl_Name d)) (structs s)).

Definition names_of (s : Scope) : list string :=
  map svc_Name (services s) ++ map decl_Name (structs s)
    ++ map decl_Name (constants s).

Definition function_names (s : Scope) : list string :=
  flat_map (fun svc => map fn_Name (svc_Functions svc)) (services s).

(** A template writes its name and the names it is given; it fails on a
    struct named [Bad] after writing a first line. *)
Definition execute_template (cu : CodeUtils) (t : Template) (name : string)
  (data : TemplateData) : string * option error :=
  match data with
  | ScopeData s =>
      if existsb (fun d => String.eqb (decl_Name d) "Bad") (structs s) then
        ("// " +:+ name, Some "template: unknown type Bad")
      else
        ("// " +:+ name +:+ " "
           +:+ String.concat "," (names_of s ++ function_names s),
         None)
  | ImportsData imports =>
      ("import " +:+ String.concat "," (map fst imports), None)
  end.

Definition format_source (content : string) : string + error :=
  if String.eqb content "func(" then inr "1:6: expected type, found 'EOF'"
  else inl (content +:+ " ").

#[export] Instance collaborators : Collaborators := {|
  NewCodeUtils :=
    {| features := no_features; template_name := "default";
       alternative := ∅; rootScope := None |};
  HandleOptions := handle_options;
  BuildFuncMap := fun _ => {["InsertionPoint" := UtilFunc "InsertionPoint"]};
  TrimAST := trim_ast;
  fmt_trim_removed := fun _ => "removed 0 unused structures with 0 fields";
  fmt_trim_stats := fun _ => "structs:1->1, fields:0->0";
  ParseStreaming := parse_streaming;
  DepthFirstSearch := walk 4;
  CombineOutputPath := fun _ out _ _ => out;
  GetFilename := fun _ h p => Filename (deref h p) +:+ ".go";
  Join := fun a b => a +:+ "/" +:+ b;
  BuildRefScope := build_ref_scope;
  ResolveImports := resolve_imports;
  ExecuteTemplate := execute_template;
  Templates := ["{{define file}}"];
  NoDefaultCodecExtension := ["{{define slim}}"];
  defaultTemplate := "default";
  ref_tpl_File := "{{define ref}}";
  reflection_tpl_File := "{{define reflection}}";
  reflection_tpl_FileRef := "{{define reflection-ref}}";
  format_Source := format_source
|}.

(** Functions: one unary, two streaming. *)
Definition GetOrder : Function := mkFunction "GetOrder" false false [].
Definition Watch : Function :=
  mkFunction "Watch" false false [("streaming.mode", ["server"])].
Definition Follow : Function :=
  mkFunction "Follow" false false [("streaming.mode", ["bidirectional"])].

Definition OrderService : Service :=
  mkService "OrderService" "" [GetOrder; Watch].
Definition UserFeed : Service := mkService "UserFeed" "" [Follow].

(** A diamond: [order] (0) includes [user] (1) and [pay] (2), which both
    include [common] (3). *)
Definition order_thrift : Thrift :=
  {| Filename := "order.thrift";
     Includes := [mkInclude 10 "user.thrift" 1; mkInclude 11 "pay.thrift" 2];
     Typedefs := []; Constants := []; Enums := [];
     Structs := [mkDecl 100 "Order"]; Unions := []; Exceptions := [];
     Services := [OrderService] |}.

Definition user_thrift : Thrift :=
  {| Filename := "user.thrift";
     Includes := [mkInclude 12 "common.thrift" 3];
     Typedefs := []; Constants := []; Enums := [];
     Structs := [mkDecl 101 "User"]; Unions := []; Exceptions := [];
     Services := [UserFeed] |}.

Definition pay_thrift : Thrift :=
  {| Filename := "pay.thrift";
     Includes := [mkInclude 13 "common.thrift" 3];
     Typedefs := []; Constants := []; Enums := [];
     Structs := [mkDecl 102 "Payment"]; Unions := []; Exceptions := [];
     Services := [] |}.

Definition common_thrift : Thrift :=
  {| Filename := "common.thrift"; Includes := [];
     Typedefs := []; Constants := [mkDecl 104 "MaxAmount"]; Enums := [];
     Structs := [mkDecl 103 "Money"]; Unions := []; Exceptions := [];
     Services := [] |}.

Definition diamond : heap :=
  list_to_map
    [(0, order_thrift); (1, user_thrift); (2, pay_thrift);
     (3, common_thrift)].

(** Two distinct parses of a file of the same name, both included by the
    root. *)
Definition twins : heap :=
  list_to_map
    [(0, {| Filename := "twins.thrift";
            Includes := [mkInclude 10 "common.thrift" 3;
                         mkInclude 11 "vendor/common.thrift" 4];
            Typedefs := []; Constants := []; Enums := []; Structs := [];
            Unions := []; Exceptions := []; Services := [] |});
     (3, common_thrift); (4, common_thrift)].

(** The same graph with [pay] replaced by a file that does not resolve. *)
Definition broken_thrift : Thrift :=
  {| Filename := "broken.thrift";
     Includes := [mkInclude 13 "common.thrift" 3];
     Typedefs := []; Constants := []; Enums := []; Structs := [];
     Unions := []; Exceptions := []; Services := [] |}.

Definition broken_diamond : heap := store diamond 2 broken_thrift.

Definition request (params : list string) (recursive : bool) : Request :=
  {| Version := "0.3.0"; GeneratorParameters := params; OutputPath := "gen";
     Recursive := recursive; AST := 0 |}.

(** The zero value of the backend, and a backend left by an earlier run. *)
Definition zero : GoBackend :=
  {| err := None; tpl := template_New ""; refTpl := template_New "";
     reflectionTpl := template_New ""; reflectionRefTpl := template_New "";
     req := request [] false; res := NewResponse; log := [];
     utils := NewCodeUtils; funcs := ∅; poolBuffer := [] |}.

Definition used : GoBackend :=
  {| err := None; tpl := template_New "old"; refTpl := template_New "old";
     reflectionTpl := template_New "old";
     reflectionRefTpl := template_New "old";
     req := request ["no_fmt"] true;
     res := {| Error := None;
               Contents := [mkGenerated "package old" (Some "old.go") None];
               Warnings := [] |};
     log := [Info ["Processing"; "old.thrift"]];
     utils := with_features NewCodeUtils
                (mkFeatures false true false false true true true true);
     funcs := ∅;
     poolBuffer := ["bytes of an earlier file"; "import old"] |}.

(** The backend after the entry block of [Generate], for a request on
    file 0. *)
Definition prepared (params : list string) (recursive : bool) : GoBackend :=
  Generate_entry zero (request params recursive) [].

(** A recursive run on the diamond, streaming support disabled. *)
Definition recursive_run : Run :=
  Generate zero diamond (request [] true) [].

(** The same run on the graph with the file that does not resolve. *)
Definition broken_run : Run :=
  Generate zero broken_diamond (request [] true) [].

(** The capability filter applied after the entry block of that run. *)
Definition filtered : GoBackend * heap :=
  Generate_filter (prepared [] true) diamond.

(** A backend ready to render with reflection enabled, and the rendering
    of the file [common] (address 3) from it. *)
Definition reflective : GoBackend :=
  prepareTemplates (prepared ["with_reflection"] true).

Definition common_rendered : GoBackend * option error :=
  renderOneFile reflective diamond 3.

(** The kept part of a file: its constants and typedefs, marked in the Mark
    Set of [filename]. *)
Definition mark_kept_part (t : Trimmer) (h : heap) (ast : ptr)
  (filename : string) : Trimmer * bool :=
  let ks := map decl_addr (Constants (deref h ast) ++ Typedefs (deref h ast)) in
  match marks t !! filename with
  | Some s =>
      (with_marks t (<[filename := list_to_set ks ∪ s]> (marks t)),
       negb (Nat.eqb (length ks) 0))
  | None => (t, false)
  end.

Definition trimmer : Trimmer :=
  {| marks := {["order.thrift" := ∅]}; structsTrimmed := 0;
     fieldsTrimmed := 0 |}.

End demo.

(** ** Shapes and invariants of the backend and of the trimmer *)

Module invariants.
Import parser plugin golang trim.

(** A sequence of Artifacts made of full files, each immediately followed
    by its imports fragment. *)
Inductive paired : list Generated -> Prop :=
| paired_nil : paired []
| paired_cons content name fragment rest :
    paired rest ->
    paired ({| Content := content; Name := Some name;
               InsertionPoint := None |}
              :: {| Content := fragment; Name := None;
                    InsertionPoint := Some "imports" |}
              :: rest).

(** Between [pool] and [pool'] every buffer taken has been put back, and at
    most one buffer has been created, which happens only on an empty pool. *)
Definition pool_kept (pool pool' : list string) : Prop :=
  length pool' = length pool \/ (pool = [] /\ length pool' = 1).

(** Every file of [S] includes a file of [S]: following those edges from a
    file of [S] never ends. *)
Definition includes_into_itself (h : heap) (S : ptr -> Prop) : Prop :=
  forall p, S p ->
    exists inc, In inc (Includes (deref h p)) /\ S (inc_Reference inc).

(** The texts [prepareTemplates] parses into the main template. *)
Definition selected_texts `{Collaborators} (cu : CodeUtils) : list string :=
  if String.eqb (template_name cu) defaultTemplate then
    if NoDefaultSerdes (features cu)
    then Templates ++ NoDefaultCodecExtension
    else Templates
  else default [] (alternative cu !! template_name cu).

End invariants.

(** ** Further concrete graphs and requests *)

Module scenarios.
Import parser plugin golang trim demo.

(** A root without services, on which trimming fails. *)
Definition no_entry : heap :=
  list_to_map [(0, pay_thrift); (3, common_thrift)].

(** A file that includes itself, and two files that include each other. *)
Definition self_including : heap :=
  list_to_map
    [(0, {| Filename := "loop.thrift";
            Includes := [mkInclude 10 "common.thrift" 3;
                         mkInclude 11 "loop.thrift" 0];
            Typedefs := []; Constants := []; Enums := []; Structs := [];
            Unions := []; Exceptions := []; Services := [] |});
     (3, common_thrift)].

(** A service with a function whose call shape does not classify. *)
Definition Odd : Function :=
  mkFunction "Odd" false false [("streaming.mode", ["sideways"])].

Definition MixedService : Service :=
  mkService "Mixed" "" [GetOrder; Watch; Odd; Follow].

Definition mixed : heap :=
  list_to_map
    [(0, {| Filename := "mixed.thrift"; Includes := [];
            Typedefs := []; Constants := []; Enums := [];
            Structs := [mkDecl 100 "Order"]; Unions := []; Exceptions := [];
            Services := [MixedService; UserFeed] |})].

(** A scope whose struct the template does not know, and one whose main
    file renders. *)
Definition bad_scope : Scope :=
  mkScope [] [] [] [mkDecl 105 "Bad"] [] [] [] [].

Definition money_scope : Scope :=
  mkScope [] [] [] [mkDecl 103 "Money"] [] [] [] [].

(** Utilities that select a template by name. *)
Definition with_template (cu : CodeUtils) (name : string)
  (alt : gmap string (list string)) : CodeUtils :=
  {| features := features cu; template_name := name; alternative := alt;
     rootScope := rootScope cu |}.

(** Collaborators that differ from those of [demo] in import resolution
    and template execution. *)
Definition with_imports (C : Collaborators)
  (resolve : Scope -> list (string * string) + error)
  (execute : CodeUtils -> Template -> string -> TemplateData
             -> string * option error) : Collaborators :=
  {| NewCodeUtils := @NewCodeUtils C;
     HandleOptions := @HandleOptions C;
     BuildFuncMap := @BuildFuncMap C;
     TrimAST := @TrimAST C;
     fmt_trim_removed := @fmt_trim_removed C;
     fmt_trim_stats := @fmt_trim_stats C;
     ParseStreaming := @ParseStreaming C;
     DepthFirstSearch := @DepthFirstSearch C;
     CombineOutputPath := @CombineOutputPath C;
     GetFilename := @GetFilename C;
     Join := @Join C;
     BuildRefScope := @BuildRefScope C;
     ResolveImports := resolve;
     ExecuteTemplate := execute;
     Templates := @Templates C;
     NoDefaultCodecExtension := @NoDefaultCodecExtension C;
     defaultTemplate := @defaultTemplate C;
     ref_tpl_File := @ref_tpl_File C;
     reflection_tpl_File := @reflection_tpl_File C;
     reflection_tpl_FileRef := @reflection_tpl_FileRef C;
     format_Source := @format_Source C |}.

(** Import resolution always fails. *)
Definition failing_resolution : Collaborators :=
  with_imports collaborators (fun _ => inr "import cycle: a -> b -> a")
               execute_template.

(** The imports template always fails. *)
Definition failing_fragment : Collaborators :=
  with_imports collaborators resolve_imports
    (fun cu t name data =>
       match data with
       | ImportsData _ => ("import (", Some "template: no template Imports")
       | ScopeData _ => execute_template cu t name data
       end).

(** A file without declarations. *)
Definition blank : heap :=
  list_to_map
    [(0, {| Filename := "blank.thrift"; Includes := []; Typedefs := [];
            Constants := []; Enums := []; Structs := []; Unions := [];
            Exceptions := []; Services := [] |})].

(** Backends whose utilities select a template by name: one that has an
    alternative, one that has none. *)
Definition slim_backend : GoBackend :=
  with_utils zero
    (with_template (@NewCodeUtils collaborators) "slim"
       {["slim" := ["{{define slim file}}"; "{{define slim struct}}"]]}).

Definition unknown_template_backend : GoBackend :=
  with_utils zero (with_template (@NewCodeUtils collaborators) "fancy" ∅).

End scenarios.

(** * Properties *)

Import parser plugin golang notions invariants.

(** A decidable proposition about concrete data, settled by evaluation. *)
Ltac by_evaluation := apply (bool_decide_unpack _); vm_compute; exact I.

(** An equation between concrete data, settled by evaluation. *)
Ltac evaluate := vm_compute; reflexivity.

(** ** File names *)

Section StringFacts.

Lemma length_append (a b : string) :
  String.length (a +:+ b) = String.length a + String.length b.
Proof. induction a as [|c a IH]; simpl; [reflexivity | now rewrite IH]. Qed.

Lemma substring_whole (b : string) : substring 0 (String.length b) b = b.
Proof. induction b as [|c b IH]; simpl; [reflexivity | now rewrite IH]. Qed.

Lemma substring_append_suffix (a b : string) :
  substring (String.length a) (String.length b) (a +:+ b) = b.
Proof. induction a as [|c a IH]; simpl; [apply substring_whole | exact IH]. Qed.

Lemma substring_append_prefix (a b : string) :
  substring 0 (String.length a) (a +:+ b) = a.
Proof.
  induction a as [|c a IH]; simpl.
  - destruct b; reflexivity.
  - now rewrite IH.
Qed.

Lemma HasSuffix_append (stem suffix : string) :
  strings.HasSuffix (stem +:+ suffix) suffix = true.
Proof.
  unfold strings.HasSuffix. rewrite length_append.
  replace (String.length stem + String.length suffix - String.length suffix)
    with (String.length stem) by lia.
  rewrite substring_append_suffix, String.eqb_refl, andb_true_r.
  apply Nat.leb_le. lia.
Qed.

Lemma TrimSuffix_append (stem suffix : string) :
  strings.TrimSuffix (stem +:+ suffix) suffix = stem.
Proof.
  unfold strings.TrimSuffix. rewrite HasSuffix_append, length_append.
  replace (String.length stem + String.length suffix - String.length suffix)
    with (String.length stem) by lia.
  apply substring_append_prefix.
Qed.

Lemma TrimSuffix_absent (s suffix : string) :
  strings.HasSuffix s suffix = false -> strings.TrimSuffix s suffix = s.
Proof. unfold strings.TrimSuffix. now intros ->. Qed.

End StringFacts.

(** C8.  The companion file names.  Under preserve-name mode the reference
    file keeps the main name and the reflection-reference file takes the
    reflection name; otherwise a main name [stem.go] gives [stem-ref.go],
    [stem-reflection.go] and [stem-reflection-ref.go].  The names depend on
    the mode and the main name only. *)
Theorem companion_filenames :
  forall (keepName : bool) (f stem : string),
    ToRefFilename true f = f
    /\ ToRefFilename false (stem +:+ ".go") = stem +:+ "-ref.go"
    /\ ToReflectionFilename (stem +:+ ".go") = stem +:+ "-reflection.go"
    /\ ToReflectionRefFilename false (stem +:+ ".go")
       = stem +:+ "-reflection-ref.go"
    /\ ToReflectionRefFilename true f = ToReflectionFilename f
    /\ (forall keepName' f', keepName = keepName' -> f = f' ->
          ToRefFilename keepName f = ToRefFilename keepName' f'
          /\ ToReflectionFilename f = ToReflectionFilename f'
          /\ ToReflectionRefFilename keepName f
             = ToReflectionRefFilename keepName' f').
Proof.
  intros keepName f stem.
  unfold ToRefFilename, ToReflectionRefFilename, ToReflectionFilename.
  rewrite !TrimSuffix_append.
  repeat split; try reflexivity; intros; subst; reflexivity.
Qed.

Lemma companion_filenames_witness :
  ToRefFilename true "gen/order.go" = "gen/order.go"
  /\ ToRefFilename false "gen/order.go" = "gen/order-ref.go"
  /\ ToReflectionFilename "gen/order.go" = "gen/order-reflection.go"
  /\ ToReflectionRefFilename false "gen/order.go"
     = "gen/order-reflection-ref.go"
  /\ ToReflectionRefFilename true "gen/order.go"
     = ToReflectionFilename "gen/order.go"
  /\ ToRefFilename false "gen/order.go" = ToRefFilename false "gen/order.go".
Proof.
  destruct (companion_filenames false "gen/order.go" "gen/order")
    as (H1 & H2 & H3 & H4 & H5 & H6).
  destruct (H6 false "gen/order.go" eq_refl eq_refl) as (H7 & _).
  repeat split; assumption.
Defined.

(** A main name that does not end in [.go] gets the suffix appended. *)
Lemma companion_filenames_no_go_suffix (f : string) :
  strings.HasSuffix f ".go" = false ->
  ToRefFilename false f = f +:+ "-ref.go"
  /\ ToReflectionFilename f = f +:+ "-reflection.go"
  /\ ToReflectionRefFilename false f = f +:+ "-reflection-ref.go".
Proof.
  intros Hf.
  unfold ToRefFilename, ToReflectionRefFilename, ToReflectionFilename.
  now rewrite (TrimSuffix_absent _ _ Hf).
Qed.

(** ** Empty scopes and post-processing *)

Section RenderFacts.
Context `{Collaborators}.

Lemma length_zero_nil {A} (l : list A) :
  Nat.eqb (length l) 0 = true <-> l = [].
Proof. destruct l; simpl; split; congruence. Qed.

Lemma IsEmpty_true (s : Scope) :
  IsEmpty s = true <->
  constants s = [] /\ typedefs s = [] /\ enums s = [] /\ structs s = []
  /\ unions s = [] /\ exceptions s = [] /\ services s = []
  /\ synthesized s = [].
Proof.
  unfold IsEmpty.
  rewrite <- !length_zero_nil.
  destruct (Nat.eqb (length (constants s)) 0),
    (Nat.eqb (length (typedefs s)) 0), (Nat.eqb (length (enums s)) 0),
    (Nat.eqb (length (structs s)) 0), (Nat.eqb (length (unions s)) 0),
    (Nat.eqb (length (exceptions s)) 0), (Nat.eqb (length (services s)) 0),
    (Nat.eqb (length (synthesized s)) 0); simpl; intuition congruence.
Qed.

(** C6.  [IsEmpty] holds exactly when every partition is empty; and with
    empty-scope suppression enabled, rendering an empty scope returns no
    error and leaves the backend, hence the response, as it was: neither a
    file nor an imports fragment is appended. *)
Theorem empty_scope_suppression :
  (forall s : Scope,
     IsEmpty s = true <->
     constants s = [] /\ typedefs s = [] /\ enums s = [] /\ structs s = []
     /\ unions s = [] /\ exceptions s = [] /\ services s = []
     /\ synthesized s = [])
  /\ (forall (g : GoBackend) (s : Scope) (t : Template) (filename : string),
        SkipEmpty (features (utils g)) = true ->
        IsEmpty s = true ->
        renderByTemplate g (Some s) t filename = (g, None)).
Proof.
  split.
  - exact IsEmpty_true.
  - intros g s t filename Hskip Hempty.
    unfold renderByTemplate. now rewrite Hskip, Hempty.
Qed.

(** C9.  [PostProcess] never returns an error.  With formatting disabled,
    or for a path whose extension is not [.go], the content comes back
    unchanged and nothing is logged; for a [.go] path whose formatting
    fails, one warning is logged and the content comes back unchanged; when
    formatting succeeds the formatted content is returned. *)
Theorem PostProcess_never_fails :
  forall (g : GoBackend) (path content : string),
    snd (snd (PostProcess g path content)) = None
    /\ (NoFmt (features (utils g)) = true ->
        PostProcess g path content = (g, (content, None)))
    /\ (filepath.Ext path <> ".go" ->
        PostProcess g path content = (g, (content, None)))
    /\ (forall e,
          NoFmt (features (utils g)) = false ->
          filepath.Ext path = ".go" ->
          format_Source content = inr e ->
          PostProcess g path content
          = (log_Warn g ["Failed to format " +:+ path +:+ ": " +:+ e],
             (content, None)))
    /\ (forall formatted,
          NoFmt (features (utils g)) = false ->
          filepath.Ext path = ".go" ->
          format_Source content = inl formatted ->
          PostProcess g path content = (g, (formatted, None))).
Proof.
  intros g path content. unfold PostProcess.
  destruct (NoFmt (features (utils g))) eqn:Hfmt.
  - repeat split; intros; congruence.
  - destruct (String.eqb_spec (filepath.Ext path) ".go") as [Hext | Hext].
    + destruct (format_Source content) as [formatted | e] eqn:Hsrc;
        repeat split; intros; congruence.
    + repeat split; intros; congruence.
Qed.

End RenderFacts.

(** ** Order of the artifacts of one file *)

Section ArtifactOrder.
Context `{Collaborators}.

Lemma same_setup_refl (g : GoBackend) : same_setup g g.
Proof. repeat split. Qed.

Lemma same_setup_trans (g1 g2 g3 : GoBackend) :
  same_setup g1 g2 -> same_setup g2 g3 -> same_setup g1 g3.
Proof. unfold same_setup. intros Ha Hb. intuition congruence. Qed.

Lemma SetRootScope_same (cu cu' : CodeUtils) (s : Scope) :
  features cu' = features cu ->
  template_name cu' = template_name cu ->
  alternative cu' = alternative cu ->
  SetRootScope cu' s = SetRootScope cu s.
Proof. unfold SetRootScope. now intros -> -> ->. Qed.

Lemma emits_same_setup (g g' : GoBackend) scope t filename out :
  same_setup g g' ->
  emits (utils g') scope t filename out ->
  emits (utils g) scope t filename out.
Proof.
  intros (_ & _ & _ & _ & _ & _ & _ & Hf & Hn & Ha) Hout.
  destruct Hout as [Hs | s Hs Hskip Hempty | s c i f Hs Hsk Hc Hi Hf'].
  - now apply emits_nil.
  - apply (emits_suppressed _ _ _ _ s); congruence.
  - rewrite (SetRootScope_same _ _ s Hf Hn Ha) in Hc, Hf'.
    apply (emits_file _ _ _ _ s c i f); congruence.
Qed.

(** A successful [renderByTemplate] appends what [emits] describes and
    leaves the setup alone. *)
Lemma renderByTemplate_success (g g' : GoBackend) scope t filename :
  renderByTemplate g scope t filename = (g', None) ->
  exists out,
    emits (utils g) scope t filename out
    /\ Contents (res g') = Contents (res g) ++ out
    /\ Error (res g') = Error (res g)
    /\ same_setup g g'.
Proof.
  unfold renderByTemplate.
  destruct scope as [s|].
  2: { intros [= <-]. exists []. rewrite app_nil_r.
       repeat split. now apply emits_nil. }
  destruct (SkipEmpty (features (utils g)) && IsEmpty s) eqn:Hskip.
  { intros [= <-]. exists []. rewrite app_nil_r.
    apply andb_true_iff in Hskip as [Hs He].
    repeat split. now apply (emits_suppressed _ _ _ _ s). }
  destruct (pool_Get (poolBuffer g)) as [w pool]. cbn zeta.
  cbn [utils with_utils].
  destruct (ExecuteTemplate (SetRootScope (utils g) s) t (tpl_Name t)
              (ScopeData s)) as [content [e|]] eqn:Hc; [discriminate|].
  destruct (ResolveImports s) as [imports | e] eqn:Hi; [|discriminate].
  cbn [utils with_res with_utils].
  destruct (ExecuteTemplate (SetRootScope (utils g) s) t "Imports"
              (ImportsData imports)) as [fragment [e|]] eqn:Hf;
    [discriminate|].
  intros [= <-]. eexists. split.
  - apply (emits_file _ _ _ _ s content imports fragment); auto.
  - cbn. rewrite <- app_assoc. repeat split.
Qed.

(** C7.  When [renderOneFile] succeeds, what it appends to the response is,
    in this order: the artifacts of the local scope under the main name,
    those of the reference scope under the reference name and, when
    reflection is enabled, those of the reference scope under the
    reflection-reference name followed by those of the local scope under the
    reflection name; without reflection the last two are absent.  The
    artifacts of a scope are either none (nil or suppressed scope) or the
    full file immediately followed by the fragment with insertion point
    [imports] holding the rendered Import List of that scope. *)
Theorem artifact_order :
  forall (g g' : GoBackend) (h : heap) (ast : ptr),
    renderOneFile g h ast = (g', None) ->
    let keepName := KeepCodeRefName (features (utils g)) in
    let filename :=
      Join (CombineOutputPath (utils g) (OutputPath (req g)) h ast)
           (GetFilename (utils g) h ast) in
    exists localScope refScope main ref reflRef refl,
      BuildRefScope (utils g) h ast = inl (localScope, refScope)
      /\ Contents (res g')
         = Contents (res g) ++ main ++ ref ++ reflRef ++ refl
      /\ emits (utils g) localScope (tpl g) filename main
      /\ emits (utils g) refScope (refTpl g)
               (ToRefFilename keepName filename) ref
      /\ (if WithReflection (features (utils g))
          then emits (utils g) refScope (reflectionRefTpl g)
                     (ToReflectionRefFilename keepName filename) reflRef
               /\ emits (utils g) localScope (reflectionTpl g)
                        (ToReflectionFilename filename) refl
          else reflRef = [] /\ refl = []).
Proof.
  intros g g' h ast. unfold renderOneFile.
  destruct (BuildRefScope (utils g) h ast) as [[localScope refScope] | e];
    [|discriminate].
  destruct (renderByTemplate g localScope (tpl g) _) as [g1 [e|]] eqn:H1;
    [discriminate|].
  apply renderByTemplate_success in H1 as (main & Em & Cm & _ & S1).
  destruct (renderByTemplate g1 refScope (refTpl g1) _) as [g2 [e|]] eqn:H2;
    [discriminate|].
  apply renderByTemplate_success in H2 as (ref & Er & Cr & _ & S2).
  pose proof (same_setup_trans _ _ _ S1 S2) as S12.
  pose proof S1 as (_ & T1 & T2 & T3 & T4 & _ & _ & F1 & _).
  pose proof S12 as (_ & U1 & U2 & U3 & U4 & _ & _ & F2 & _).
  rewrite T2 in Er. apply (emits_same_setup _ _ _ _ _ _ S1) in Er.
  rewrite F2.
  destruct (WithReflection (features (utils g))) eqn:Hrefl.
  - destruct (renderByTemplate g2 refScope (reflectionRefTpl g2) _)
      as [g3 [e|]] eqn:H3; [discriminate|].
    apply renderByTemplate_success in H3 as (reflRef & Err & Crr & _ & S3).
    pose proof (same_setup_trans _ _ _ S12 S3) as S123.
    pose proof S123 as (_ & V1 & V2 & V3 & V4 & _).
    intros H4.
    apply renderByTemplate_success in H4 as (refl & Erl & Crl & _ & S4).
    rewrite U4 in Err. apply (emits_same_setup _ _ _ _ _ _ S12) in Err.
    rewrite V3 in Erl. apply (emits_same_setup _ _ _ _ _ _ S123) in Erl.
    exists localScope, refScope, main, ref, reflRef, refl.
    repeat split; try assumption.
    rewrite Crl, Crr, Cr, Cm. now rewrite <- !app_assoc.
  - intros [= <-].
    exists localScope, refScope, main, ref, [], [].
    repeat split; try assumption.
    rewrite Cr, Cm. simpl. now rewrite app_nil_r, <- app_assoc.
Qed.

End ArtifactOrder.

(** ** Capability filter *)

Section CapabilityFilter.
Context `{Collaborators}.

Lemma add_log_nil (g : GoBackend) : add_log g [] = g.
Proof. destruct g. unfold add_log. cbn. now rewrite app_nil_r. Qed.

Lemma add_log_app (g : GoBackend) (a b : list LogEntry) :
  add_log (add_log g a) b = add_log g (a ++ b).
Proof. unfold add_log. cbn. now rewrite app_assoc. Qed.

Lemma log_Warn_add_log (g : GoBackend) (args : list string) :
  log_Warn g args = add_log g [Warn args].
Proof. reflexivity. Qed.

Lemma removeStreamingFunctions_funcs_spec (svcName : string)
  (fs : list Function) :
  forall (g : GoBackend) (functions : list Function),
    removeStreamingFunctions_funcs g svcName fs functions
    = (add_log g (flat_map (function_warnings svcName) fs),
       functions ++ List.filter supported fs).
Proof.
  induction fs as [|f fs IH]; intros g functions; simpl.
  - now rewrite add_log_nil, app_nil_r.
  - unfold function_warnings at 1, supported at 1.
    destruct (ParseStreaming f) as [st | e].
    + destruct (IsStreaming st); simpl.
      * now rewrite IH, log_Warn_add_log, add_log_app.
      * now rewrite IH, <- app_assoc.
    + simpl. now rewrite IH, log_Warn_add_log, add_log_app.
Qed.

Lemma removeStreamingFunctions_svcs_spec (svcs : list Service) :
  forall g : GoBackend,
    removeStreamingFunctions_svcs g svcs
    = (add_log g (flat_map service_warnings svcs),
       map filtered_service svcs).
Proof.
  induction svcs as [|svc svcs IH]; intros g; simpl.
  - now rewrite add_log_nil.
  - rewrite removeStreamingFunctions_funcs_spec, IH, add_log_app.
    reflexivity.
Qed.

Lemma store_same (h : heap) (p : ptr) (t : Thrift) :
  deref (store h p t) p = t.
Proof. unfold deref, store. now rewrite lookup_insert_eq. Qed.

Lemma store_other (h : heap) (p q : ptr) (t : Thrift) :
  q <> p -> deref (store h p t) q = deref h q.
Proof.
  intros Hne. unfold deref, store. now rewrite lookup_insert_ne.
Qed.

Lemma removeStreamingFunctions_spec (g : GoBackend) (h : heap) (ast : ptr) :
  removeStreamingFunctions g h ast
  = (add_log g (flat_map service_warnings (Services (deref h ast))),
     store h ast
       (with_Services (deref h ast) (map filtered_service (Services (deref h ast))))).
Proof.
  unfold removeStreamingFunctions.
  now rewrite removeStreamingFunctions_svcs_spec.
Qed.

Lemma filter_complement_length {A} (p : A -> bool) (l : list A) :
  length (List.filter (fun x => negb (p x)) l)
  = length l - length (List.filter p l).
Proof.
  assert (length (List.filter p l)
          + length (List.filter (fun x => negb (p x)) l) = length l) as E.
  { induction l as [|x l IH]; simpl; [reflexivity|].
    destruct (p x); simpl; lia. }
  lia.
Qed.

Lemma supported_when_classified (fs : list Function) :
  forallb classifies fs = true ->
  List.filter supported fs = List.filter (fun f => negb (streaming f)) fs.
Proof.
  induction fs as [|f fs IH]; simpl; [reflexivity|].
  intros [Hf Hfs]%andb_true_iff. rewrite (IH Hfs).
  unfold classifies in Hf. unfold supported, streaming.
  destruct (ParseStreaming f); [reflexivity | discriminate].
Qed.

Lemma warnings_when_classified (svcName : string) (fs : list Function) :
  forallb classifies fs = true ->
  flat_map (function_warnings svcName) fs
  = map (skip_warning svcName) (List.filter streaming fs).
Proof.
  induction fs as [|f fs IH]; simpl; [reflexivity|].
  intros [Hf Hfs]%andb_true_iff. rewrite (IH Hfs).
  unfold classifies in Hf. unfold function_warnings, streaming.
  destruct (ParseStreaming f) as [st|]; [|discriminate].
  destruct (IsStreaming st); reflexivity.
Qed.

(** C2, as amended.  With streaming support disabled, the filter of
    [Generate] works on the root file of the request: every service of the
    root stays, at its place and under its name; a service whose N functions
    all classify, K of them as streaming, is left with the N-K others in
    their order, and the diagnostics logged for it are the K warnings that
    name its dropped functions.  Every other file of the graph is left as it
    was. *)
Theorem capability_filter_exact_on_root :
  forall (g g' : GoBackend) (h h' : heap),
    ThriftStreaming (features (utils g)) = false ->
    Generate_filter g h = (g', h') ->
    let root := AST (req g) in
    length (Services (deref h' root)) = length (Services (deref h root))
    /\ (forall (i : nat) (svc : Service),
          Services (deref h root) !! i = Some svc ->
          forallb classifies (svc_Functions svc) = true ->
          exists svc',
            Services (deref h' root) !! i = Some svc'
            /\ svc_Name svc' = svc_Name svc
            /\ svc_Functions svc'
               = List.filter (fun f => negb (streaming f))
                             (svc_Functions svc)
            /\ length (svc_Functions svc')
               = length (svc_Functions svc)
                 - length (List.filter streaming (svc_Functions svc))
            /\ service_warnings svc
               = map (skip_warning (svc_Name svc))
                     (List.filter streaming (svc_Functions svc))
            /\ length (service_warnings svc)
               = length (List.filter streaming (svc_Functions svc)))
    /\ g' = add_log g (flat_map service_warnings (Services (deref h root)))
    /\ (forall p, p <> root -> deref h' p = deref h p).
Proof.
  intros g g' h h' Hoff. unfold Generate_filter. rewrite Hoff. cbn [negb].
  rewrite removeStreamingFunctions_spec. intros [= <- <-]. cbn zeta.
  rewrite store_same. cbn [Services with_Services].
  split; [now rewrite length_map|].
  split; [|split; [reflexivity | intros p Hp; now apply store_other]].
  intros i svc Hi Hall.
  exists (filtered_service svc).
  split; [now rewrite list_lookup_fmap, Hi|].
  split; [reflexivity|].
  unfold filtered_service, service_warnings. cbn [svc_Functions with_Functions].
  rewrite (supported_when_classified _ Hall).
  rewrite (warnings_when_classified _ _ Hall).
  repeat split.
  - apply filter_complement_length.
  - now rewrite length_map.
Qed.

End CapabilityFilter.

(** ** The response of [Generate] *)

Section GenerateFacts.
Context `{Collaborators}.

Lemma buildResponse_error (g : GoBackend) (e : error) :
  err g = Some e -> buildResponse g = BuildErrorResponse e.
Proof. unfold buildResponse. now intros ->. Qed.

Lemma buildResponse_ok (g : GoBackend) :
  err g = None -> buildResponse g = res g.
Proof. unfold buildResponse. now intros ->. Qed.

(** The response is always built from the backend the run leaves. *)
Lemma Generate_response (g : GoBackend) (h : heap) (r : Request)
  (l : list LogEntry) :
  response (Generate g h r l) = buildResponse (backend (Generate g h r l)).
Proof.
  unfold Generate, Generate_trim.
  destruct (TrimIDL _); [|destruct (Generate_filter _ _); reflexivity].
  destruct (TrimAST _ _) as [h' [tr | e]];
    [destruct (Generate_filter _ _)|]; reflexivity.
Qed.

Lemma prepareUtilities_fresh (g : GoBackend) :
  err g = None ->
  let '(cu, e) := HandleOptions NewCodeUtils (GeneratorParameters (req g)) in
  err (prepareUtilities g) = e
  /\ utils (prepareUtilities g) = cu
  /\ res (prepareUtilities g) = res g
  /\ req (prepareUtilities g) = req g
  /\ log (prepareUtilities g) = log g
  /\ poolBuffer (prepareUtilities g) = poolBuffer g
  /\ tpl (prepareUtilities g) = tpl g
  /\ refTpl (prepareUtilities g) = refTpl g
  /\ reflectionTpl (prepareUtilities g) = reflectionTpl g
  /\ reflectionRefTpl (prepareUtilities g) = reflectionRefTpl g
  /\ (e = None ->
      funcs (prepareUtilities g)
      = <["Version" := VersionFunc (Version (req g))]> (BuildFuncMap cu)).
Proof.
  intros Hg. unfold prepareUtilities. rewrite Hg. cbn.
  destruct (HandleOptions _ _) as [cu [e|]]; cbn; repeat split; congruence.
Qed.

Lemma Generate_entry_fresh (g : GoBackend) (r : Request) (l : list LogEntry) :
  err g = None ->
  let '(cu, e) := HandleOptions NewCodeUtils (GeneratorParameters r) in
  err (Generate_entry g r l) = e
  /\ utils (Generate_entry g r l) = cu
  /\ res (Generate_entry g r l) = NewResponse
  /\ req (Generate_entry g r l) = r
  /\ log (Generate_entry g r l) = l
  /\ poolBuffer (Generate_entry g r l) = poolBuffer g
  /\ tpl (Generate_entry g r l) = tpl g
  /\ refTpl (Generate_entry g r l) = refTpl g
  /\ reflectionTpl (Generate_entry g r l) = reflectionTpl g
  /\ reflectionRefTpl (Generate_entry g r l) = reflectionRefTpl g.
Proof.
  intros Hg. unfold Generate_entry.
  pose proof (prepareUtilities_fresh (with_entry g r NewResponse l) Hg) as P.
  cbn [req with_entry] in P.
  destruct (HandleOptions _ _) as [cu e]. cbn in P. tauto.
Qed.

Lemma Generate_entry_req (g : GoBackend) (r : Request) (l : list LogEntry) :
  req (Generate_entry g r l) = r.
Proof.
  unfold Generate_entry, prepareUtilities. cbn.
  destruct (err g); [reflexivity|].
  destruct (HandleOptions _ _) as [cu [e|]]; reflexivity.
Qed.

(** An error set on entry survives to the end of the run. *)
Lemma Generate_trim_err (g g' : GoBackend) (h h' : heap) :
  Generate_trim g h = inl (g', h') ->
  err g' = err g /\ utils g' = utils g /\ req g' = req g
  /\ res g' = res g /\ poolBuffer g' = poolBuffer g
  /\ tpl g' = tpl g /\ refTpl g' = refTpl g
  /\ reflectionTpl g' = reflectionTpl g
  /\ reflectionRefTpl g' = reflectionRefTpl g.
Proof.
  unfold Generate_trim. destruct (TrimIDL _).
  - destruct (TrimAST _ _) as [h1 [tr | e]]; [|discriminate].
    intros [= <- <-]. repeat split.
  - intros [= <- <-]. repeat split.
Qed.

Lemma Generate_trim_early (g : GoBackend) (h : heap) (early : Run) :
  Generate_trim g h = inr early ->
  exists e, err (backend early) = Some e
            /\ response early = BuildErrorResponse e.
Proof.
  unfold Generate_trim. destruct (TrimIDL _); [|discriminate].
  destruct (TrimAST _ _) as [h1 [tr | e]]; [discriminate|].
  intros [= <-]. exists e. split; reflexivity.
Qed.

Lemma Generate_filter_frame (g g' : GoBackend) (h h' : heap) :
  Generate_filter g h = (g', h') ->
  err g' = err g /\ utils g' = utils g /\ req g' = req g
  /\ res g' = res g /\ poolBuffer g' = poolBuffer g
  /\ tpl g' = tpl g /\ refTpl g' = refTpl g
  /\ reflectionTpl g' = reflectionTpl g
  /\ reflectionRefTpl g' = reflectionRefTpl g.
Proof.
  unfold Generate_filter. destruct (negb _).
  - rewrite removeStreamingFunctions_spec. intros [= <- <-]. repeat split.
  - intros [= <- <-]. repeat split.
Qed.

Lemma Generate_render_err (g : GoBackend) (h : heap) (e : error) :
  err g = Some e -> err (Generate_render g h) = Some e.
Proof.
  intros He. unfold Generate_render.
  destruct (SkipGoGen _); [exact He|].
  unfold executeTemplates, fillRequisitions, prepareTemplates.
  now rewrite !He.
Qed.

Lemma executeTemplates_loop_fails (h : heap) :
  forall g processed trees g3 ast g4 e,
    loop_reaches h g processed trees g3 ast ->
    renderOneFile (log_Info g3 ["Processing"; Filename (deref h ast)]) h ast
      = (g4, Some e) ->
    executeTemplates_loop g h processed trees = with_err g4 (Some e).
Proof.
  intros g processed trees g3 ast g4 e Hreach Hfail.
  induction Hreach as [g P a trees Hnew | g P a trees g' a' Hold _ IH
                      | g P a trees g1 g' a' Hnew Hok _ IH]; simpl.
  - destruct (decide (a ∈ P)); [contradiction|]. now rewrite Hfail.
  - destruct (decide (a ∈ P)); [|contradiction]. now apply IH.
  - destruct (decide (a ∈ P)); [contradiction|]. rewrite Hok. cbn.
    now apply IH.
Qed.

Lemma prepareTemplates_frame (g : GoBackend) :
  err (prepareTemplates g) = err g /\ req (prepareTemplates g) = req g
  /\ res (prepareTemplates g) = res g /\ utils (prepareTemplates g) = utils g
  /\ funcs (prepareTemplates g) = funcs g.
Proof.
  unfold prepareTemplates. destruct (err g) eqn:E; repeat split; auto.
Qed.

Lemma fillRequisitions_id (g : GoBackend) : fillRequisitions g = g.
Proof. unfold fillRequisitions. now destruct (err g). Qed.

(** The failures of [renderOneFile]: scope building, template execution
    (annotated with the file name) and import resolution. *)
Lemma renderOneFile_scope_failure (g : GoBackend) (h : heap) (ast : ptr)
  (e : error) :
  BuildRefScope (utils g) h ast = inr e ->
  renderOneFile g h ast = (g, Some e).
Proof. unfold renderOneFile. now intros ->. Qed.

Lemma renderByTemplate_failures (g : GoBackend) (s : Scope) (t : Template)
  (filename : string) :
  SkipEmpty (features (utils g)) && IsEmpty s = false ->
  (forall out e,
     ExecuteTemplate (SetRootScope (utils g) s) t (tpl_Name t) (ScopeData s)
     = (out, Some e) ->
     snd (renderByTemplate g (Some s) t filename)
     = Some (filename +:+ ": " +:+ e)
     /\ res (fst (renderByTemplate g (Some s) t filename)) = res g)
  /\ (forall out e,
        ExecuteTemplate (SetRootScope (utils g) s) t (tpl_Name t)
                        (ScopeData s) = (out, None) ->
        ResolveImports s = inr e ->
        snd (renderByTemplate g (Some s) t filename) = Some e
        /\ Contents (res (fst (renderByTemplate g (Some s) t filename)))
           = Contents (res g)
               ++ [ {| Content := out; Name := Some filename;
                       InsertionPoint := None |} ]).
Proof.
  intros Hskip. unfold renderByTemplate. rewrite Hskip.
  destruct (pool_Get _) as [w pool]. cbn zeta. cbn [utils with_utils].
  split.
  - intros out e ->. now split.
  - intros out e -> ->. now split.
Qed.

(** C1.  When a fatal error occurs in a run (option handling fails, or
    trimming fails, or rendering fails for some file after any number of
    files were rendered), [Generate] returns the Error Response built from
    one error string: its error is that string and it holds no Artifact,
    whatever had been collected before the failure. *)
Theorem fatal_error_response :
  forall (g : GoBackend) (h : heap) (r : Request) (l : list LogEntry),
    fatal_error g h r l ->
    exists e : error,
      response (Generate g h r l) = BuildErrorResponse e
      /\ Error (response (Generate g h r l)) = Some e
      /\ Contents (response (Generate g h r l)) = [].
Proof.
  intros g h r l Hfatal.
  assert (exists e, err (backend (Generate g h r l)) = Some e) as [e He].
  { destruct Hfatal as [cu e Hopt | h1 e Htrim Herr
                       | g1 h1 g2 h2 g3 ast g4 e Ht Hf Hskip Hnone Hreach Hfail].
    - (* option handling *)
      assert (exists e0, err (Generate_entry g r l) = Some e0) as [e0 He0].
      { destruct (err g) as [e0|] eqn:Hg.
        - exists e0. unfold Generate_entry, prepareUtilities. cbn.
          now rewrite Hg.
        - pose proof (Generate_entry_fresh g r l Hg) as P.
          rewrite Hopt in P. exists e. tauto. }
      unfold Generate.
      destruct (Generate_trim _ h) as [[g1 h1] | early] eqn:Ht.
      + apply Generate_trim_err in Ht as (E1 & _).
        destruct (Generate_filter g1 h1) as [g2 h2] eqn:Hf.
        apply Generate_filter_frame in Hf as (E2 & _).
        exists e0. cbn. apply Generate_render_err. congruence.
      + apply Generate_trim_early in Ht as (e1 & E1 & _). now exists e1.
    - (* trimming *)
      unfold Generate, Generate_trim. rewrite Htrim.
      cbn [req log_Warn]. rewrite Generate_entry_req, Herr.
      now exists e.
    - (* rendering *)
      unfold Generate. rewrite Ht, Hf. cbn.
      exists e. unfold Generate_render. rewrite Hskip.
      destruct (prepareTemplates_frame g2) as (E & Rq & _).
      unfold executeTemplates. rewrite !fillRequisitions_id, E, Hnone.
      unfold trees_of in Hreach. rewrite fillRequisitions_id in Hreach.
      rewrite Rq.
      now rewrite (executeTemplates_loop_fails _ _ _ _ _ _ _ _ Hreach Hfail). }
  exists e. rewrite Generate_response, (buildResponse_error _ _ He).
  repeat split.
Qed.

End GenerateFacts.

Section SkipGoGenFacts.
Context `{Collaborators}.

(** C10.  When option handling succeeds with [SkipGoGen] set and trimming
    is disabled or succeeds (leaving the graph [h1]), [Generate] returns the
    fresh response: no error and no Artifact.  No template is prepared (the
    four template fields are as on entry) and nothing is rendered (the
    utilities hold no scope being rendered beyond what option handling
    left, and the buffer pool is untouched).  The capability filter has
    still run: with streaming support disabled, the root file of the graph
    returned holds the filtered services, and the warnings of the filter are
    in the log just before the warning that generation is skipped. *)
Theorem skip_go_gen_empty_response :
  forall (g : GoBackend) (h h1 : heap) (r : Request) (l : list LogEntry)
         (cu : CodeUtils),
    err g = None ->
    HandleOptions NewCodeUtils (GeneratorParameters r) = (cu, None) ->
    SkipGoGen (features cu) = true ->
    (TrimIDL (features cu) = false /\ h1 = h
     \/ TrimIDL (features cu) = true
        /\ exists tr, TrimAST h (AST r) = (h1, inl tr)) ->
    let run := Generate g h r l in
    response run = NewResponse
    /\ Error (response run) = None
    /\ Contents (response run) = []
    /\ tpl (backend run) = tpl g
    /\ refTpl (backend run) = refTpl g
    /\ reflectionTpl (backend run) = reflectionTpl g
    /\ reflectionRefTpl (backend run) = reflectionRefTpl g
    /\ utils (backend run) = cu
    /\ poolBuffer (backend run) = poolBuffer g
    /\ (ThriftStreaming (features cu) = true -> graph run = h1)
    /\ (ThriftStreaming (features cu) = false ->
        Services (deref (graph run) (AST r))
        = map filtered_service (Services (deref h1 (AST r)))
        /\ (forall p, p <> AST r -> deref (graph run) p = deref h1 p)
        /\ exists before,
            log (backend run)
            = before ++ flat_map service_warnings (Services (deref h1 (AST r)))
                ++ [Warn ["You are skipping Thriftgo Go Code Generating"]]).
Proof.
  intros g h h1 r l cu Hg Hopt Hskip Htrim run.
  pose proof (Generate_entry_fresh g r l Hg) as P. rewrite Hopt in P.
  destruct P as (E0 & U0 & R0 & Q0 & L0 & B0 & T1 & T2 & T3 & T4).
  assert (exists g1, Generate_trim (Generate_entry g r l) h = inl (g1, h1))
    as [g1 Ht].
  { unfold Generate_trim. rewrite U0.
    destruct Htrim as [[-> ->] | [-> [tr Htr]]]; [eauto|].
    cbn [req log_Warn]. rewrite Q0, Htr. eauto. }
  pose proof (Generate_trim_err _ _ _ _ Ht)
    as (E1 & U1 & Q1 & R1 & B1 & V1 & V2 & V3 & V4).
  subst run. unfold Generate. rewrite Ht.
  unfold Generate_filter, Generate_render.
  rewrite U1, U0, Q1, Q0.
  destruct (ThriftStreaming (features cu)) eqn:Hstream; cbn [negb].
  - rewrite U1, U0, Hskip. cbn.
    unfold buildResponse. cbn. rewrite E1, E0, R1, R0.
    repeat split; try congruence.
  - rewrite removeStreamingFunctions_spec. cbn [utils add_log].
    rewrite U1, U0, Hskip. cbn.
    unfold buildResponse. cbn. rewrite E1, E0, R1, R0.
    repeat split; try congruence.
    + now rewrite store_same.
    + intros p Hp. now apply store_other.
    + exists (log g1). now rewrite <- app_assoc.
Qed.

End SkipGoGenFacts.

(** ** The walker and the deduplication of [executeTemplates] *)

Section WalkerFacts.
Context `{Collaborators}.

Lemma first_occurrences_In (l : list ptr) :
  forall (seen : gset ptr) (p : ptr),
    In p (first_occurrences seen l) <-> In p l /\ p ∉ seen.
Proof.
  induction l as [|a l IH]; intros seen p; simpl.
  - tauto.
  - destruct (decide (a ∈ seen)) as [Ha | Ha]; simpl; rewrite IH.
    + split; [tauto|]. intros [[-> | Hp] Hn]; [contradiction | tauto].
    + rewrite not_elem_of_union, not_elem_of_singleton. split.
      * intros [-> | [Hp [Hne Hn]]]; tauto.
      * intros [[-> | Hp] Hn]; [tauto|].
        destruct (decide (p = a)) as [-> | Hne]; tauto.
Qed.

Lemma first_occurrences_NoDup (l : list ptr) :
  forall seen : gset ptr, List.NoDup (first_occurrences seen l).
Proof.
  induction l as [|a l IH]; intros seen; simpl.
  - constructor.
  - destruct (decide (a ∈ seen)); [apply IH|].
    constructor; [|apply IH].
    rewrite first_occurrences_In, not_elem_of_union, not_elem_of_singleton.
    tauto.
Qed.

(** The loop with its [processed] map renders the first occurrences. *)
Lemma executeTemplates_loop_render_each (h : heap) (trees : list ptr) :
  forall (g : GoBackend) (processed : gset ptr),
    executeTemplates_loop g h processed trees
    = render_each g h (first_occurrences processed trees).
Proof.
  induction trees as [|ast trees IH]; intros g processed; simpl.
  - reflexivity.
  - destruct (decide (ast ∈ processed)); [apply IH|]. simpl.
    destruct (renderOneFile _ h ast) as [g1 [e|]]; cbn; [reflexivity|].
    apply IH.
Qed.

Lemma renderByTemplate_log (g g' : GoBackend) scope t filename e :
  renderByTemplate g scope t filename = (g', e) -> log g' = log g.
Proof.
  unfold renderByTemplate.
  destruct scope as [s|]; [|now intros [= <- _]].
  destruct (SkipEmpty _ && IsEmpty s); [now intros [= <- _]|].
  destruct (pool_Get _) as [w pool]. cbn zeta.
  destruct (ExecuteTemplate _ t (tpl_Name t) _) as [c [e1|]];
    [now intros [= <- _]|].
  destruct (ResolveImports s) as [imports | e2]; [|now intros [= <- _]].
  destruct (ExecuteTemplate _ t "Imports" _) as [f [e3|]];
    now intros [= <- _].
Qed.

Lemma renderOneFile_log (g g' : GoBackend) (h : heap) (ast : ptr) e :
  renderOneFile g h ast = (g', e) -> log g' = log g.
Proof.
  unfold renderOneFile.
  destruct (BuildRefScope _ h ast) as [[localScope refScope] | e0];
    [|now intros [= <- _]].
  destruct (renderByTemplate g localScope _ _) as [g1 [e1|]] eqn:R1;
    apply renderByTemplate_log in R1; [now intros [= <- _]|].
  destruct (renderByTemplate g1 refScope _ _) as [g2 [e2|]] eqn:R2;
    apply renderByTemplate_log in R2; [intros [= <- _]; congruence|].
  destruct (WithReflection _); [|intros [= <- _]; congruence].
  destruct (renderByTemplate g2 refScope _ _) as [g3 [e3|]] eqn:R3;
    apply renderByTemplate_log in R3; [intros [= <- _]; congruence|].
  intros R4. apply renderByTemplate_log in R4. congruence.
Qed.

Lemma render_each_log (h : heap) (l : list ptr) :
  forall g : GoBackend,
    err (render_each g h l) = None ->
    log (render_each g h l)
    = log g ++ map (fun p => Info ["Processing"; Filename (deref h p)]) l.
Proof.
  induction l as [|ast l IH]; intros g; simpl.
  - intros _. now rewrite app_nil_r.
  - destruct (renderOneFile _ h ast) as [g1 [e|]] eqn:R;
      apply renderOneFile_log in R; cbn in *; [discriminate|].
    intros Hok. rewrite (IH _ Hok). cbn. rewrite R.
    now rewrite <- app_assoc.
Qed.

(** If the files before [ast] on the channel all render, the loop comes to
    [ast] in the state their rendering leaves. *)
Lemma loop_reaches_after (h : heap) (before : list ptr) (ast : ptr)
  (after : list ptr) :
  forall (g : GoBackend) (processed : gset ptr),
    err (render_each g h (first_occurrences processed before)) = None ->
    ast ∉ processed ->
    ~ In ast before ->
    loop_reaches h g processed (before ++ ast :: after)
      (render_each g h (first_occurrences processed before)) ast.
Proof.
  induction before as [|a before IH]; intros g processed Hok Hnew Hnot;
    simpl in *.
  - now apply reaches_here.
  - destruct (decide (a ∈ processed)) as [Ha | Ha].
    + apply reaches_skip; [exact Ha|]. apply IH; tauto.
    + simpl in *.
      destruct (renderOneFile _ h a) as [g1 [e|]] eqn:R;
        cbn in Hok; [discriminate|].
      apply (reaches_next _ _ _ _ _ g1); [exact Ha | exact R |].
      apply IH; [exact Hok | | tauto].
      rewrite not_elem_of_union, not_elem_of_singleton.
      split; [|exact Hnew]. intros ->. tauto.
Qed.

(** C4.  In non-recursive mode [executeTemplates] renders the root file and
    nothing else.  In recursive mode, the walker sending the files
    reachable from the root (in any order, any number of times each),
    [executeTemplates] renders a duplicate-free list of addresses that holds
    exactly the reachable files, one after the other up to the first
    failure: files are told apart by address, so a file reached along two
    include paths is in the list once and two files of equal name are both
    in it.  When no render fails, the log shows one [Processing] entry per
    file of that list. *)
Theorem walker_renders_each_file_once :
  forall (g : GoBackend) (h : heap),
    err g = None ->
    (Recursive (req g) = false ->
     executeTemplates g h = render_each g h [AST (req g)])
    /\ (Recursive (req g) = true ->
        (forall p, In p (DepthFirstSearch h (AST (req g)))
                   <-> reachable h (AST (req g)) p) ->
        exists l : list ptr,
          List.NoDup l
          /\ (forall p, In p l <-> reachable h (AST (req g)) p)
          /\ executeTemplates g h = render_each g h l
          /\ (err (executeTemplates g h) = None ->
              log (executeTemplates g h)
              = log g
                  ++ map (fun p => Info ["Processing"; Filename (deref h p)]) l)).
Proof.
  intros g h Hg. unfold executeTemplates. rewrite Hg. split.
  - intros ->. rewrite executeTemplates_loop_render_each. simpl.
    destruct (decide (AST (req g) ∈ (∅ : gset ptr))) as [Hin | _];
      [now apply not_elem_of_empty in Hin | reflexivity].
  - intros -> Hwalk.
    exists (first_occurrences ∅ (DepthFirstSearch h (AST (req g)))).
    rewrite executeTemplates_loop_render_each.
    split; [apply first_occurrences_NoDup|].
    split; [|split; [reflexivity | apply render_each_log]].
    intros p. rewrite first_occurrences_In, Hwalk.
    split; [tauto | intros Hp; split; [exact Hp | apply not_elem_of_empty]].
Qed.

End WalkerFacts.

(** ** Determinism *)

Section DeterminismFacts.
Context `{Collaborators}.

Lemma agree_weaken (g g' : GoBackend) :
  agree g g' -> agree_but_templates g g'.
Proof. unfold agree, agree_but_templates. tauto. Qed.

Lemma renderByTemplate_agree (g g' : GoBackend) scope t filename :
  agree g g' ->
  snd (renderByTemplate g' scope t filename)
  = snd (renderByTemplate g scope t filename)
  /\ agree (fst (renderByTemplate g scope t filename))
           (fst (renderByTemplate g' scope t filename)).
Proof.
  intros Hag. pose proof Hag as (Ae & A1 & A2 & A3 & A4 & Aq & Ar & Af & Au).
  unfold renderByTemplate.
  destruct scope as [s|]; [|now split].
  rewrite ?Au.
  destruct (SkipEmpty _ && IsEmpty s); [now split|].
  destruct (pool_Get (poolBuffer g)) as [w pool].
  destruct (pool_Get (poolBuffer g')) as [w' pool']. cbn zeta.
  cbn [utils with_utils]. rewrite ?Au.
  destruct (ExecuteTemplate _ t (tpl_Name t) _) as [c [e1|]].
  { split; [reflexivity|]. cbn. unfold agree. cbn. rewrite ?Au, ?Ar.
    repeat split; assumption. }
  destruct (ResolveImports s) as [imports | e2].
  2: { split; [reflexivity|]. cbn. unfold agree. cbn. rewrite ?Au, ?Ar.
       repeat split; assumption. }
  cbn [utils with_res with_utils]. rewrite ?Au.
  destruct (ExecuteTemplate _ t "Imports" _) as [f [e3|]];
    (split; [reflexivity|]); cbn; unfold agree; cbn; rewrite ?Au, ?Ar;
    repeat split; assumption.
Qed.

Lemma renderOneFile_agree (g g' : GoBackend) (h : heap) (ast : ptr) :
  agree g g' ->
  snd (renderOneFile g' h ast) = snd (renderOneFile g h ast)
  /\ agree (fst (renderOneFile g h ast)) (fst (renderOneFile g' h ast)).
Proof.
  intros Hag. pose proof Hag as (Ae & A1 & A2 & A3 & A4 & Aq & Ar & Af & Au).
  unfold renderOneFile. rewrite Au, Aq, A1.
  destruct (BuildRefScope _ h ast) as [[localScope refScope] | e0];
    [|now split].
  match goal with
  | |- context [renderByTemplate g localScope ?t ?f] =>
      destruct (renderByTemplate_agree g g' localScope t f Hag) as [E1 G1];
      destruct (renderByTemplate g localScope t f) as [g1 e1];
      destruct (renderByTemplate g' localScope t f) as [g1' e1']
  end.
  cbn [fst snd] in E1, G1. subst e1'.
  destruct e1 as [e1|]; [now split|].
  pose proof G1 as (_ & B1 & B2 & B3 & B4 & _ & _ & _ & Bu).
  rewrite B2.
  match goal with
  | |- context [renderByTemplate g1 refScope ?t ?f] =>
      destruct (renderByTemplate_agree g1 g1' refScope t f G1) as [E2 G2];
      destruct (renderByTemplate g1 refScope t f) as [g2 e2];
      destruct (renderByTemplate g1' refScope t f) as [g2' e2']
  end.
  cbn [fst snd] in E2, G2. subst e2'.
  destruct e2 as [e2|]; [now split|].
  pose proof G2 as (_ & C1 & C2 & C3 & C4 & _ & _ & _ & Cu).
  rewrite Cu.
  destruct (WithReflection _); [|now split].
  rewrite C4.
  match goal with
  | |- context [renderByTemplate g2 refScope ?t ?f] =>
      destruct (renderByTemplate_agree g2 g2' refScope t f G2) as [E3 G3];
      destruct (renderByTemplate g2 refScope t f) as [g3 e3];
      destruct (renderByTemplate g2' refScope t f) as [g3' e3']
  end.
  cbn [fst snd] in E3, G3. subst e3'.
  destruct e3 as [e3|]; [now split|].
  pose proof G3 as (_ & D1 & D2 & D3 & D4 & _).
  rewrite D3. now apply renderByTemplate_agree.
Qed.

Lemma agree_log_Info (g g' : GoBackend) (a a' : list string) :
  agree g g' -> agree (log_Info g a) (log_Info g' a').
Proof. unfold agree. cbn. tauto. Qed.

Lemma agree_with_err (g g' : GoBackend) (e : option error) :
  agree g g' -> agree (with_err g e) (with_err g' e).
Proof. unfold agree. cbn. tauto. Qed.

Lemma executeTemplates_loop_agree (h : heap) (trees : list ptr) :
  forall (g g' : GoBackend) (processed : gset ptr),
    agree g g' ->
    agree (executeTemplates_loop g h processed trees)
          (executeTemplates_loop g' h processed trees).
Proof.
  induction trees as [|ast trees IH]; intros g g' processed Hag; simpl.
  - exact Hag.
  - destruct (decide (ast ∈ processed)); [now apply IH|].
    pose proof (agree_log_Info g g' ["Processing"; Filename (deref h ast)]
                  ["Processing"; Filename (deref h ast)] Hag) as Hag1.
    destruct (renderOneFile_agree _ _ h ast Hag1) as [E G].
    destruct (renderOneFile (log_Info g _) h ast) as [g1 e1].
    destruct (renderOneFile (log_Info g' _) h ast) as [g1' e1'].
    cbn [fst snd] in E, G. subst e1'. cbn.
    destruct e1 as [e1|]; [now apply agree_with_err|].
    apply IH. now apply agree_with_err.
Qed.

Lemma Generate_render_agree (g g' : GoBackend) (h : heap) :
  agree_but_templates g g' ->
  agree_but_templates (Generate_render g h) (Generate_render g' h).
Proof.
  intros Hag. pose proof Hag as (Ae & Aq & Ar & Af & Au).
  unfold Generate_render. rewrite Au.
  destruct (SkipGoGen _).
  { unfold agree_but_templates. cbn. tauto. }
  rewrite !fillRequisitions_id.
  unfold executeTemplates, prepareTemplates.
  destruct (err g) as [e|] eqn:Eg; rewrite ?Ae, ?Eg.
  { exact Hag. }
  cbn [err with_templates req]. rewrite ?Eg, ?Ae, ?Aq.
  apply agree_weaken, executeTemplates_loop_agree.
  unfold agree. cbn. rewrite ?Au, ?(Af eq_refl). repeat split; congruence.
Qed.

Lemma Generate_filter_agree (g g' : GoBackend) (h : heap) :
  agree_but_templates g g' ->
  snd (Generate_filter g' h) = snd (Generate_filter g h)
  /\ agree_but_templates (fst (Generate_filter g h))
                         (fst (Generate_filter g' h)).
Proof.
  intros Hag. pose proof Hag as (Ae & Aq & Ar & Af & Au).
  unfold Generate_filter. rewrite Au, Aq.
  destruct (negb _); [|now split].
  rewrite !removeStreamingFunctions_spec. split; [reflexivity|].
  unfold agree_but_templates. cbn. tauto.
Qed.

Lemma Generate_trim_agree (g g' : GoBackend) (h : heap) :
  agree_but_templates g g' ->
  match Generate_trim g h, Generate_trim g' h with
  | inl (g1, h1), inl (g1', h1') => h1' = h1 /\ agree_but_templates g1 g1'
  | inr early, inr early' =>
      response early' = response early /\ graph early' = graph early
  | _, _ => False
  end.
Proof.
  intros Hag. pose proof Hag as (Ae & Aq & Ar & Af & Au).
  unfold Generate_trim. rewrite Au.
  destruct (TrimIDL _); [|now split].
  cbn [req log_Warn]. rewrite Aq.
  destruct (TrimAST h (AST (req g))) as [h1 [tr | e]].
  - split; [reflexivity|]. unfold agree_but_templates. cbn. tauto.
  - split; reflexivity.
Qed.

Lemma Generate_entry_agree (g g' : GoBackend) (r : Request)
  (l l' : list LogEntry) :
  err g = None -> err g' = None ->
  agree_but_templates (Generate_entry g r l) (Generate_entry g' r l').
Proof.
  intros Hg Hg'.
  unfold Generate_entry, agree_but_templates.
  pose proof (prepareUtilities_fresh (with_entry g r NewResponse l) Hg) as P.
  pose proof (prepareUtilities_fresh (with_entry g' r NewResponse l') Hg')
    as P'.
  cbn [req res with_entry] in P, P'.
  destruct (HandleOptions _ _) as [cu e].
  destruct P as (E & U & R & Q & _ & _ & _ & _ & _ & _ & F).
  destruct P' as (E' & U' & R' & Q' & _ & _ & _ & _ & _ & _ & F').
  rewrite E, E', U, U', R, R', Q, Q'.
  repeat split. intros ->. now rewrite F, F'.
Qed.

(** Two runs on the same request and graph, from any two backends without
    a pending error, return the same response and leave the same graph. *)
Lemma Generate_independent_of_leftovers (g g' : GoBackend) (h : heap)
  (r : Request) (l l' : list LogEntry) :
  err g = None -> err g' = None ->
  response (Generate g' h r l') = response (Generate g h r l)
  /\ graph (Generate g' h r l') = graph (Generate g h r l).
Proof.
  intros Hg Hg'.
  pose proof (Generate_entry_agree g g' r l l' Hg Hg') as H0.
  unfold Generate.
  pose proof (Generate_trim_agree _ _ h H0) as H1.
  destruct (Generate_trim (Generate_entry g r l) h) as [[g1 h1] | early];
    destruct (Generate_trim (Generate_entry g' r l') h)
      as [[g1' h1'] | early']; try contradiction; [|exact H1].
  destruct H1 as [-> H1].
  destruct (Generate_filter_agree _ _ h1 H1) as [Eh H2].
  destruct (Generate_filter g1 h1) as [g2 h2].
  destruct (Generate_filter g1' h1) as [g2' h2'].
  cbn [fst snd] in Eh, H2. subst h2'.
  pose proof (Generate_render_agree _ _ h2 H2) as (Ee & _ & Er & _).
  cbn. unfold buildResponse. now rewrite Ee, Er.
Qed.

Lemma filter_idempotent {A} (p : A -> bool) (l : list A) :
  List.filter p (List.filter p l) = List.filter p l.
Proof.
  induction l as [|x l IH]; simpl; [reflexivity|].
  destruct (p x) eqn:Hx; simpl; [rewrite Hx|]; now rewrite IH.
Qed.

Lemma filtered_service_idempotent (svc : Service) :
  filtered_service (filtered_service svc) = filtered_service svc.
Proof.
  unfold filtered_service, with_Functions. cbn.
  now rewrite filter_idempotent.
Qed.

(** Filtering a graph that has been filtered changes nothing. *)
Lemma Generate_filter_idempotent (g g' : GoBackend) (h : heap) :
  features (utils g') = features (utils g) -> req g' = req g ->
  snd (Generate_filter g' (snd (Generate_filter g h)))
  = snd (Generate_filter g h).
Proof.
  intros Hu Hq. unfold Generate_filter. rewrite Hu, Hq.
  destruct (negb _); [|reflexivity].
  rewrite !removeStreamingFunctions_spec. cbn [snd].
  rewrite store_same. cbn [Services with_Services].
  rewrite map_map.
  rewrite (map_ext _ _ filtered_service_idempotent).
  unfold store, with_Services. cbn. apply insert_insert_eq.
Qed.

Lemma Generate_filter_agree_graphs (g : GoBackend) (h h' : heap) :
  agree_but_templates (fst (Generate_filter g h))
                      (fst (Generate_filter g h')).
Proof.
  unfold Generate_filter. destruct (negb _).
  - rewrite !removeStreamingFunctions_spec.
    unfold agree_but_templates. cbn. tauto.
  - unfold agree_but_templates. cbn. tauto.
Qed.

Lemma renderByTemplate_frame (g : GoBackend) scope t filename :
  same_setup g (fst (renderByTemplate g scope t filename)).
Proof.
  unfold renderByTemplate.
  destruct scope as [s|]; [|apply same_setup_refl].
  destruct (SkipEmpty _ && IsEmpty s); [apply same_setup_refl|].
  destruct (pool_Get _) as [w pool]. cbn zeta.
  destruct (ExecuteTemplate _ t (tpl_Name t) _) as [c [e1|]];
    [repeat split|].
  destruct (ResolveImports s) as [imports | e2]; [|repeat split].
  destruct (ExecuteTemplate _ t "Imports" _) as [f [e3|]]; repeat split.
Qed.

Lemma renderOneFile_frame (g : GoBackend) (h : heap) (ast : ptr) :
  same_setup g (fst (renderOneFile g h ast)).
Proof.
  unfold renderOneFile.
  destruct (BuildRefScope _ h ast) as [[localScope refScope] | e0];
    [|apply same_setup_refl].
  match goal with
  | |- context [renderByTemplate g localScope ?t ?f] =>
      pose proof (renderByTemplate_frame g localScope t f) as F1;
      destruct (renderByTemplate g localScope t f) as [g1 [e1|]]
  end; [exact F1|]. cbn [fst] in F1.
  match goal with
  | |- context [renderByTemplate g1 refScope ?t ?f] =>
      pose proof (renderByTemplate_frame g1 refScope t f) as F2;
      destruct (renderByTemplate g1 refScope t f) as [g2 [e2|]]
  end; cbn [fst] in F2;
    pose proof (same_setup_trans _ _ _ F1 F2) as F12; [exact F12|].
  destruct (WithReflection _); [|exact F12].
  match goal with
  | |- context [renderByTemplate g2 refScope ?t ?f] =>
      pose proof (renderByTemplate_frame g2 refScope t f) as F3;
      destruct (renderByTemplate g2 refScope t f) as [g3 [e3|]]
  end; cbn [fst] in F3;
    pose proof (same_setup_trans _ _ _ F12 F3) as F123; [exact F123|].
  eapply same_setup_trans; [exact F123 | apply renderByTemplate_frame].
Qed.

Lemma executeTemplates_loop_utils (h : heap) (trees : list ptr) :
  forall (g : GoBackend) (processed : gset ptr),
    features (utils (executeTemplates_loop g h processed trees))
    = features (utils g)
    /\ req (executeTemplates_loop g h processed trees) = req g.
Proof.
  induction trees as [|ast trees IH]; intros g processed; simpl.
  - now split.
  - destruct (decide (ast ∈ processed)); [apply IH|].
    pose proof (renderOneFile_frame
                  (log_Info g ["Processing"; Filename (deref h ast)]) h ast)
      as (_ & _ & _ & _ & _ & Fq & _ & Ff & _).
    destruct (renderOneFile _ h ast) as [g1 [e|]]; cbn in *; [now split|].
    destruct (IH (with_err g1 None) ({[ast]} ∪ processed)) as [I1 I2].
    cbn in I1, I2. split; congruence.
Qed.

Lemma Generate_render_utils (g : GoBackend) (h : heap) :
  features (utils (Generate_render g h)) = features (utils g)
  /\ req (Generate_render g h) = req g.
Proof.
  unfold Generate_render. destruct (SkipGoGen _); [now split|].
  rewrite fillRequisitions_id. unfold executeTemplates.
  destruct (prepareTemplates_frame g) as (Pe & Pq & _ & Pu & _).
  destruct (err (prepareTemplates g)); [split; congruence|].
  destruct (executeTemplates_loop_utils h
              (if Recursive (req (prepareTemplates g))
               then DepthFirstSearch h (AST (req (prepareTemplates g)))
               else [AST (req (prepareTemplates g))])
              (prepareTemplates g) ∅) as [I1 I2].
  split; congruence.
Qed.

(** Running again, on the same backend and on the graph the first run left
    (its root filtered in place), with trimming disabled: same response,
    same graph. *)
Lemma Generate_rerun (g : GoBackend) (h : heap) (r : Request)
  (l l' : list LogEntry) :
  err g = None ->
  TrimIDL (features (utils (Generate_entry g r l))) = false ->
  response (Generate (backend (Generate g h r l)) (graph (Generate g h r l))
                     r l')
  = response (Generate g h r l)
  /\ graph (Generate (backend (Generate g h r l)) (graph (Generate g h r l))
                     r l')
     = graph (Generate g h r l).
Proof.
  intros Hg Htrim.
  set (g0 := Generate_entry g r l) in *.
  assert (forall h0, Generate_trim g0 h0 = inl (g0, h0)) as Ht.
  { intros h0. unfold Generate_trim. now rewrite Htrim. }
  assert (req g0 = r) as Hq0 by apply Generate_entry_req.
  assert (forall h0,
             Generate g h0 r l
             = {| backend := Generate_render (fst (Generate_filter g0 h0))
                               (snd (Generate_filter g0 h0));
                  graph := snd (Generate_filter g0 h0);
                  response :=
                    buildResponse
                      (Generate_render (fst (Generate_filter g0 h0))
                         (snd (Generate_filter g0 h0))) |}) as Hrun.
  { intros h0. unfold Generate. fold g0. rewrite Ht.
    now destruct (Generate_filter g0 h0). }
  rewrite (Hrun h). cbn [backend graph response].
  set (g2 := fst (Generate_filter g0 h)) in *.
  set (h2 := snd (Generate_filter g0 h)) in *.
  set (g3 := Generate_render g2 h2) in *.
  destruct (Generate_filter_frame g0 g2 h h2 (surjective_pairing _))
    as (E2 & U2 & Q2 & _).
  destruct (Generate_render_utils g2 h2) as [F3 Q3]. fold g3 in F3, Q3.
  destruct (err g3) as [e|] eqn:E3.
  - (* the first run failed: its error is still set on entry *)
    assert (Generate_entry g3 r l' = with_entry g3 r NewResponse l') as E1.
    { unfold Generate_entry, prepareUtilities. cbn. now rewrite E3. }
    unfold Generate. rewrite E1. unfold Generate_trim.
    cbn [utils with_entry]. rewrite F3, U2. fold g0. rewrite Htrim.
    pose proof (Generate_filter_idempotent g0
                  (with_entry g3 r NewResponse l') h) as Hid.
    fold h2 in Hid. cbn [utils req with_entry] in Hid.
    destruct (Generate_filter (with_entry g3 r NewResponse l') h2)
      as [g4 h4] eqn:Hf.
    destruct (Generate_filter_frame _ _ _ _ Hf) as (E4 & _).
    cbn [err with_entry] in E4. rewrite E3 in E4.
    cbn [snd] in Hid. cbn [graph response]. split.
    + rewrite (buildResponse_error _ _ (Generate_render_err _ _ _ E4)).
      now rewrite (buildResponse_error _ _ E3).
    + apply Hid; congruence.
  - (* the first run succeeded: the second starts afresh on the graph it
       left, which filtering leaves as it is *)
    destruct (Generate_independent_of_leftovers g g3 h2 r l l' Hg E3)
      as [Er Eg].
    rewrite Er, Eg, (Hrun h2). cbn [graph response].
    pose proof (Generate_filter_idempotent g0 g0 h eq_refl eq_refl) as Hid.
    fold h2 in Hid. rewrite Hid. split; [|reflexivity].
    pose proof (Generate_filter_agree_graphs g0 h h2) as Hag.
    fold g2 in Hag.
    pose proof (Generate_render_agree _ _ h2 Hag) as (Ee & _ & Rr & _).
    fold g3 in Ee, Rr. unfold buildResponse. now rewrite Ee, Rr.
Qed.

(** C5.  Two executions of [Generate] on the same request return the same
    response (the same Artifacts in the same order, with the same contents,
    import fragments included) and leave the same graph.  This holds for
    two runs on the same graph, whatever the two backends were left with by
    earlier runs (templates, utilities, response), whatever the log sinks
    had received and whatever bytes the pooled buffers held; and, with
    trimming disabled, for a second run made on the backend and the graph
    the first run left behind.  Collaborators are functions of their
    arguments. *)
Theorem Generate_two_runs_identical :
  forall (g g' : GoBackend) (h : heap) (r : Request) (l l' : list LogEntry),
    err g = None ->
    (err g' = None ->
     response (Generate g' h r l') = response (Generate g h r l)
     /\ graph (Generate g' h r l') = graph (Generate g h r l))
    /\ (TrimIDL (features (utils (Generate_entry g r l))) = false ->
        response (Generate (backend (Generate g h r l))
                           (graph (Generate g h r l)) r l')
        = response (Generate g h r l)
        /\ graph (Generate (backend (Generate g h r l))
                           (graph (Generate g h r l)) r l')
           = graph (Generate g h r l)).
Proof.
  intros g g' h r l l' Hg. split.
  - intros Hg'. now apply Generate_independent_of_leftovers.
  - intros Htrim. now apply Generate_rerun.
Qed.

End DeterminismFacts.

(** ** The trimmer's pre-processing pass *)

Section PreProcessFacts.
Import trim.

Variable markKeptPart : Trimmer -> heap -> ptr -> string -> Trimmer * bool.
Variable h : heap.
Variable filename : string.

(** Marking is monotonic: [markKeptPart] keeps the Mark Set of [filename]
    and only adds to it. *)
Hypothesis markKeptPart_monotone :
  forall (t : Trimmer) (ast : ptr) (s : gset ptr),
    marks t !! filename = Some s ->
    exists s', marks (fst (markKeptPart t h ast filename)) !! filename
               = Some s' /\ s ⊆ s'.

Lemma mark_initialised (t : Trimmer) (s : gset ptr) (k : ptr) :
  marks t !! filename = Some s ->
  exists t', mark t filename k = Some t'
             /\ marks t' !! filename = Some ({[k]} ∪ s).
Proof.
  intros Hs. unfold mark. rewrite Hs. eexists. split; [reflexivity|].
  cbn. apply lookup_insert_eq.
Qed.

Lemma preProcess_loop_app rec (before after : list Include) :
  forall (t : Trimmer) (ret : bool),
    preProcess_loop rec t ret (before ++ after) filename
    = match preProcess_loop rec t ret before filename with
      | Some (t', ret') => preProcess_loop rec t' ret' after filename
      | None => None
      end.
Proof.
  induction before as [|inc before IH]; intros t ret; simpl.
  - reflexivity.
  - destruct (rec t (inc_Reference inc) filename) as [[t1 [|]]|];
      [|apply IH|reflexivity].
    destruct (mark t1 filename (inc_addr inc)); [apply IH | reflexivity].
Qed.

Lemma preProcess_loop_returns rec (includes : list Include) :
  returns_on filename rec includes ->
  forall (t : Trimmer) (ret : bool) (s : gset ptr),
    marks t !! filename = Some s ->
    exists t' ret' s',
      preProcess_loop rec t ret includes filename = Some (t', ret')
      /\ marks t' !! filename = Some s' /\ s ⊆ s'
      /\ (ret = true -> ret' = true).
Proof.
  induction includes as [|inc includes IH]; intros Hrec t ret s Hs; simpl.
  - exists t, ret, s. repeat split; auto.
  - destruct (Hrec t s inc (or_introl eq_refl) Hs) as (t1 & b & s1 & E1 & M1 & S1).
    rewrite E1.
    assert (returns_on filename rec includes) as Hrec'.
    { intros t0 s0 inc0 Hin. apply Hrec. now right. }
    destruct b.
    + destruct (mark_initialised t1 s1 (inc_addr inc) M1) as (t2 & E2 & M2).
      rewrite E2.
      destruct (IH Hrec' t2 true _ M2) as (t' & ret' & s' & E & M & S & R).
      exists t', ret', s'. repeat split; auto.
      transitivity s1; [assumption|].
      transitivity ({[inc_addr inc]} ∪ s1); [apply union_subseteq_r | exact S].
    + destruct (IH Hrec' t1 ret _ M1) as (t' & ret' & s' & E & M & S & R).
      exists t', ret', s'. repeat split; auto.
      now transitivity s1.
Qed.

(** On an initialised Mark Set and with enough fuel for the depth of the
    include graph, [preProcess] returns; it only adds to the Mark Set, and
    it reports [true] when [markKeptPart] does on its file. *)
Lemma preProcess_returns (fuel : nat) :
  forall (t : Trimmer) (ast : ptr) (s : gset ptr),
    depth_le h fuel ast ->
    marks t !! filename = Some s ->
    exists t' ret s',
      preProcess markKeptPart h fuel t ast filename = Some (t', ret)
      /\ marks t' !! filename = Some s' /\ s ⊆ s'
      /\ (snd (markKeptPart t h ast filename) = true -> ret = true).
Proof.
  induction fuel as [|fuel IH]; intros t ast s Hdepth Hs.
  - inversion Hdepth.
  - inversion Hdepth as [n p Hinc]; subst. simpl.
    destruct (markKeptPart_monotone t ast s Hs) as (s1 & M1 & S1).
    destruct (markKeptPart t h ast filename) as [t1 ret]. cbn [fst snd] in *.
    assert (returns_on filename (preProcess markKeptPart h fuel) (Includes (deref h ast)))
      as Hrec.
    { intros t0 s0 inc Hin Hs0.
      destruct (IH t0 (inc_Reference inc) s0 (Hinc inc Hin) Hs0)
        as (t' & b & s' & E & M & S & _).
      now exists t', b, s'. }
    destruct (preProcess_loop_returns _ _ Hrec t1 ret s1 M1)
      as (t' & ret' & s' & E & M & S & R).
    exists t', ret', s'. repeat split; auto. now transitivity s1.
Qed.

(** The include edge through which a call recurses: the recursive call
    returns; what it marked stays marked when the calling call returns; and
    if it reports [true], the edge is in the Mark Set by then. *)
Lemma preProcess_edge (c c' : call) (inc : Include) :
  makes_call markKeptPart h filename c inc c' ->
  forall (s : gset ptr),
    depth_le h (fst (fst c)) (snd c) ->
    marks (snd (fst c)) !! filename = Some s ->
    exists tf rf sf t3 b s2 s3,
      preProcess markKeptPart h (fst (fst c)) (snd (fst c)) (snd c) filename
      = Some (tf, rf)
      /\ marks tf !! filename = Some sf
      /\ depth_le h (fst (fst c')) (snd c')
      /\ marks (snd (fst c')) !! filename = Some s2
      /\ preProcess markKeptPart h (fst (fst c')) (snd (fst c')) (snd c')
                    filename = Some (t3, b)
      /\ marks t3 !! filename = Some s3
      /\ s3 ⊆ sf
      /\ (b = true -> inc_addr inc ∈ sf).
Proof.
  intros Hcall s Hdepth Hs.
  destruct Hcall as [fuel t ast t1 ret before inc after t2 ret2 Hm Hinc Hloop].
  cbn [fst snd] in *.
  inversion Hdepth as [n p Hsub]; subst.
  destruct (markKeptPart_monotone t ast s Hs) as (s1 & M1 & S1).
  rewrite Hm in M1. cbn [fst] in M1.
  assert (returns_on filename (preProcess markKeptPart h fuel) (Includes (deref h ast)))
    as Hrec.
  { intros t0 s0 inc0 Hin Hs0.
    destruct (preProcess_returns fuel t0 (inc_Reference inc0) s0
                (Hsub inc0 Hin) Hs0) as (t' & b & s' & E & M & S & _).
    now exists t', b, s'. }
  assert (returns_on filename (preProcess markKeptPart h fuel) before) as Hrec_b.
  { intros t0 s0 inc0 Hin. apply Hrec. rewrite Hinc.
    apply in_or_app. now left. }
  assert (returns_on filename (preProcess markKeptPart h fuel) after) as Hrec_a.
  { intros t0 s0 inc0 Hin. apply Hrec. rewrite Hinc.
    apply in_or_app. right. now right. }
  destruct (preProcess_loop_returns _ _ Hrec_b t1 ret s1 M1)
    as (t2' & ret2' & s2 & E2 & M2 & S2 & _).
  rewrite Hloop in E2. injection E2 as <- <-.
  assert (In inc (Includes (deref h ast))) as Hin.
  { rewrite Hinc. apply in_or_app. right. now left. }
  destruct (preProcess_returns fuel t2 (inc_Reference inc) s2
              (Hsub inc Hin) M2) as (t3 & b & s3 & E3 & M3 & S3 & _).
  simpl. rewrite Hm, Hinc, preProcess_loop_app, Hloop. simpl. rewrite E3.
  destruct b.
  - destruct (mark_initialised t3 s3 (inc_addr inc) M3) as (t4 & E4 & M4).
    rewrite E4.
    destruct (preProcess_loop_returns _ _ Hrec_a t4 true _ M4)
      as (tf & rf & sf & Ef & Mf & Sf & _).
    exists tf, rf, sf, t3, true, s2, s3.
    repeat split; auto.
    + transitivity ({[inc_addr inc]} ∪ s3); [apply union_subseteq_r | exact Sf].
    + intros _. apply Sf, elem_of_union_l, elem_of_singleton. reflexivity.
  - destruct (preProcess_loop_returns _ _ Hrec_a t3 ret2 _ M3)
      as (tf & rf & sf & Ef & Mf & Sf & _).
    exists tf, rf, sf, t3, false, s2, s3.
    repeat split; auto. discriminate.
Qed.

(** C3.  A run of [preProcess] on an initialised Mark Set, with fuel for
    the depth of the include graph, returns; and for every file it visits
    (the calls reachable from the first one) and every include edge of that
    file, if marking happens in the included file (the call on it reports
    [true], as it does whenever [markKeptPart] marks a declaration of the
    included file), the edge is in the Mark Set of [filename] when the run
    returns. *)
Theorem include_edges_marked :
  forall (fuel : nat) (t : Trimmer) (ast : ptr) (s : gset ptr),
    marks t !! filename = Some s ->
    depth_le h fuel ast ->
    exists tf rf,
      preProcess markKeptPart h fuel t ast filename = Some (tf, rf)
      /\ forall (c : call) (inc : Include) (fuel' : nat) (t' : Trimmer)
                (ast' : ptr),
           rtc (calls markKeptPart h filename) (fuel, t, ast) c ->
           makes_call markKeptPart h filename c inc (fuel', t', ast') ->
           ast' = inc_Reference inc
           /\ (snd (markKeptPart t' h ast' filename) = true
               \/ (exists t'', preProcess markKeptPart h fuel' t' ast' filename
                               = Some (t'', true)) ->
               kept tf filename (inc_addr inc)).
Proof.
  intros fuel t ast s Hs Hdepth.
  destruct (preProcess_returns fuel t ast s Hdepth Hs)
    as (tf & rf & sf & Ef & Mf & Sf & _).
  exists tf, rf. split; [exact Ef|].
  intros c inc fuel' t' ast' Hreach Hcall.
  (* every call reached is well set up, and what it marks is kept to the end *)
  assert (exists sc tc rc sfc,
             marks (snd (fst c)) !! filename = Some sc
             /\ depth_le h (fst (fst c)) (snd c)
             /\ preProcess markKeptPart h (fst (fst c)) (snd (fst c)) (snd c)
                           filename = Some (tc, rc)
             /\ marks tc !! filename = Some sfc
             /\ sfc ⊆ sf) as Hgood.
  { clear Hcall. revert c Hreach. apply rtc_ind_r.
    - exists s, tf, rf, sf. cbn [fst snd]. repeat split; auto.
    - intros c1 c2 Hr [inc0 Hstep] IH.
      destruct IH as (sc & tc & rc & sfc & Mc & Dc & Ec & Mfc & Sfc).
      destruct (preProcess_edge _ _ _ Hstep sc Dc Mc)
        as (tf1 & rf1 & sf1 & t3 & b & s2 & s3
            & E1 & M1 & D2 & M2 & E3 & M3 & S3 & _).
      rewrite Ec in E1. injection E1 as <- <-.
      rewrite Mfc in M1. injection M1 as <-.
      exists s2, t3, b, s3. repeat split; auto. now transitivity sfc. }
  destruct Hgood as (sc & tc & rc & sfc & Mc & Dc & Ec & Mfc & Sfc).
  destruct (preProcess_edge _ _ _ Hcall sc Dc Mc)
    as (tf1 & rf1 & sf1 & t3 & b & s2 & s3
        & E1 & M1 & D2 & M2 & E3 & M3 & S3 & Hedge).
  rewrite Ec in E1. injection E1 as <- <-.
  rewrite Mfc in M1. injection M1 as <-.
  cbn [fst snd] in *.
  split; [now inversion Hcall|].
  intros Hmarked.
  assert (b = true) as ->.
  { destruct Hmarked as [Hm | [t'' Ht'']].
    - destruct (preProcess_returns fuel' t' ast' s2 D2 M2)
        as (t4 & b4 & s4 & E4 & _ & _ & R4).
      rewrite E3 in E4. injection E4 as <- <-. now apply R4.
    - rewrite E3 in Ht''. now injection Ht''. }
  exists sf. split; [exact Mf|]. apply Sfc, Hedge. reflexivity.
Qed.

End PreProcessFacts.

(** ** The properties on a concrete setting *)

Section Concrete.
Import demo.

Lemma fatal_error_response_witness :
  Contents (res (backend broken_run)) <> []
  /\ exists e,
      response broken_run = BuildErrorResponse e
      /\ Error (response broken_run) = Some e
      /\ Contents (response broken_run) = [].
Proof.
  split; [vm_compute; discriminate|].
  apply (fatal_error_response (H := collaborators)).
  pose (g0 := prepared [] true).
  pose (g2 := fst (Generate_filter g0 broken_diamond)).
  pose (h2 := snd (Generate_filter g0 broken_diamond)).
  pose (g3 := render_each (fillRequisitions (prepareTemplates g2)) h2
                (first_occurrences ∅ [0; 1; 3])).
  apply (fatal_render _ _ _ _ g0 broken_diamond g2 h2 g3 2
           (fst (renderOneFile
                   (log_Info g3 ["Processing"; Filename (deref h2 2)]) h2 2))
           "broken.thrift: unresolved reference Money").
  - evaluate.
  - apply surjective_pairing.
  - evaluate.
  - evaluate.
  - replace (trees_of g2 h2) with ([0; 1; 3] ++ 2 :: [3]) by evaluate.
    apply loop_reaches_after.
    + evaluate.
    + apply not_elem_of_empty.
    + intros [E | [E | [E | []]]]; discriminate.
  - evaluate.
Defined.

(** The counterexample to C2 as stated: in a recursive run with streaming
    support disabled, the walker sends the included file [user.thrift]
    (address 1) and the file is rendered, yet its service [UserFeed], whose
    single function classifies as streaming, still has that function when
    the run ends, and no warning names it. *)
Lemma included_file_is_not_filtered :
  ThriftStreaming (features (utils (backend recursive_run))) = false
  /\ In 1 (DepthFirstSearch diamond 0)
  /\ In (Info ["Processing"; "user.thrift"]) (log (backend recursive_run))
  /\ Services (deref (graph recursive_run) 1) = [UserFeed]
  /\ ~ In (skip_warning "UserFeed" Follow) (log (backend recursive_run))
  /\ ~ filter_exact_on diamond recursive_run 1.
Proof.
  split; [evaluate|]. split; [vm_compute; tauto|].
  split; [vm_compute; tauto|]. split; [evaluate|]. split.
  - vm_compute. intros [E | [E | [E | [E | [E | []]]]]]; discriminate.
  - intros Hexact.
    destruct (Hexact UserFeed) as (svc' & Hin & _ & Hlen).
    + vm_compute. tauto.
    + evaluate.
    + vm_compute in Hin. destruct Hin as [<- | []].
      vm_compute in Hlen. discriminate.
Qed.

Lemma capability_filter_exact_on_root_witness :
  length (Services (deref (snd filtered) 0)) = 1
  /\ (exists svc',
        Services (deref (snd filtered) 0) !! 0 = Some svc'
        /\ svc_Name svc' = "OrderService"
        /\ svc_Functions svc' = [GetOrder]
        /\ length (svc_Functions svc') = 2 - 1
        /\ service_warnings OrderService
           = [skip_warning "OrderService" Watch])
  /\ log (fst filtered)
     = log (prepared [] true) ++ [skip_warning "OrderService" Watch]
  /\ deref (snd filtered) 1 = deref diamond 1.
Proof.
  destruct (capability_filter_exact_on_root (H := collaborators)
              (prepared [] true) (fst filtered)
              diamond (snd filtered)
              ltac:(evaluate) (surjective_pairing _))
    as (Hlen & Hsvc & Hlog & Hother).
  split; [exact Hlen|]. split.
  - destruct (Hsvc 0 OrderService ltac:(evaluate) ltac:(evaluate))
      as (svc' & Hi & Hn & Hf & Hl & Hw & _).
    exists svc'. repeat split; assumption.
  - split; [now rewrite Hlog | apply Hother; discriminate].
Defined.

Lemma mark_kept_part_monotone (h : heap) (filename : string) :
  forall (t : trim.Trimmer) (ast : ptr) (s : gset ptr),
    trim.marks t !! filename = Some s ->
    exists s', trim.marks (fst (mark_kept_part t h ast filename)) !! filename
               = Some s' /\ s ⊆ s'.
Proof.
  intros t ast s Hs. unfold mark_kept_part. rewrite Hs. cbn.
  eexists. split; [apply lookup_insert_eq | apply union_subseteq_r].
Defined.

Lemma diamond_depth : trim.depth_le diamond 3 0.
Proof.
  constructor. intros inc [<- | [<- | []]];
    constructor; intros inc' [<- | []];
    constructor; intros inc'' [].
Defined.

Lemma include_edges_marked_witness :
  exists tf rf,
    trim.preProcess mark_kept_part diamond 3 trimmer 0 "order.thrift"
    = Some (tf, rf)
    /\ trim.kept tf "order.thrift" 10
    /\ trim.kept tf "order.thrift" 12.
Proof.
  destruct (include_edges_marked mark_kept_part diamond "order.thrift"
              (mark_kept_part_monotone diamond "order.thrift")
              3 trimmer 0 ∅ ltac:(evaluate) diamond_depth)
    as (tf & rf & E & Hall).
  exists tf, rf. split; [exact E|].
  pose (t1 := fst (mark_kept_part trimmer diamond 0 "order.thrift")).
  pose (t2 := fst (mark_kept_part t1 diamond 1 "order.thrift")).
  assert (trim.makes_call mark_kept_part diamond "order.thrift"
            (3, trimmer, 0) (mkInclude 10 "user.thrift" 1) (2, t1, 1))
    as Hroot.
  { apply (trim.makes_call_intro _ _ _ 2 trimmer 0 t1 false []
             (mkInclude 10 "user.thrift" 1) [mkInclude 11 "pay.thrift" 2]
             t1 false); evaluate. }
  assert (trim.makes_call mark_kept_part diamond "order.thrift"
            (2, t1, 1) (mkInclude 12 "common.thrift" 3) (1, t2, 3))
    as Huser.
  { apply (trim.makes_call_intro _ _ _ 1 t1 1 t2 false []
             (mkInclude 12 "common.thrift" 3) [] t2 false); evaluate. }
  split.
  - apply (Hall _ _ _ _ _ (rtc_refl _ _) Hroot). right.
    exists (match trim.preProcess mark_kept_part diamond 2 t1 1 "order.thrift"
            with Some (t, _) => t | None => t1 end).
    evaluate.
  - apply (Hall _ _ _ _ _ (rtc_once _ _ (ex_intro _ _ Hroot)) Huser).
    left. evaluate.
Defined.

Lemma diamond_walk (p : ptr) :
  In p (DepthFirstSearch diamond 0) <-> reachable diamond 0 p.
Proof.
  replace (DepthFirstSearch diamond 0) with [0; 1; 3; 2; 3] by evaluate.
  assert (reachable diamond 0 1) as R1.
  { apply (reach_step diamond 0 0 (mkInclude 10 "user.thrift" 1));
      [constructor | now left]. }
  assert (reachable diamond 0 2) as R2.
  { apply (reach_step diamond 0 0 (mkInclude 11 "pay.thrift" 2));
      [constructor | right; now left]. }
  assert (reachable diamond 0 3) as R3.
  { apply (reach_step diamond 0 1 (mkInclude 12 "common.thrift" 3));
      [exact R1 | now left]. }
  split.
  - intros [<- | [<- | [<- | [<- | [<- | []]]]]];
      [constructor | assumption ..].
  - intros Hreach.
    induction Hreach as [|q inc _ IH Hinc]; [now left|].
    destruct IH as [<- | [<- | [<- | [<- | [<- | []]]]]];
      vm_compute in Hinc; intuition (subst; simpl; tauto).
Defined.

Lemma walker_renders_each_file_once_witness :
  executeTemplates (prepareTemplates (prepared [] false)) diamond
  = render_each (prepareTemplates (prepared [] false)) diamond [0]
  /\ exists l : list ptr,
      List.NoDup l
      /\ (forall p, In p l <-> reachable diamond 0 p)
      /\ executeTemplates (prepareTemplates (prepared [] true)) diamond
         = render_each (prepareTemplates (prepared [] true)) diamond l.
Proof.
  split.
  - apply (walker_renders_each_file_once (H := collaborators)
             (prepareTemplates (prepared [] false)) diamond ltac:(evaluate)).
    evaluate.
  - destruct (proj2 (walker_renders_each_file_once (H := collaborators)
                       (prepareTemplates (prepared [] true)) diamond
                       ltac:(evaluate))
                ltac:(evaluate) diamond_walk)
      as (l & Hnodup & Hin & Hexec & _).
    exists l. repeat split; try assumption; apply Hin.
Defined.

Lemma Generate_two_runs_identical_witness :
  (response (Generate used diamond (request [] true) [Info ["earlier run"]])
   = response (Generate zero diamond (request [] true) [])
   /\ graph (Generate used diamond (request [] true) [Info ["earlier run"]])
      = graph (Generate zero diamond (request [] true) []))
  /\ (response (Generate (backend (Generate zero diamond (request [] true) []))
                         (graph (Generate zero diamond (request [] true) []))
                         (request [] true) [Info ["earlier run"]])
      = response (Generate zero diamond (request [] true) [])
      /\ graph (Generate (backend (Generate zero diamond (request [] true) []))
                         (graph (Generate zero diamond (request [] true) []))
                         (request [] true) [Info ["earlier run"]])
         = graph (Generate zero diamond (request [] true) [])).
Proof.
  destruct (Generate_two_runs_identical (H := collaborators) zero used
              diamond (request [] true) [] [Info ["earlier run"]] eq_refl)
    as [Hfresh Hrerun].
  split; [apply Hfresh; reflexivity | apply Hrerun; evaluate].
Defined.

Lemma empty_scope_suppression_witness :
  IsEmpty empty_scope = true
  /\ renderByTemplate (prepared ["skip_empty"] false) (Some empty_scope)
                      (template_New "thrift") "gen/empty.go"
     = (prepared ["skip_empty"] false, None).
Proof.
  destruct (@empty_scope_suppression collaborators) as [Hiff Hskip].
  split.
  - apply Hiff. repeat split.
  - apply Hskip; evaluate.
Defined.

Lemma artifact_order_witness :
  exists localScope refScope main ref reflRef refl,
    BuildRefScope (utils reflective) diamond 3 = inl (localScope, refScope)
    /\ Contents (res (fst common_rendered))
       = Contents (res reflective) ++ main ++ ref ++ reflRef ++ refl
    /\ emits (utils reflective) localScope (tpl reflective)
             "gen/common.thrift.go" main
    /\ emits (utils reflective) refScope (refTpl reflective)
             "gen/common.thrift-ref.go" ref
    /\ emits (utils reflective) refScope (reflectionRefTpl reflective)
             "gen/common.thrift-reflection-ref.go" reflRef
    /\ emits (utils reflective) localScope (reflectionTpl reflective)
             "gen/common.thrift-reflection.go" refl.
Proof.
  assert (renderOneFile reflective diamond 3 = (fst common_rendered, None))
    as Hok by evaluate.
  destruct (artifact_order reflective (fst common_rendered) diamond 3 Hok)
    as (localScope & refScope & main & ref & reflRef & refl
        & Hb & Hc & Hm & Hr & Hrefl).
  replace (WithReflection (features (utils reflective))) with true in Hrefl
    by evaluate.
  destruct Hrefl as [Hrr Hrl].
  exists localScope, refScope, main, ref, reflRef, refl.
  repeat split; assumption.
Defined.

Lemma PostProcess_never_fails_witness :
  snd (snd (PostProcess (prepared [] false) "gen/a.go" "func(")) = None
  /\ PostProcess (prepared [] false) "gen/a.go" "func("
     = (log_Warn (prepared [] false)
          ["Failed to format gen/a.go: 1:6: expected type, found 'EOF'"],
        ("func(", None))
  /\ PostProcess (prepared ["no_fmt"] false) "gen/a.go" "func("
     = (prepared ["no_fmt"] false, ("func(", None))
  /\ PostProcess (prepared [] false) "gen/a.thrift" "func("
     = (prepared [] false, ("func(", None))
  /\ PostProcess (prepared [] false) "gen/a.go" "package a"
     = (prepared [] false, ("package a ", None)).
Proof.
  destruct (PostProcess_never_fails (H := collaborators)
              (prepared [] false) "gen/a.go" "func(")
    as (H1 & _ & _ & H4 & _).
  destruct (PostProcess_never_fails (H := collaborators)
              (prepared ["no_fmt"] false) "gen/a.go" "func(")
    as (_ & H2 & _).
  destruct (PostProcess_never_fails (H := collaborators)
              (prepared [] false) "gen/a.thrift" "func(")
    as (_ & _ & H3 & _).
  destruct (PostProcess_never_fails (H := collaborators)
              (prepared [] false) "gen/a.go" "package a")
    as (_ & _ & _ & _ & H5).
  split; [exact H1|].
  split; [apply (H4 "1:6: expected type, found 'EOF'"); evaluate|].
  split; [apply H2; evaluate|].
  split; [apply H3; vm_compute; discriminate|].
  apply H5; evaluate.
Defined.

Lemma skip_go_gen_empty_response_witness :
  response (Generate used diamond (request ["skip_go_gen"] true) [])
  = NewResponse
  /\ tpl (backend (Generate used diamond (request ["skip_go_gen"] true) []))
     = tpl used
  /\ poolBuffer
       (backend (Generate used diamond (request ["skip_go_gen"] true) []))
     = poolBuffer used
  /\ Services
       (deref
          (graph (Generate used diamond (request ["skip_go_gen"] true) []))
          0)
     = map filtered_service (Services (deref diamond 0)).
Proof.
  pose (cu := fst (handle_options (@NewCodeUtils collaborators)
                     ["skip_go_gen"])).
  assert (HandleOptions NewCodeUtils
            (GeneratorParameters (request ["skip_go_gen"] true))
          = (cu, None)) as Hopt by evaluate.
  assert (SkipGoGen (features cu) = true) as Hskip by evaluate.
  assert (TrimIDL (features cu) = false) as Htrim by evaluate.
  pose proof (skip_go_gen_empty_response (H := collaborators)
                used diamond diamond (request ["skip_go_gen"] true) [] cu
                eq_refl Hopt Hskip (or_introl (conj Htrim eq_refl))) as P.
  cbv zeta in P.
  destruct P as (Hr & _ & _ & Ht & _ & _ & _ & _ & Hp & _ & Hs).
  destruct (Hs ltac:(evaluate)) as (Hsvc & _).
  repeat split; assumption.
Defined.

(** The shared file of the diamond is processed once; two files of the
    same name at different addresses are both processed. *)
Example shared_file_processed_once :
  log (backend recursive_run)
  = [skip_warning "OrderService" Watch;
     Info ["Processing"; "order.thrift"];
     Info ["Processing"; "user.thrift"];
     Info ["Processing"; "common.thrift"];
     Info ["Processing"; "pay.thrift"]].
Proof. evaluate. Qed.

Example same_name_files_both_processed :
  log (backend (Generate zero twins (request [] true) []))
  = [Info ["Processing"; "twins.thrift"];
     Info ["Processing"; "common.thrift"];
     Info ["Processing"; "common.thrift"]].
Proof. evaluate. Qed.

End Concrete.

(** * Further properties of the backend *)

(** ** The capability filter on any service *)

Section FilterAccounting.
Context `{Collaborators}.

Lemma function_accounted (svcName : string) (f : Function) :
  (supported f = true /\ function_warnings svcName f = [])
  \/ (supported f = false
      /\ exists msg, function_warnings svcName f = [Warn [msg]]).
Proof.
  unfold supported, function_warnings.
  destruct (ParseStreaming f) as [st | e].
  - destruct (IsStreaming st); [right | left]; cbn; eauto.
  - right. eauto.
Qed.

Lemma kept_plus_warnings (svcName : string) (fs : list Function) :
  length (List.filter supported fs)
  + length (flat_map (function_warnings svcName) fs)
  = length fs.
Proof.
  induction fs as [|f fs IH]; simpl; [reflexivity|].
  rewrite length_app.
  destruct (function_accounted svcName f) as [[-> ->] | [-> [msg ->]]];
    simpl; lia.
Qed.

Lemma no_warning_for_supported (svcName : string) (fs : list Function) :
  flat_map (function_warnings svcName) (List.filter supported fs) = [].
Proof.
  induction fs as [|f fs IH]; simpl; [reflexivity|].
  destruct (supported f) eqn:Hf; [|exact IH]. simpl. rewrite IH.
  destruct (function_accounted svcName f) as [[_ ->] | [Hn _]];
    [reflexivity | congruence].
Qed.

(** X1.  Whatever the functions of a service are (streaming, unary, or not
    classifiable), [removeStreamingFunctions] accounts for each of them: the
    services of the file keep their place and name, a service keeps exactly
    its supported functions in their order, each function dropped gets one
    warning, and nothing else of the file changes. *)
Theorem capability_filter_accounts_for_every_function :
  forall (g : GoBackend) (h : heap) (ast : ptr),
    let g' := fst (removeStreamingFunctions g h ast) in
    let h' := snd (removeStreamingFunctions g h ast) in
    Services (deref h' ast) = map filtered_service (Services (deref h ast))
    /\ map svc_Name (Services (deref h' ast))
       = map svc_Name (Services (deref h ast))
    /\ (forall svc f,
          In f (svc_Functions (filtered_service svc))
          <-> In f (svc_Functions svc) /\ supported f = true)
    /\ (forall svc,
          length (svc_Functions (filtered_service svc))
          + length (service_warnings svc)
          = length (svc_Functions svc))
    /\ (forall svcName f,
          supported f = false ->
          exists msg, function_warnings svcName f = [Warn [msg]])
    /\ log g' = log g ++ flat_map service_warnings (Services (deref h ast))
    /\ Filename (deref h' ast) = Filename (deref h ast)
    /\ Includes (deref h' ast) = Includes (deref h ast)
    /\ Structs (deref h' ast) = Structs (deref h ast)
    /\ Constants (deref h' ast) = Constants (deref h ast).
Proof.
  intros g h ast. cbv zeta. rewrite removeStreamingFunctions_spec.
  cbn [fst snd]. rewrite store_same. cbn.
  split; [reflexivity|]. split.
  { rewrite map_map. reflexivity. }
  split.
  { intros svc f. unfold filtered_service. cbn. apply filter_In. }
  split.
  { intros svc. unfold filtered_service, service_warnings. cbn.
    apply kept_plus_warnings. }
  split; [|repeat split].
  intros svcName f Hf.
  destruct (function_accounted svcName f) as [[Hs _] | [_ Hm]];
    [congruence | exact Hm].
Qed.

(** X2.  Filtering a second time changes nothing: the graph is as the first
    pass left it and no further warning is logged. *)
Theorem capability_filter_idempotent :
  forall (g : GoBackend) (h : heap) (ast : ptr),
    removeStreamingFunctions (fst (removeStreamingFunctions g h ast))
                             (snd (removeStreamingFunctions g h ast)) ast
    = removeStreamingFunctions g h ast.
Proof.
  intros g h ast. rewrite !removeStreamingFunctions_spec. cbn [fst snd].
  rewrite store_same. cbn [Services with_Services].
  assert (flat_map service_warnings
            (map filtered_service (Services (deref h ast))) = []) as ->.
  { induction (Services (deref h ast)) as [|svc svcs IH]; simpl;
      [reflexivity|].
    rewrite IH, app_nil_r. unfold service_warnings, filtered_service. cbn.
    apply no_warning_for_supported. }
  rewrite add_log_nil, map_map.
  f_equal. unfold store, with_Services. cbn.
  rewrite insert_insert_eq. do 2 f_equal.
  apply map_ext. intros svc.
  unfold filtered_service, with_Functions. cbn.
  now rewrite filter_idempotent.
Qed.

End FilterAccounting.

(** ** What rendering touches *)

Section RenderFootprint.
Context `{Collaborators}.

Lemma paired_app (a b : list Generated) :
  paired a -> paired b -> paired (a ++ b).
Proof.
  induction 1 as [|c n f rest _ IH]; intros Hb; simpl;
    [exact Hb | constructor; now apply IH].
Qed.

Lemma pool_kept_refl (pool : list string) : pool_kept pool pool.
Proof. now left. Qed.

Lemma pool_kept_trans (a b c : list string) :
  pool_kept a b -> pool_kept b c -> pool_kept a c.
Proof.
  unfold pool_kept.
  intros [Hab | [-> Hb]] [Hbc | [-> Hc]].
  - left. congruence.
  - destruct a; [now right | discriminate].
  - right. split; [reflexivity | congruence].
  - discriminate.
Qed.

Lemma pool_Get_Put_kept (pool : list string) (w : string) :
  pool_kept pool (pool_Put (snd (pool_Get pool)) w).
Proof.
  unfold pool_kept, pool_Put, pool_Get.
  destruct pool as [|b pool]; cbn; [now right | now left].
Qed.

(** What one [renderByTemplate] call leaves, whatever its outcome. *)
Lemma renderByTemplate_footprint (g g' : GoBackend) scope t filename e :
  renderByTemplate g scope t filename = (g', e) ->
  exists out,
    Contents (res g') = Contents (res g) ++ out
    /\ Error (res g') = Error (res g)
    /\ Warnings (res g') = Warnings (res g)
    /\ pool_kept (poolBuffer g) (poolBuffer g')
    /\ (e = None -> paired out)
    /\ (e <> None -> length out <= 1).
Proof.
  unfold renderByTemplate.
  destruct scope as [s|].
  2: { intros [= <- <-]. exists []. rewrite app_nil_r.
       split; [reflexivity|]. split; [reflexivity|].
       split; [reflexivity|]. split; [apply pool_kept_refl|].
       split; [intros _; constructor | intros _; cbn; lia]. }
  destruct (SkipEmpty _ && IsEmpty s).
  { intros [= <- <-]. exists []. rewrite app_nil_r.
    split; [reflexivity|]. split; [reflexivity|].
    split; [reflexivity|]. split; [apply pool_kept_refl|].
    split; [intros _; constructor | intros _; cbn; lia]. }
  pose proof (pool_Get_Put_kept (poolBuffer g)) as Hpool.
  destruct (pool_Get (poolBuffer g)) as [w pool]. cbn [snd] in Hpool.
  cbn zeta.
  destruct (ExecuteTemplate _ t (tpl_Name t) _) as [c [e1|]].
  { intros [= <- <-]. exists []. cbn. rewrite app_nil_r.
    split; [reflexivity|]. split; [reflexivity|].
    split; [reflexivity|]. split; [apply Hpool|].
    split; [discriminate | intros _; cbn; lia]. }
  destruct (ResolveImports s) as [imports | e2].
  2: { intros [= <- <-]. eexists. cbn.
       split; [reflexivity|]. split; [reflexivity|].
       split; [reflexivity|]. split; [apply Hpool|].
       split; [discriminate | intros _; cbn; lia]. }
  destruct (ExecuteTemplate _ t "Imports" _) as [f [e3|]].
  { intros [= <- <-]. eexists. cbn.
    split; [reflexivity|]. split; [reflexivity|].
    split; [reflexivity|]. split; [apply Hpool|].
    split; [discriminate | intros _; cbn; lia]. }
  intros [= <- <-].
  exists [ {| Content := "" +:+ c; Name := Some filename;
              InsertionPoint := None |};
           {| Content := "" +:+ f; Name := None;
              InsertionPoint := Some "imports" |} ].
  cbn. rewrite <- app_assoc.
  split; [reflexivity|]. split; [reflexivity|].
  split; [reflexivity|]. split; [apply Hpool|].
  split; [intros _; repeat constructor | congruence].
Qed.

Lemma renderOneFile_effects :
  forall (g g' : GoBackend) (h : heap) (ast : ptr) (e : option error),
    renderOneFile g h ast = (g', e) ->
    (exists out,
        Contents (res g') = Contents (res g) ++ out
        /\ (e = None -> paired out))
    /\ Error (res g') = Error (res g)
    /\ Warnings (res g') = Warnings (res g)
    /\ pool_kept (poolBuffer g) (poolBuffer g').
Proof.
  intros g g' h ast e. unfold renderOneFile.
  destruct (BuildRefScope _ h ast) as [[localScope refScope] | e0].
  2: { intros [= <- <-].
       split; [exists []; split; [now rewrite app_nil_r | discriminate]|].
       split; [reflexivity|]. split; [reflexivity | apply pool_kept_refl]. }
  destruct (renderByTemplate g localScope _ _) as [g1 e1] eqn:R1.
  apply renderByTemplate_footprint in R1
    as (o1 & C1 & E1 & W1 & P1 & S1 & _).
  destruct e1 as [e1|].
  { intros [= <- <-].
    split; [exists o1; split; [exact C1 | discriminate]|]. tauto. }
  destruct (renderByTemplate g1 refScope _ _) as [g2 e2] eqn:R2.
  apply renderByTemplate_footprint in R2
    as (o2 & C2 & E2 & W2 & P2 & S2 & _).
  pose proof (pool_kept_trans _ _ _ P1 P2) as P12.
  assert (Contents (res g2) = Contents (res g) ++ o1 ++ o2) as C12.
  { now rewrite C2, C1, app_assoc. }
  destruct e2 as [e2|].
  { intros [= <- <-].
    split; [exists (o1 ++ o2); split; [exact C12 | discriminate]|].
    split; [congruence|]. split; [congruence | exact P12]. }
  destruct (WithReflection _).
  2: { intros [= <- <-].
       split; [exists (o1 ++ o2); split;
               [exact C12 | intros _; apply paired_app; auto]|].
       split; [congruence|]. split; [congruence | exact P12]. }
  destruct (renderByTemplate g2 refScope _ _) as [g3 e3] eqn:R3.
  apply renderByTemplate_footprint in R3
    as (o3 & C3 & E3 & W3 & P3 & S3 & _).
  pose proof (pool_kept_trans _ _ _ P12 P3) as P123.
  assert (Contents (res g3) = Contents (res g) ++ o1 ++ o2 ++ o3) as C123.
  { now rewrite C3, C12, <- !app_assoc. }
  destruct e3 as [e3|].
  { intros [= <- <-].
    split; [exists (o1 ++ o2 ++ o3); split; [exact C123 | discriminate]|].
    split; [congruence|]. split; [congruence | exact P123]. }
  intros R4.
  apply renderByTemplate_footprint in R4
    as (o4 & C4 & E4 & W4 & P4 & S4 & _).
  split.
  - exists (o1 ++ o2 ++ o3 ++ o4). split.
    + now rewrite C4, C123, <- !app_assoc.
    + intros He. repeat apply paired_app; auto.
  - split; [congruence|]. split; [congruence|].
    now apply (pool_kept_trans _ _ _ P123).
Qed.


Lemma executeTemplates_loop_footprint (h : heap) (trees : list ptr) :
  forall (g : GoBackend) (processed : gset ptr),
    (exists out,
        Contents (res (executeTemplates_loop g h processed trees))
        = Contents (res g) ++ out
        /\ (err (executeTemplates_loop g h processed trees) = None ->
            paired out))
    /\ Error (res (executeTemplates_loop g h processed trees))
       = Error (res g)
    /\ Warnings (res (executeTemplates_loop g h processed trees))
       = Warnings (res g)
    /\ pool_kept (poolBuffer g)
                 (poolBuffer (executeTemplates_loop g h processed trees)).
Proof.
  induction trees as [|ast trees IH]; intros g processed; simpl.
  - split; [exists []; split; [now rewrite app_nil_r | constructor]|].
    split; [reflexivity|]. split; [reflexivity | apply pool_kept_refl].
  - destruct (decide (ast ∈ processed)); [apply IH|].
    destruct (renderOneFile _ h ast) as [g1 e] eqn:R.
    apply renderOneFile_effects in R
      as ((o1 & C1 & S1) & E1 & W1 & P1).
    cbn in C1, E1, W1, P1. cbn [err with_err].
    destruct e as [e|].
    + split; [exists o1; split; [exact C1 | discriminate]|]. tauto.
    + destruct (IH (with_err g1 None) ({[ast]} ∪ processed))
        as ((o2 & C2 & S2) & E2 & W2 & P2).
      cbn in C2, E2, W2, P2.
      split.
      * exists (o1 ++ o2). split; [now rewrite C2, C1, app_assoc|].
        intros He. apply paired_app; auto.
      * split; [congruence|]. split; [congruence|].
        now apply (pool_kept_trans _ _ _ P1).
Qed.

Lemma Generate_entry_res (g : GoBackend) (r : Request) (l : list LogEntry) :
  res (Generate_entry g r l) = NewResponse
  /\ poolBuffer (Generate_entry g r l) = poolBuffer g.
Proof.
  unfold Generate_entry, prepareUtilities. cbn.
  destruct (err g); [now split|].
  destruct (HandleOptions _ _) as [cu [e|]]; now split.
Qed.

Lemma Generate_render_footprint (g : GoBackend) (h : heap) :
  (exists out,
      Contents (res (Generate_render g h)) = Contents (res g) ++ out
      /\ (err (Generate_render g h) = None -> paired out))
  /\ Error (res (Generate_render g h)) = Error (res g)
  /\ Warnings (res (Generate_render g h)) = Warnings (res g)
  /\ pool_kept (poolBuffer g) (poolBuffer (Generate_render g h)).
Proof.
  assert (forall g0 : GoBackend,
             (exists out,
                 Contents (res g0) = Contents (res g0) ++ out
                 /\ (err g0 = None -> paired out))
             /\ Error (res g0) = Error (res g0)
             /\ Warnings (res g0) = Warnings (res g0)
             /\ pool_kept (poolBuffer g0) (poolBuffer g0)) as Hsame.
  { intros g0.
    split; [exists []; split; [now rewrite app_nil_r | constructor]|].
    split; [reflexivity|]. split; [reflexivity | apply pool_kept_refl]. }
  unfold Generate_render. destruct (SkipGoGen _); [apply (Hsame g)|].
  rewrite fillRequisitions_id. unfold executeTemplates, prepareTemplates.
  destruct (err g) eqn:Eg; [rewrite Eg; apply (Hsame g)|].
  cbn [err with_templates]. rewrite Eg.
  match goal with
  | |- context [executeTemplates_loop ?g0 h ?P ?ts] =>
      exact (executeTemplates_loop_footprint h ts g0 P)
  end.
Qed.

(** X5.  The response of [Generate] is of one of two shapes: an error with no
    Artifact and no warning, or no error and a sequence of full files each
    immediately followed by its imports fragment. *)
Theorem Generate_response_shape :
  forall (g : GoBackend) (h : heap) (r : Request) (l : list LogEntry),
    (exists e, response (Generate g h r l) = BuildErrorResponse e)
    \/ (Error (response (Generate g h r l)) = None
        /\ Warnings (response (Generate g h r l)) = []
        /\ paired (Contents (response (Generate g h r l)))).
Proof.
  intros g h r l. rewrite Generate_response.
  destruct (err (backend (Generate g h r l))) as [e|] eqn:He.
  { left. exists e. now apply buildResponse_error. }
  right. rewrite (buildResponse_ok _ He).
  revert He. unfold Generate.
  destruct (Generate_trim _ h) as [[g1 h1] | early] eqn:Ht.
  2: { apply Generate_trim_early in Ht as (e & Ee & _). congruence. }
  apply Generate_trim_err in Ht as (_ & _ & _ & R1 & _).
  destruct (Generate_filter g1 h1) as [g2 h2] eqn:Hf.
  apply Generate_filter_frame in Hf as (_ & _ & _ & R2 & _).
  cbn [backend]. intros He.
  destruct (Generate_render_footprint g2 h2) as ((out & C & S) & E & W & _).
  destruct (Generate_entry_res g r l) as [R0 _].
  rewrite E, W, C, R2, R1, R0. cbn. repeat split. now apply S.
Qed.


End RenderFootprint.

(** ** Failures of a render, and the order of the failures of a run *)

Section FailureFacts.
Context `{Collaborators}.

(** X4.  How a [renderByTemplate] that is not skipped fails.  A failure of the
    main template or of the imports template is reported under the file
    name, [filename: cause]; a failure of import resolution is reported as
    it is.  When the main template fails nothing is appended; in the two
    other cases the full file has already been appended, without its
    fragment. *)
Theorem render_failure_reports :
  forall (g : GoBackend) (s : Scope) (t : Template) (filename : string),
    SkipEmpty (features (utils g)) && IsEmpty s = false ->
    (forall out e,
        ExecuteTemplate (SetRootScope (utils g) s) t (tpl_Name t)
                        (ScopeData s) = (out, Some e) ->
        snd (renderByTemplate g (Some s) t filename)
        = Some (filename +:+ ": " +:+ e)
        /\ Contents (res (fst (renderByTemplate g (Some s) t filename)))
           = Contents (res g))
    /\ (forall out e,
          ExecuteTemplate (SetRootScope (utils g) s) t (tpl_Name t)
                          (ScopeData s) = (out, None) ->
          ResolveImports s = inr e ->
          snd (renderByTemplate g (Some s) t filename) = Some e
          /\ Contents (res (fst (renderByTemplate g (Some s) t filename)))
             = Contents (res g)
                 ++ [ {| Content := out; Name := Some filename;
                         InsertionPoint := None |} ])
    /\ (forall out imports out' e,
          ExecuteTemplate (SetRootScope (utils g) s) t (tpl_Name t)
                          (ScopeData s) = (out, None) ->
          ResolveImports s = inl imports ->
          ExecuteTemplate (SetRootScope (utils g) s) t "Imports"
                          (ImportsData imports) = (out', Some e) ->
          snd (renderByTemplate g (Some s) t filename)
          = Some (filename +:+ ": " +:+ e)
          /\ Contents (res (fst (renderByTemplate g (Some s) t filename)))
             = Contents (res g)
                 ++ [ {| Content := out; Name := Some filename;
                         InsertionPoint := None |} ]).
Proof.
  intros g s t filename Hskip. unfold renderByTemplate. rewrite Hskip.
  destruct (pool_Get _) as [w pool]. cbn zeta. cbn [utils with_utils].
  split; [|split].
  - intros out e ->. now split.
  - intros out e -> ->. now split.
  - intros out imports out' e -> ->. cbn [utils with_res with_utils].
    intros ->. now split.
Qed.

(** X7.  When option handling fails, [Generate] does not stop there: trimming
    still runs if the options handled so far enabled it, and so does the
    capability filter.  The error of the response is the error of option
    handling, unless trimming fails too, whose error then replaces it.  No
    function map is built, no template is prepared and nothing is
    rendered. *)
Theorem option_failure_precedence :
  forall (g : GoBackend) (h : heap) (r : Request) (l : list LogEntry)
         (cu : CodeUtils) (e : error),
    err g = None ->
    HandleOptions NewCodeUtils (GeneratorParameters r) = (cu, Some e) ->
    (forall h1,
        (TrimIDL (features cu) = false /\ h1 = h
         \/ TrimIDL (features cu) = true
            /\ exists tr, TrimAST h (AST r) = (h1, inl tr)) ->
        response (Generate g h r l) = BuildErrorResponse e
        /\ (ThriftStreaming (features cu) = true ->
            graph (Generate g h r l) = h1)
        /\ (ThriftStreaming (features cu) = false ->
            Services (deref (graph (Generate g h r l)) (AST r))
            = map filtered_service (Services (deref h1 (AST r))))
        /\ funcs (backend (Generate g h r l)) = funcs g
        /\ tpl (backend (Generate g h r l)) = tpl g
        /\ res (backend (Generate g h r l)) = NewResponse
        /\ poolBuffer (backend (Generate g h r l)) = poolBuffer g)
    /\ (forall h1 e',
          TrimIDL (features cu) = true ->
          TrimAST h (AST r) = (h1, inr e') ->
          response (Generate g h r l) = BuildErrorResponse e'
          /\ graph (Generate g h r l) = h1).
Proof.
  intros g h r l cu e Hg Hopt.
  pose proof (Generate_entry_fresh g r l Hg) as P. rewrite Hopt in P.
  destruct P as (E0 & U0 & R0 & Q0 & L0 & B0 & T1 & T2 & T3 & T4).
  assert (funcs (Generate_entry g r l) = funcs g) as F0.
  { unfold Generate_entry, prepareUtilities. cbn. rewrite Hg, Hopt.
    reflexivity. }
  split.
  - intros h1 Htrim.
    assert (exists g1, Generate_trim (Generate_entry g r l) h = inl (g1, h1)
                       /\ funcs g1 = funcs (Generate_entry g r l))
      as (g1 & Ht & F1).
    { unfold Generate_trim. rewrite U0.
      destruct Htrim as [[-> ->] | [-> [tr Htr]]]; [eauto|].
      cbn [req log_Warn]. rewrite Q0, Htr. eauto. }
    pose proof (Generate_trim_err _ _ _ _ Ht)
      as (E1 & U1 & Q1 & R1 & B1 & V1 & _).
    unfold Generate. rewrite Ht.
    unfold Generate_filter. rewrite U1, U0, Q1, Q0.
    assert (forall g2 h2,
               err g2 = Some e -> funcs g2 = funcs g -> tpl g2 = tpl g ->
               res g2 = NewResponse -> poolBuffer g2 = poolBuffer g ->
               buildResponse (Generate_render g2 h2) = BuildErrorResponse e
               /\ funcs (Generate_render g2 h2) = funcs g
               /\ tpl (Generate_render g2 h2) = tpl g
               /\ res (Generate_render g2 h2) = NewResponse
               /\ poolBuffer (Generate_render g2 h2) = poolBuffer g)
      as Hrender.
    { intros g2 h2 E2 F2 T R B.
      rewrite (buildResponse_error _ _ (Generate_render_err _ _ _ E2)).
      unfold Generate_render. destruct (SkipGoGen _); [now cbn|].
      unfold executeTemplates, fillRequisitions, prepareTemplates.
      rewrite !E2. tauto. }
    destruct (ThriftStreaming (features cu)) eqn:Hs; cbn [negb].
    + cbn [backend graph response].
      destruct (Hrender g1 h1) as (A & B & C & D & F); try congruence.
      repeat split; try assumption. discriminate.
    + rewrite removeStreamingFunctions_spec. cbn [backend graph response].
      match goal with
      | |- context [Generate_render ?g2 ?h2] =>
          destruct (Hrender g2 h2) as (A & B & C & D & F);
            cbn; try congruence
      end.
      repeat split; try assumption; try discriminate.
      intros _. now rewrite store_same.
  - intros h1 e' Hon Hfail.
    unfold Generate, Generate_trim. rewrite U0, Hon.
    cbn [req log_Warn]. rewrite Q0, Hfail. now split.
Qed.

(** X8.  The render loop stops at the first file that fails: the error of that
    file is the pending error, and the files logged as processed are the
    first occurrences before it, in the order received, and the failing
    file itself; no file after it is processed. *)
Theorem render_loop_stops_at_first_failure :
  forall (g g' : GoBackend) (h : heap) (before : list ptr) (ast : ptr)
         (after : list ptr) (e : error),
    err g = None ->
    trees_of g h = before ++ ast :: after ->
    ~ In ast before ->
    err (render_each g h (first_occurrences ∅ before)) = None ->
    renderOneFile
      (log_Info (render_each g h (first_occurrences ∅ before))
                ["Processing"; Filename (deref h ast)]) h ast
    = (g', Some e) ->
    executeTemplates g h = with_err g' (Some e)
    /\ log (executeTemplates g h)
       = log g
           ++ map (fun p => Info ["Processing"; Filename (deref h p)])
                  (first_occurrences ∅ before)
           ++ [Info ["Processing"; Filename (deref h ast)]].
Proof.
  intros g g' h before ast after e Hg Htrees Hnot Hok Hfail.
  assert (executeTemplates g h = with_err g' (Some e)) as Hexec.
  { unfold executeTemplates. rewrite Hg.
    change (if Recursive (req g) then DepthFirstSearch h (AST (req g))
            else [AST (req g)]) with (trees_of g h).
    rewrite Htrees.
    apply (executeTemplates_loop_fails h _ _ _ _ _ _ _
             (loop_reaches_after h before ast after g ∅ Hok
                (not_elem_of_empty ast) Hnot) Hfail). }
  split; [exact Hexec|]. rewrite Hexec. cbn [log with_err].
  rewrite (renderOneFile_log _ _ _ _ _ Hfail). cbn [log log_Info].
  rewrite (render_each_log h _ g Hok). now rewrite <- app_assoc.
Qed.

End FailureFacts.

(** ** Templates and helper functions *)

Section TemplateFacts.
Context `{Collaborators}.

Lemma fold_left_Parse (texts : list string) :
  forall t : Template,
    tpl_Name (fold_left Parse texts t) = tpl_Name t
    /\ tpl_funcs (fold_left Parse texts t) = tpl_funcs t
    /\ tpl_texts (fold_left Parse texts t) = tpl_texts t ++ texts.
Proof.
  induction texts as [|x texts IH]; intros t; simpl.
  - now rewrite app_nil_r.
  - destruct (IH (Parse t x)) as (N & F & T). cbn in N, F, T.
    rewrite N, F, T, <- app_assoc. repeat split.
Qed.

Lemma prepareTemplates_funcs (g : GoBackend) :
  err g = None ->
  tpl_funcs (tpl (prepareTemplates g)) = funcs g
  /\ tpl_funcs (refTpl (prepareTemplates g)) = funcs g
  /\ tpl_funcs (reflectionTpl (prepareTemplates g)) = funcs g
  /\ tpl_funcs (reflectionRefTpl (prepareTemplates g)) = funcs g.
Proof.
  intros Hg. unfold prepareTemplates. rewrite Hg.
  cbn [tpl refTpl reflectionTpl reflectionRefTpl with_templates].
  match goal with
  | |- context [fold_left Parse ?ts ?t0] =>
      destruct (fold_left_Parse ts t0) as (_ & F & _)
  end.
  rewrite F. cbn. rewrite (right_id_L ∅ (∪) (funcs g)). repeat split.
Qed.

(** X9.  The main template holds, in order, the texts selected by the template
    name: the built-in ones (with the slim extension if [NoDefaultSerdes] is
    set) under the default name, otherwise the alternative of that name,
    whatever [NoDefaultSerdes] is; a name without an alternative gives a
    template with no text at all.  The three companion templates hold one
    text each, and the four of them carry the function map of the backend. *)
Theorem prepareTemplates_selection :
  forall g : GoBackend,
    err g = None ->
    tpl_texts (tpl (prepareTemplates g)) = selected_texts (utils g)
    /\ (template_name (utils g) <> defaultTemplate ->
        alternative (utils g) !! template_name (utils g) = None ->
        tpl_texts (tpl (prepareTemplates g)) = [])
    /\ (forall texts,
          template_name (utils g) <> defaultTemplate ->
          alternative (utils g) !! template_name (utils g) = Some texts ->
          tpl_texts (tpl (prepareTemplates g)) = texts)
    /\ map tpl_Name
           [tpl (prepareTemplates g); refTpl (prepareTemplates g);
            reflectionTpl (prepareTemplates g);
            reflectionRefTpl (prepareTemplates g)]
       = ["thrift"; "thrift-ref"; "thrift-reflection";
          "thrift-reflection-util"]
    /\ map tpl_texts
           [refTpl (prepareTemplates g); reflectionTpl (prepareTemplates g);
            reflectionRefTpl (prepareTemplates g)]
       = [[ref_tpl_File]; [reflection_tpl_File]; [reflection_tpl_FileRef]]
    /\ map tpl_funcs
           [tpl (prepareTemplates g); refTpl (prepareTemplates g);
            reflectionTpl (prepareTemplates g);
            reflectionRefTpl (prepareTemplates g)]
       = [funcs g; funcs g; funcs g; funcs g].
Proof.
  intros g Hg. unfold prepareTemplates. rewrite Hg.
  cbn [tpl refTpl reflectionTpl reflectionRefTpl with_templates].
  match goal with
  | |- context [fold_left Parse ?ts ?t0] =>
      destruct (fold_left_Parse ts t0) as (N & F & T)
  end.
  cbn [map]. rewrite N, F, T. cbn.
  rewrite (right_id_L ∅ (∪) (funcs g)).
  unfold selected_texts.
  destruct (String.eqb_spec (template_name (utils g)) defaultTemplate)
    as [Heq | Hne]; cbn [negb].
  - split; [reflexivity|].
    split; [intros Hc; contradiction|].
    split; [intros texts Hc; contradiction|]. repeat split.
  - split; [reflexivity|].
    split; [intros _ ->; reflexivity|].
    split; [intros texts _ ->; reflexivity|]. repeat split.
Qed.

(** X10.  After successful option handling the helper [Version] of the function
    map, and of the four templates prepared from it, reports the version of
    the request, even when the utilities define a helper of that name; the
    other helpers are those of the utilities. *)
Theorem Version_helper_reports_the_request :
  forall (g : GoBackend) (r : Request) (l : list LogEntry) (cu : CodeUtils),
    err g = None ->
    HandleOptions NewCodeUtils (GeneratorParameters r) = (cu, None) ->
    funcs (Generate_entry g r l) !! "Version"
    = Some (VersionFunc (Version r))
    /\ (forall k, k <> "Version" ->
          funcs (Generate_entry g r l) !! k = BuildFuncMap cu !! k)
    /\ Forall (fun t => tpl_funcs t !! "Version"
                        = Some (VersionFunc (Version r)))
         [tpl (prepareTemplates (Generate_entry g r l));
          refTpl (prepareTemplates (Generate_entry g r l));
          reflectionTpl (prepareTemplates (Generate_entry g r l));
          reflectionRefTpl (prepareTemplates (Generate_entry g r l))].
Proof.
  intros g r l cu Hg Hopt.
  pose proof (prepareUtilities_fresh (with_entry g r NewResponse l) Hg) as P.
  cbn [req with_entry] in P. rewrite Hopt in P.
  destruct P as (E & _ & _ & _ & _ & _ & _ & _ & _ & _ & F).
  specialize (F eq_refl). fold (Generate_entry g r l) in E, F.
  assert (funcs (Generate_entry g r l) !! "Version"
          = Some (VersionFunc (Version r))) as Hv.
  { rewrite F. apply lookup_insert_eq. }
  split; [exact Hv|]. split.
  - intros k Hk. rewrite F. now apply lookup_insert_ne.
  - destruct (prepareTemplates_funcs _ E) as (F1 & F2 & F3 & F4).
    repeat constructor; congruence.
Qed.

End TemplateFacts.

(** ** File names and extensions *)

Section NameFacts.
Context `{Collaborators}.

Lemma length_substring (s : string) :
  forall n m, n + m <= String.length s ->
              String.length (substring n m s) = m.
Proof.
  induction s as [|c s IH]; intros n m Hle; simpl in *.
  - destruct n, m; simpl; lia.
  - destruct n as [|n]; [destruct m as [|m]; simpl; [reflexivity|]|].
    + rewrite IH; [reflexivity | lia].
    + apply IH. lia.
Qed.

Lemma TrimSuffix_length (s suffix : string) :
  String.length (strings.TrimSuffix s suffix) = String.length s
  \/ String.length (strings.TrimSuffix s suffix) + String.length suffix
     = String.length s.
Proof.
  unfold strings.TrimSuffix, strings.HasSuffix.
  destruct (Nat.leb_spec (String.length suffix) (String.length s)) as [Hle|];
    [|now left].
  destruct (String.eqb _ suffix); [|now left].
  right. cbn. rewrite length_substring; lia.
Qed.

Lemma substring_append_skip (a b : string) (n m : nat) :
  substring (String.length a + n) m (a +:+ b) = substring n m b.
Proof. induction a as [|c a IH]; simpl; [reflexivity | exact IH]. Qed.

Lemma append_assoc (a b c : string) : (a +:+ b) +:+ c = a +:+ (b +:+ c).
Proof.
  induction a as [|x a IH]; [reflexivity|].
  change (String x ((a +:+ b) +:+ c) = String x (a +:+ (b +:+ c))).
  now f_equal.
Qed.

(** The extension of a path that ends in [.go] is [.go]. *)
Lemma Ext_go (stem : string) : filepath.Ext (stem +:+ ".go") = ".go".
Proof.
  unfold filepath.Ext. rewrite length_append. cbn [String.length].
  replace (String.length stem + 3) with (S (S (S (String.length stem))))
    by lia.
  pose proof (append_correct2 stem ".go" 2) as G2.
  pose proof (append_correct2 stem ".go" 1) as G1.
  pose proof (append_correct2 stem ".go" 0) as G0.
  cbn [Nat.add] in G2, G1, G0.
  cbn [filepath.Ext_loop]. rewrite <- G2, <- G1, <- G0.
  cbn. rewrite length_append. cbn [String.length].
  replace (String.length stem + 3 - String.length stem) with 3 by lia.
  apply (substring_append_suffix stem ".go").
Qed.

(** Directories do not count: the extension is that of the last element. *)
Lemma Ext_last_element (dir base : string) :
  filepath.Ext (dir +:+ "/" +:+ base) = filepath.Ext base.
Proof.
  rewrite <- append_assoc.
  set (d := dir +:+ "/").
  assert (String.get (String.length dir) (d +:+ base) = Some "/"%char) as Hsep.
  { unfold d. rewrite append_assoc.
    exact (eq_sym (append_correct2 dir ("/" +:+ base) 0)). }
  assert (String.length d = S (String.length dir)) as Hd.
  { unfold d. rewrite length_append. cbn. lia. }
  assert (forall n,
             filepath.Ext_loop (d +:+ base) (n + String.length d)
             = filepath.Ext_loop base n) as Hloop.
  { induction n as [|n IH].
    - cbn [Nat.add]. rewrite Hd. cbn [filepath.Ext_loop].
      now rewrite Hsep.
    - cbn [Nat.add filepath.Ext_loop].
      rewrite <- (append_correct2 d base n).
      destruct (String.get n base) as [c|]; [|reflexivity].
      destruct (filepath.IsPathSeparator c); [reflexivity|].
      destruct (Ascii.eqb c "."); [|exact IH].
      rewrite length_append, (Nat.add_comm n (String.length d)).
      rewrite substring_append_skip. f_equal. lia. }
  unfold filepath.Ext. rewrite length_append, Nat.add_comm. apply Hloop.
Qed.

(** X11.  Without preserve-name mode the four file names of a file are pairwise
    different, whatever the main name is, and the three companion names end
    in [.go]; with it, the reference name is the main name and the
    reflection-reference name is the reflection name. *)
Theorem companion_names_do_not_collide :
  forall f : string,
    f <> ToRefFilename false f
    /\ f <> ToReflectionFilename f
    /\ f <> ToReflectionRefFilename false f
    /\ ToRefFilename false f <> ToReflectionFilename f
    /\ ToRefFilename false f <> ToReflectionRefFilename false f
    /\ ToReflectionFilename f <> ToReflectionRefFilename false f
    /\ filepath.Ext (ToRefFilename false f) = ".go"
    /\ filepath.Ext (ToReflectionFilename f) = ".go"
    /\ filepath.Ext (ToReflectionRefFilename false f) = ".go"
    /\ ToRefFilename true f = f
    /\ ToReflectionRefFilename true f = ToReflectionFilename f.
Proof.
  intros f.
  unfold ToRefFilename, ToReflectionRefFilename, ToReflectionFilename.
  set (stem := strings.TrimSuffix f ".go").
  pose proof (TrimSuffix_length f ".go") as Hlen. fold stem in Hlen.
  cbn [String.length] in Hlen.
  assert (forall a b : string,
             String.length a <> String.length b -> a <> b) as Hdiff.
  { intros a b Hab ->. now apply Hab. }
  repeat split;
    try (apply Hdiff; rewrite ?length_append; cbn [String.length]; lia).
  - change "-ref.go" with ("-ref" +:+ ".go").
    rewrite <- append_assoc. apply Ext_go.
  - change "-reflection.go" with ("-reflection" +:+ ".go").
    rewrite <- append_assoc. apply Ext_go.
  - change "-reflection-ref.go" with ("-reflection-ref" +:+ ".go").
    rewrite <- append_assoc. apply Ext_go.
Qed.

(** X12.  With formatting enabled, every path that ends in [.go] goes through the
    formatter: its output is returned when it succeeds, and the content is
    returned with one warning naming the path when it fails. *)
Theorem PostProcess_formats_go_paths :
  forall (g : GoBackend) (stem content : string),
    NoFmt (features (utils g)) = false ->
    PostProcess g (stem +:+ ".go") content
    = match format_Source content with
      | inl formatted => (g, (formatted, None))
      | inr e =>
          (log_Warn g
             ["Failed to format " +:+ (stem +:+ ".go") +:+ ": " +:+ e],
           (content, None))
      end.
Proof.
  intros g stem content Hfmt. unfold PostProcess.
  rewrite Hfmt, Ext_go. cbn.
  destruct (format_Source content); reflexivity.
Qed.

(** X13.  [PostProcess] decides on the last element of the path: a path whose
    last element has another extension, or none, comes back unchanged and
    unlogged even when a directory of the path ends in [.go]. *)
Theorem PostProcess_looks_at_the_last_element :
  forall (g : GoBackend) (dir base content : string),
    filepath.Ext (dir +:+ "/" +:+ base) = filepath.Ext base
    /\ (filepath.Ext base <> ".go" ->
        PostProcess g (dir +:+ "/" +:+ base) content
        = (g, (content, None))).
Proof.
  intros g dir base content. split; [apply Ext_last_element|].
  intros Hext. unfold PostProcess. rewrite Ext_last_element.
  destruct (NoFmt _); [reflexivity|].
  destruct (String.eqb_spec (filepath.Ext base) ".go");
    [contradiction | reflexivity].
Qed.

End NameFacts.

(** ** The pre-processing pass: cycles, and what a report means *)

Section PreProcessMore.
Import trim.

Variable markKeptPart : Trimmer -> heap -> ptr -> string -> Trimmer * bool.
Variable h : heap.
Variable filename : string.

Lemma preProcess_loop_stuck rec (includes : list Include) (inc : Include) :
  In inc includes ->
  (forall t, rec t (inc_Reference inc) filename = None) ->
  forall (t : Trimmer) (ret : bool),
    preProcess_loop rec t ret includes filename = None.
Proof.
  intros Hin Hstuck.
  induction includes as [|i includes IH]; intros t ret; [contradiction|].
  simpl. destruct Hin as [-> | Hin]; [now rewrite Hstuck|].
  destruct (rec t (inc_Reference i) filename) as [[t1 [|]]|];
    [|now apply IH|reflexivity].
  destruct (mark t1 filename (inc_addr i)); [now apply IH | reflexivity].
Qed.

(** X14.  [preProcess] keeps no record of the files it has visited: on a file
    from which the include edges lead back into a cycle it returns for no
    amount of fuel, that is, the recursion does not end.  This holds of
    every set of files each of which includes a file of the set. *)
Theorem preProcess_never_returns_on_a_cycle :
  forall S : ptr -> Prop,
    includes_into_itself h S ->
    forall (fuel : nat) (t : Trimmer) (ast : ptr),
      S ast -> preProcess markKeptPart h fuel t ast filename = None.
Proof.
  intros S Hcycle fuel.
  induction fuel as [|fuel IH]; intros t ast Hast; [reflexivity|].
  simpl. destruct (markKeptPart t h ast filename) as [t1 ret].
  destruct (Hcycle ast Hast) as (inc & Hin & Hnext).
  apply (preProcess_loop_stuck _ _ inc Hin).
  intros t0. now apply IH.
Qed.

Lemma preProcess_loop_reports rec (includes : list Include) :
  forall (done : list Include) (t0 : Trimmer) (ret0 : bool) (t : Trimmer)
         (ret : bool) (tf : Trimmer),
    preProcess_loop rec t0 ret0 done filename = Some (t, ret) ->
    preProcess_loop rec t ret includes filename = Some (tf, true) ->
    ret = true
    \/ exists before inc after t2 ret2 t3,
        done ++ includes = before ++ inc :: after
        /\ preProcess_loop rec t0 ret0 before filename = Some (t2, ret2)
        /\ rec t2 (inc_Reference inc) filename = Some (t3, true).
Proof.
  induction includes as [|i includes IH];
    intros done t0 ret0 t ret tf Hdone Hloop; simpl in Hloop.
  - left. congruence.
  - destruct (rec t (inc_Reference i) filename) as [[t1 marked]|] eqn:Hrec;
      [|discriminate].
    destruct marked.
    + right. exists done, i, includes, t, ret, t1. auto.
    + assert (preProcess_loop rec t0 ret0 (done ++ [i]) filename
              = Some (t1, ret)) as Hdone'.
      { rewrite (preProcess_loop_app filename rec done [i] t0 ret0), Hdone.
        simpl. now rewrite Hrec. }
      destruct (IH (done ++ [i]) t0 ret0 t1 ret tf Hdone' Hloop)
        as [Hret | (before & inc & after & t2 & ret2 & t3 & E & L & R)];
        [now left|].
      right. exists before, inc, after, t2, ret2, t3.
      rewrite <- app_assoc in E. auto.
Qed.

(** X15.  [preProcess] reports [true] only if [markKeptPart] reported [true] on
    the file itself or on a file visited below it: a report of marking is
    never made up by the traversal. *)
Theorem preProcess_reports_only_marking :
  forall (fuel : nat) (t : Trimmer) (ast : ptr) (tf : Trimmer),
    preProcess markKeptPart h fuel t ast filename = Some (tf, true) ->
    exists c : call,
      rtc (calls markKeptPart h filename) (fuel, t, ast) c
      /\ snd (markKeptPart (snd (fst c)) h (snd c) filename) = true.
Proof.
  induction fuel as [|fuel IH]; intros t ast tf Hrun; [discriminate|].
  simpl in Hrun.
  destruct (markKeptPart t h ast filename) as [t1 ret] eqn:Hm.
  destruct (preProcess_loop_reports _ _ [] t1 ret t1 ret tf eq_refl Hrun)
    as [-> | (before & inc & after & t2 & ret2 & t3 & E & L & R)].
  - exists (S fuel, t, ast). split; [apply rtc_refl|].
    cbn [fst snd]. now rewrite Hm.
  - destruct (IH _ _ _ R) as (c & Hreach & Hmark).
    exists c. split; [|exact Hmark].
    apply (rtc_l _ _ (fuel, t2, inc_Reference inc)); [|exact Hreach].
    exists inc. apply (makes_call_intro _ _ _ fuel t ast t1 ret before inc
                         after t2 ret2 Hm E L).
Qed.

End PreProcessMore.

(** ** Files with nothing to generate, and the log of a run *)

Section TraceFacts.
Context `{Collaborators}.

Lemma renderByTemplate_skipped (g : GoBackend) scope t filename :
  SkipEmpty (features (utils g)) = true ->
  (forall s, scope = Some s -> IsEmpty s = true) ->
  renderByTemplate g scope t filename = (g, None).
Proof.
  intros Hskip Hempty. unfold renderByTemplate.
  destruct scope as [s|]; [|reflexivity].
  now rewrite Hskip, (Hempty s eq_refl).
Qed.

(** X16.  With empty-scope suppression enabled, a file whose local and reference
    scopes are nil or empty leaves no trace, with or without reflection:
    rendering it succeeds and the backend is exactly as before (no
    Artifact, no buffer taken, no scope recorded as being rendered). *)
Theorem file_without_declarations_leaves_no_trace :
  forall (g : GoBackend) (h : heap) (ast : ptr)
         (localScope refScope : option Scope),
    SkipEmpty (features (utils g)) = true ->
    BuildRefScope (utils g) h ast = inl (localScope, refScope) ->
    (forall s, localScope = Some s -> IsEmpty s = true) ->
    (forall s, refScope = Some s -> IsEmpty s = true) ->
    renderOneFile g h ast = (g, None).
Proof.
  intros g h ast localScope refScope Hskip Hbuild Hlocal Href.
  unfold renderOneFile. rewrite Hbuild.
  rewrite (renderByTemplate_skipped g localScope _ _ Hskip Hlocal).
  rewrite (renderByTemplate_skipped g refScope _ _ Hskip Href).
  destruct (WithReflection _); [|reflexivity].
  rewrite (renderByTemplate_skipped g refScope _ _ Hskip Href).
  apply (renderByTemplate_skipped g localScope _ _ Hskip Hlocal).
Qed.



End TraceFacts.

(** ** The further properties on concrete settings *)

Section ConcreteMore.
Import demo scenarios.

Lemma capability_filter_accounts_for_every_function_witness :
  Services (deref (snd (removeStreamingFunctions zero mixed 0)) 0)
  = map filtered_service [MixedService; UserFeed]
  /\ svc_Functions (filtered_service MixedService) = [GetOrder]
  /\ length (svc_Functions (filtered_service MixedService))
     + length (service_warnings MixedService) = 4
  /\ (exists msg, function_warnings "Mixed" Odd = [Warn [msg]]).
Proof.
  destruct (capability_filter_accounts_for_every_function
              (H := collaborators) zero mixed 0)
    as (A & _ & B & C & D & _).
  split; [exact A|]. split; [evaluate|].
  split; [exact (C MixedService)|].
  apply D. evaluate.
Defined.


Lemma render_failure_reports_witness :
  snd (@renderByTemplate collaborators zero (Some bad_scope)
         (template_New "thrift") "gen/a.go")
  = Some "gen/a.go: template: unknown type Bad"
  /\ snd (@renderByTemplate failing_resolution zero (Some money_scope)
            (template_New "thrift") "gen/a.go")
     = Some "import cycle: a -> b -> a"
  /\ snd (@renderByTemplate failing_fragment zero (Some money_scope)
            (template_New "thrift") "gen/a.go")
     = Some "gen/a.go: template: no template Imports"
  /\ Contents
       (res (fst (@renderByTemplate failing_fragment zero (Some money_scope)
                    (template_New "thrift") "gen/a.go")))
     = [ {| Content := "// thrift Money"; Name := Some "gen/a.go";
            InsertionPoint := None |} ].
Proof.
  destruct (render_failure_reports (H := collaborators) zero bad_scope
              (template_New "thrift") "gen/a.go" ltac:(evaluate))
    as (Hmain & _).
  destruct (render_failure_reports (H := failing_resolution) zero money_scope
              (template_New "thrift") "gen/a.go" ltac:(evaluate))
    as (_ & Hresolve & _).
  destruct (render_failure_reports (H := failing_fragment) zero money_scope
              (template_New "thrift") "gen/a.go" ltac:(evaluate))
    as (_ & _ & Hfragment).
  split; [apply (Hmain "// thrift" "template: unknown type Bad"); evaluate|].
  split.
  { apply (Hresolve "// thrift Money" "import cycle: a -> b -> a");
      evaluate. }
  apply (Hfragment "// thrift Money" [("context", "context");
                                      ("gen/Money", "Money")]
           "import (" "template: no template Imports"); evaluate.
Defined.

Lemma option_failure_precedence_witness :
  (response (Generate zero diamond (request ["trim_idl"; "bogus"] true) [])
   = BuildErrorResponse "unknown option: bogus"
   /\ Services
        (deref
           (graph (Generate zero diamond
                     (request ["trim_idl"; "bogus"] true) [])) 0)
      = map filtered_service (Services (deref diamond 0)))
  /\ response (Generate zero no_entry (request ["trim_idl"; "bogus"] true) [])
     = BuildErrorResponse "no service to start trimming from".
Proof.
  pose (cu := fst (handle_options (@NewCodeUtils collaborators)
                     ["trim_idl"; "bogus"])).
  assert (HandleOptions NewCodeUtils
            (GeneratorParameters (request ["trim_idl"; "bogus"] true))
          = (cu, Some "unknown option: bogus")) as Hopt by evaluate.
  assert (TrimIDL (features cu) = true) as Hon by evaluate.
  split.
  - destruct (option_failure_precedence (H := collaborators) zero diamond
                (request ["trim_idl"; "bogus"] true) [] cu _ eq_refl Hopt)
      as [Hkeep _].
    assert (TrimAST diamond (AST (request ["trim_idl"; "bogus"] true))
            = (diamond, inl {| StructsTrimmed := 0; FieldsTrimmed := 0;
                               StructsTotal := 1; FieldsTotal := 0 |}))
      as Htrim by evaluate.
    destruct (Hkeep diamond (or_intror (conj Hon (ex_intro _ _ Htrim))))
      as (Hr & _ & Hs & _).
    split; [exact Hr | apply Hs; evaluate].
  - destruct (option_failure_precedence (H := collaborators) zero no_entry
                (request ["trim_idl"; "bogus"] true) [] cu _ eq_refl Hopt)
      as [_ Hreplace].
    apply (Hreplace no_entry "no service to start trimming from" Hon).
    evaluate.
Defined.

Lemma render_loop_stops_at_first_failure_witness :
  err (executeTemplates (prepareTemplates (prepared [] true)) broken_diamond)
  = Some "broken.thrift: unresolved reference Money"
  /\ log (executeTemplates (prepareTemplates (prepared [] true))
            broken_diamond)
     = [Info ["Processing"; "order.thrift"];
        Info ["Processing"; "user.thrift"];
        Info ["Processing"; "common.thrift"];
        Info ["Processing"; "broken.thrift"]].
Proof.
  pose (g := prepareTemplates (prepared [] true)).
  pose (g3 := render_each g broken_diamond (first_occurrences ∅ [0; 1; 3])).
  pose (g4 := fst (renderOneFile
                     (log_Info g3 ["Processing";
                                   Filename (deref broken_diamond 2)])
                     broken_diamond 2)).
  destruct (render_loop_stops_at_first_failure (H := collaborators)
              g g4 broken_diamond [0; 1; 3] 2 [3]
              "broken.thrift: unresolved reference Money")
    as [Hexec Hlog].
  - evaluate.
  - evaluate.
  - intros [E | [E | [E | []]]]; discriminate.
  - evaluate.
  - evaluate.
  - fold g. split; [now rewrite Hexec|]. rewrite Hlog. evaluate.
Defined.

Lemma prepareTemplates_selection_witness :
  tpl_texts (tpl (prepareTemplates slim_backend))
  = ["{{define slim file}}"; "{{define slim struct}}"]
  /\ tpl_texts (tpl (prepareTemplates unknown_template_backend)) = []
  /\ tpl_texts (tpl (prepareTemplates zero)) = ["{{define file}}"].
Proof.
  destruct (prepareTemplates_selection (H := collaborators) slim_backend
              eq_refl) as (_ & _ & Hslim & _).
  destruct (prepareTemplates_selection (H := collaborators)
              unknown_template_backend eq_refl) as (_ & Hunknown & _).
  destruct (prepareTemplates_selection (H := collaborators) zero eq_refl)
    as (Hzero & _).
  split; [apply Hslim; [vm_compute; discriminate | evaluate]|].
  split; [apply Hunknown; [vm_compute; discriminate | evaluate]|].
  rewrite Hzero. evaluate.
Defined.

Lemma Version_helper_reports_the_request_witness :
  funcs (Generate_entry zero (request [] true) []) !! "Version"
  = Some (VersionFunc "0.3.0")
  /\ funcs (Generate_entry zero (request [] true) []) !! "InsertionPoint"
     = Some (UtilFunc "InsertionPoint").
Proof.
  destruct (Version_helper_reports_the_request (H := collaborators) zero
              (request [] true) []
              (fst (handle_options (@NewCodeUtils collaborators) []))
              eq_refl ltac:(evaluate))
    as (Hv & Hother & _).
  split; [exact Hv|].
  rewrite (Hother "InsertionPoint" ltac:(discriminate)). evaluate.
Defined.

Lemma companion_names_do_not_collide_witness :
  "gen/order.go" <> ToRefFilename false "gen/order.go"
  /\ ToRefFilename false "order" <> ToReflectionFilename "order"
  /\ filepath.Ext (ToReflectionRefFilename false "order") = ".go".
Proof.
  destruct (companion_names_do_not_collide "gen/order.go") as (A & _).
  destruct (companion_names_do_not_collide "order")
    as (_ & _ & _ & B & _ & _ & _ & _ & C & _).
  split; [exact A|]. split; [exact B | exact C].
Defined.

Lemma PostProcess_formats_go_paths_witness :
  PostProcess (prepared [] false) "gen/order-ref.go" "package order"
  = (prepared [] false, ("package order ", None))
  /\ PostProcess (prepared [] false) "gen/order-ref.go" "func("
     = (log_Warn (prepared [] false)
          ["Failed to format gen/order-ref.go: 1:6: expected type, found 'EOF'"],
        ("func(", None)).
Proof.
  split.
  - exact (PostProcess_formats_go_paths (H := collaborators)
             (prepared [] false) "gen/order-ref" "package order"
             ltac:(evaluate)).
  - exact (PostProcess_formats_go_paths (H := collaborators)
             (prepared [] false) "gen/order-ref" "func(" ltac:(evaluate)).
Defined.

Lemma PostProcess_looks_at_the_last_element_witness :
  filepath.Ext "vendor.go/README" = ""
  /\ PostProcess (prepared [] false) "vendor.go/README" "text"
     = (prepared [] false, ("text", None)).
Proof.
  destruct (PostProcess_looks_at_the_last_element (H := collaborators)
              (prepared [] false) "vendor.go" "README" "text") as [A B].
  split; [exact A | apply B; vm_compute; discriminate].
Defined.

Lemma preProcess_never_returns_on_a_cycle_witness :
  trim.preProcess mark_kept_part self_including 7 trimmer 0 "loop.thrift"
  = None.
Proof.
  apply (preProcess_never_returns_on_a_cycle mark_kept_part self_including
           "loop.thrift" (fun p => p = 0)); [|reflexivity].
  intros p ->. exists (mkInclude 11 "loop.thrift" 0).
  split; [right; now left | reflexivity].
Defined.

Lemma preProcess_reports_only_marking_witness :
  exists c : trim.call,
    rtc (trim.calls mark_kept_part diamond "order.thrift") (3, trimmer, 0) c
    /\ snd (mark_kept_part (snd (fst c)) diamond (snd c) "order.thrift")
       = true.
Proof.
  apply (preProcess_reports_only_marking mark_kept_part diamond
           "order.thrift" 3 trimmer 0
           (match trim.preProcess mark_kept_part diamond 3 trimmer 0
                    "order.thrift"
            with Some (t, _) => t | None => trimmer end)).
  evaluate.
Defined.

Lemma file_without_declarations_leaves_no_trace_witness :
  renderOneFile (prepareTemplates (prepared ["skip_empty"; "with_reflection"]
                                            false)) blank 0
  = (prepareTemplates (prepared ["skip_empty"; "with_reflection"] false),
     None).
Proof.
  apply (file_without_declarations_leaves_no_trace (H := collaborators)
           _ blank 0 (Some empty_scope) (Some empty_scope)).
  - evaluate.
  - evaluate.
  - intros s [= <-]. reflexivity.
  - intros s [= <-]. reflexivity.
Defined.

End ConcreteMore.
